(** * delphixpy-examples: the multi-engine job orchestrator

    A shallow embedding of the Python 2 scripts [js_container.py],
    [v1_8_0/dx_environment.py], [v1_8_0/dx_jobs.py],
    [v1_8_0/dx_replication.py] and of [lib/GetReferences.py].

    Python code is written in a small effect monad [Py E]: a program is a
    tree of atomic operations ([Vis]) ended by a return, a raised exception
    or an exhausted loop budget.  Worker code (everything a [main_workflow]
    thread executes) uses the operations [weff]: the process-wide
    [dx_session_obj], the remote engine, [sleep] and printing.  Coordinator
    code ([run_job], [main]) uses [ceff]: printing, starting a thread and
    joining it.  The operations get their meaning from [perform]; [exec]
    runs one thread to completion, [run_main] runs the coordinator with
    every worker run to completion when it is started, and [Interleaving]
    runs coordinator and workers under an arbitrary schedule. *)

From stdpp Require Import base option list strings gmap pretty.
From Stdlib Require Import Ascii ZArith Lia.

Open Scope string_scope.
Open Scope list_scope.

(** ** Exceptions and results *)

(** [RequestError], [JobError] and [HttpError] are the classes of
    [delphixpy.exceptions], which js_container.py, v1_8_0/dx_environment.py
    and lib/GetReferences.py import.  v1_8_0/dx_jobs.py and
    v1_8_0/dx_replication.py import the classes of the same names from
    [delphixpy.v1_8_0.exceptions]: other classes, which an [except] clause
    naming the former does not catch, and the other way round. *)
Inductive exn : Type :=
| DlpxException (msg : string)
| RequestError
| JobError
| HttpError
| RequestError_v1_8_0
| JobError_v1_8_0
| HttpError_v1_8_0
| AttributeError
| KeyError (key : string)
| TypeError
| ValueError
| UnboundLocalError (var : string)
| SystemExit (code : Z).

(** What a remote call answers: a value, or the exception it raises. *)
Inductive res (R : Type) : Type :=
| Ok (r : R)
| Err (e : exn).
Arguments Ok {R} r.
Arguments Err {R} e.

(** How a thread's run ends. [Exhausted]: the loop budget of the model ran
    out (the Python loop would still be running). *)
Inductive result (A : Type) : Type :=
| Returned (a : A)
| Raised (e : exn)
| Exhausted.
Arguments Returned {A} a.
Arguments Raised {A} e.
Arguments Exhausted {A}.

(** ** The effect monad *)

Inductive Py (E : Type -> Type) (A : Type) : Type :=
| Ret (a : A)
| Raise (e : exn)
| OutOfFuel
| Vis {R : Type} (o : E R) (k : R -> Py E A).
Arguments Ret {E A} a.
Arguments Raise {E A} e.
Arguments OutOfFuel {E A}.
Arguments Vis {E A R} o k.

Fixpoint bind {E A B} (m : Py E A) (f : A -> Py E B) : Py E B :=
  match m with
  | Ret a => f a
  | Raise e => Raise e
  | OutOfFuel => OutOfFuel
  | Vis o k => Vis o (fun r => bind (k r) f)
  end.

Notation "x <- m ;; k" := (bind m (fun x => k))
  (at level 100, m at next level, right associativity).
Notation "m ;; k" := (bind m (fun _ => k))
  (at level 100, right associativity).

Definition call {E R} (o : E R) : Py E R := Vis o Ret.

(** [try: p  except <h>:], where [h e] is the body of the clause that
    catches [e], or [None] when no clause does. *)
Fixpoint try_except {E A} (p : Py E A) (h : exn -> option (Py E A)) : Py E A :=
  match p with
  | Ret a => Ret a
  | Raise e => match h e with Some q => q | None => Raise e end
  | OutOfFuel => OutOfFuel
  | Vis o k => Vis o (fun r => try_except (k r) h)
  end.

(** [for x in l: body x] *)
Fixpoint for_each {E X} (l : list X) (body : X -> Py E unit) : Py E unit :=
  match l with
  | [] => Ret tt
  | x :: l' => body x ;; for_each l' body
  end.

(** A property of every operation a program can perform, whatever the
    operations answer. *)
Fixpoint all_ops {E A} (P : forall R, E R -> Prop) (p : Py E A) : Prop :=
  match p with
  | Vis o k => P _ o /\ forall r, all_ops P (k r)
  | _ => True
  end.

(** ** Data *)

(** One entry of dxtools.conf: [engine['ip_address']], ... *)
Record Engine : Type := {
  ip_address : string;
  username : string;
  password : string;
  hostname : string;
  default : string
}.

(** [dx_session_obj.dlpx_engines]: a dict from engine name to engine, as its
    items in iteration order (the keys of a dict are distinct). *)
Definition Config : Type := list (string * Engine).

Fixpoint dict_get (cfg : Config) (key : string) : option Engine :=
  match cfg with
  | [] => None
  | (k, e) :: cfg' => if String.eqb k key then Some e else dict_get cfg' key
  end.

(** The object classes of the delphixpy [web] package that the scripts use. *)
Inductive obj_class : Type :=
| c_container | c_template | c_bookmark | c_datasource | c_database | c_user
| c_environment | c_environment_user | c_host | c_spec | c_sourceconfig
| c_repository.

(** A value object as [get_all] returns them: the attributes the scripts
    use in their control flow or pass on, and the ones they only print
    ([attrs]). *)
Record Obj : Type := {
  name : string;
  reference : string;
  active_branch : string;
  container : string;
  primary_user : string;
  host : string;
  last_updated : string;
  objects : list string;
  jdbc_strings : option (list string);
  attrs : list (string * string)
}.

(** [str(obj.<a>)] for an attribute that is only printed. *)
Definition attr (obj : Obj) (a : string) : string :=
  from_option id "None" (snd <$> find (fun kv => String.eqb (fst kv) a) (attrs obj)).

(** A job reference as the tracker holds it: [server_session.last_job],
    which is [None] when the session has started no job. *)
Definition job_ref : Type := option string.

(** A job as [job.get] returns it. *)
Record Job : Type := {
  job_reference : string;
  job_state : string;
  job_title : string
}.

Inductive api : Type :=
| Create | Delete | Refresh | Restore | Add_owner | Remove_owner | Update
| Execute.

(** Calls whose answer the code takes from outside: the delphixpy library
    and the engine behind it ([s] is the session object the call is made
    through), and the regular expressions, the integer parsing and the date
    arithmetic of the Python library. *)
Inductive rcall : Type -> Type :=
| Connect (ip user pw : string) : rcall unit
| Get_all (s : option string) (c : obj_class) (filter : option string)
    : rcall (list Obj)
| Get (s : option string) (c : obj_class) (ref : string) : rcall Obj
| Invoke (s : option string) (c : obj_class) (a : api)
    (target : option string) (params : list string) : rcall string
| Job_get (s : option string) (ref : job_ref) : rcall Job
| Job_get_all (s : option string) (state : option string) : rcall (list Job)
| Last_job (s : option string) : rcall job_ref
| Time_get (s : option string) : rcall string
| Re_search (pattern text : string) : rcall bool
| Int_of (text : string) : rcall Z
| Localtime (timestamp zone : string) : rcall string.

Inductive channel : Type := Stdout | Info | Debug | Exception.

(** Worker operations. *)
Inductive weff : Type -> Type :=
| Serversess (ip user pw : string) : weff (res unit)
| Server_session : weff (option string)
| Jobs_keys : weff (list string)
| Jobs_len : weff nat
| Jobs_getitem (k : string) : weff (option job_ref)
| Jobs_setitem (k : string) (v : job_ref) : weff unit
| Jobs_delitem (k : string) : weff bool
| Remote {R : Type} (c : rcall R) : weff (res R)
| Sleep (secs : string) : weff unit
| Print (ch : channel) (fmt : string) (args : list string) : weff unit.

(** Coordinator operations. *)
Inductive ceff : Type -> Type :=
| CPrint (ch : channel) (fmt : string) (args : list string) : ceff unit
| Thread_start (engine : option Engine) : ceff nat
| Thread_join (t : nat) : ceff unit.

Class Printing (E : Type -> Type) : Type :=
  print_op : channel -> string -> list string -> E unit.
#[global] Instance weff_printing : Printing weff := Print.
#[global] Instance ceff_printing : Printing ceff := CPrint.

Definition print {E} `{Printing E} (fmt : string) (args : list string) : Py E unit :=
  call (print_op Stdout fmt args).
Definition print_info {E} `{Printing E} (fmt : string) (args : list string) : Py E unit :=
  call (print_op Info fmt args).
Definition print_debug {E} `{Printing E} (fmt : string) (args : list string) : Py E unit :=
  call (print_op Debug fmt args).
Definition print_exception {E} `{Printing E} (fmt : string) (args : list string) : Py E unit :=
  call (print_op Exception fmt args).

(** [sys.exit(n)] *)
Definition sys_exit {E A} (n : Z) : Py E A := Raise (SystemExit n).

(** A remote call in Python: returns the value or raises. *)
Definition remote_call {R} (c : rcall R) : Py weff R :=
  r <- call (Remote c) ;;
  match r with Ok v => Ret v | Err e => Raise e end.

(** ** The process-wide session object and one thread's execution *)

(** Modelled from the spec: class [GetSession] (lib/GetSession.py) is not in
    the sources.  The scripts read and write three attributes of the one
    instance [dx_session_obj]: [dlpx_engines] (the configuration, read-only
    once loaded, here a [Config] passed to the coordinator),
    [server_session] and [jobs] (the job tracker: tracking key |-> job
    reference).  A session object is identified by the address it was
    opened for. *)
Record GetSession : Type := {
  server_session : option string;
  jobs : gmap string job_ref
}.

Definition GetSession_new : GetSession :=
  {| server_session := None; jobs := ∅ |}.

(** What a thread did: each operation with its answer, in order. *)
Inductive event : Type :=
| Ev {R : Type} (o : weff R) (r : R).

Record tstate : Type := {
  session : GetSession;
  calls : nat;
  trace : list event
}.

(** The world outside the process: the answer to the [n]-th remote call of
    a thread. *)
Definition oracle : Type := nat -> forall R, rcall R -> res R.

Definition answer {R} (o : weff R) (r : R) (s : GetSession) (n : nat) (st : tstate)
  : R * tstate :=
  (r, {| session := s; calls := n; trace := trace st ++ [Ev o r] |}).

(** Modelled from the spec: [GetSession.serversess] is not in the sources;
    it opens the session for one engine (spec 4.3, INIT) and stores it in
    [dx_session_obj.server_session]; the scripts expect [DlpxException]
    when it fails. *)
Definition perform (w : oracle) {R} (o : weff R) (st : tstate) : R * tstate :=
  let s := session st in
  let n := calls st in
  match o in weff R return R * tstate with
  | Serversess ip user pw =>
      match w n _ (Connect ip user pw) with
      | Ok _ =>
          answer (Serversess ip user pw) (Ok tt)
            {| server_session := Some ip; jobs := jobs s |} (S n) st
      | Err e => answer (Serversess ip user pw) (Err e) s (S n) st
      end
  | Server_session => answer Server_session (server_session s) s n st
  | Jobs_keys => answer Jobs_keys (map_to_list (jobs s)).*1 s n st
  | Jobs_len => answer Jobs_len (size (jobs s)) s n st
  | Jobs_getitem k => answer (Jobs_getitem k) (jobs s !! k) s n st
  | Jobs_setitem k v =>
      answer (Jobs_setitem k v) tt
        {| server_session := server_session s; jobs := <[k := v]> (jobs s) |} n st
  | Jobs_delitem k =>
      answer (Jobs_delitem k) (bool_decide (is_Some (jobs s !! k)))
        {| server_session := server_session s; jobs := delete k (jobs s) |} n st
  | Remote c => answer (Remote c) (w n _ c) s (S n) st
  | Sleep secs => answer (Sleep secs) tt s n st
  | Print ch fmt args => answer (Print ch fmt args) tt s n st
  end.

Fixpoint exec (w : oracle) {A} (p : Py weff A) (st : tstate) : result A * tstate :=
  match p with
  | Ret a => (Returned a, st)
  | Raise e => (Raised e, st)
  | OutOfFuel => (Exhausted, st)
  | Vis o k => let '(r, st') := perform w o st in exec w (k r) st'
  end.

(** ** Python helpers *)

(** Truth value of [arguments['--x']] for an option that takes a value:
    [None] when absent, and an empty string is false as well. *)
Definition truthy (a : option string) : bool :=
  match a with
  | Some s => negb (String.eqb s "")
  | None => false
  end.

(** The value of an option that docopt's usage pattern makes present. *)
Definition arg (a : option string) : string := from_option id "" a.

(** [x in l] for a list of strings. *)
Definition str_in (x : string) (l : list string) : bool :=
  existsb (String.eqb x) l.

(** [x in s] for strings: [x] occurs in [s]. *)
Fixpoint str_in_str (x s : string) : bool :=
  String.prefix x s ||
  match s with
  | EmptyString => false
  | String _ s' => str_in_str x s'
  end.

(** [s.split(sep)] for a one-character separator. *)
Fixpoint str_split_aux (sep : ascii) (s acc : string) : list string :=
  match s with
  | EmptyString => [String.rev acc]
  | String c s' =>
      if Ascii.eqb c sep then String.rev acc :: str_split_aux sep s' ""
      else str_split_aux sep s' (String c acc)
  end.
Definition str_split (sep : ascii) (s : string) : list string :=
  str_split_aux sep s "".

(** [float(s)] for a string.  Python 2 skips white space at both ends and
    accepts a decimal number (digits with an optional point, at least one
    digit, and an optional exponent) or [inf], [infinity] or [nan] in any
    case, each with an optional sign; on any other text it raises
    [ValueError]. *)
Definition is_space (c : ascii) : bool :=
  let n := nat_of_ascii c in
  ((n =? 32) || ((9 <=? n) && (n <=? 13)))%nat.

Definition is_digit (c : ascii) : bool :=
  let n := nat_of_ascii c in
  ((48 <=? n) && (n <=? 57))%nat.

Definition lower_char (c : ascii) : ascii :=
  let n := nat_of_ascii c in
  if ((65 <=? n) && (n <=? 90))%nat then ascii_of_nat (n + 32) else c.

Fixpoint lstrip (s : string) : string :=
  match s with
  | String c s' => if is_space c then lstrip s' else s
  | EmptyString => s
  end.

Fixpoint skip_digits (s : string) : string :=
  match s with
  | String c s' => if is_digit c then skip_digits s' else s
  | EmptyString => s
  end.

Definition skip_sign (s : string) : string :=
  match s with
  | String c s' => if Ascii.eqb c "+" || Ascii.eqb c "-" then s' else s
  | EmptyString => s
  end.

(** What follows the exponent at the start of [s], or [s] itself when
    [s] does not start with a complete exponent. *)
Definition skip_exponent (s : string) : string :=
  match s with
  | String c s' =>
      if Ascii.eqb (lower_char c) "e" then
        let digits := skip_sign s' in
        if (String.length (skip_digits digits) <? String.length digits)%nat
        then skip_digits digits else s
      else s
  | EmptyString => s
  end.

(** What follows the decimal number at the start of [s]; [None] when [s]
    does not start with one. *)
Definition decimal_rest (s : string) : option string :=
  let s1 := skip_digits s in
  let s2 := match s1 with
            | String c s' => if Ascii.eqb c "." then skip_digits s' else s1
            | EmptyString => s1
            end in
  let point := match s1 with
               | String c _ => if Ascii.eqb c "." then 1 else 0
               | EmptyString => 0
               end in
  if (String.length s2 + point <? String.length s)%nat
  then Some (skip_exponent s2) else None.

(** [s] without the prefix [p], compared without regard to case. *)
Fixpoint skip_word (p s : string) : option string :=
  match p, s with
  | EmptyString, _ => Some s
  | String a p', String c s' =>
      if Ascii.eqb a (lower_char c) then skip_word p' s' else None
  | String _ _, EmptyString => None
  end.

Definition inf_nan_rest (s : string) : option string :=
  match skip_word "inf" s with
  | Some rest => Some (from_option id rest (skip_word "inity" rest))
  | None => skip_word "nan" s
  end.

Definition float_literal (s : string) : bool :=
  let body := skip_sign (lstrip s) in
  match decimal_rest body with
  | Some rest => String.eqb (lstrip rest) ""
  | None =>
      match inf_nan_rest body with
      | Some rest => String.eqb (lstrip rest) ""
      | None => false
      end
  end.

(** [float(s)]; the number is kept as its text. *)
Definition float_of {E} (s : string) : Py E string :=
  if float_literal s then Ret s else Raise ValueError.

(** [l.pop()]: the list without its last element. *)
Definition pop {X} (l : list X) : list X := removelast l.

(** [for x in l:] with a loop state and [break]. *)
Inductive ctl : Type := Next | Break.

Fixpoint for_loop {E X S} (l : list X) (s : S) (body : X -> S -> Py E (ctl * S))
  : Py E S :=
  match l with
  | [] => Ret s
  | x :: l' =>
      r <- body x s ;;
      match r with
      | (Next, s') => for_loop l' s' body
      | (Break, s') => Ret s'
      end
  end.

(** [except (X, Y, ...) as e:] *)
Inductive exn_class : Type :=
| K_DlpxException | K_RequestError | K_JobError | K_HttpError
| K_RequestError_v1_8_0 | K_JobError_v1_8_0 | K_HttpError_v1_8_0
| K_AttributeError | K_KeyError | K_TypeError.

Definition isinstance (e : exn) (c : exn_class) : bool :=
  match e, c with
  | DlpxException _, K_DlpxException => true
  | RequestError, K_RequestError => true
  | JobError, K_JobError => true
  | HttpError, K_HttpError => true
  | RequestError_v1_8_0, K_RequestError_v1_8_0 => true
  | JobError_v1_8_0, K_JobError_v1_8_0 => true
  | HttpError_v1_8_0, K_HttpError_v1_8_0 => true
  | AttributeError, K_AttributeError => true
  | KeyError _, K_KeyError => true
  | TypeError, K_TypeError => true
  | _, _ => false
  end.

Definition except {E A} (cs : list exn_class) (body : exn -> Py E A)
  : exn -> option (Py E A) :=
  fun e => if existsb (isinstance e) cs then Some (body e) else None.

(** [str(e)] *)
Definition str_exn (e : exn) : string :=
  match e with
  | DlpxException m => m
  | RequestError => "RequestError"
  | JobError => "JobError"
  | HttpError => "HttpError"
  | RequestError_v1_8_0 => "RequestError"
  | JobError_v1_8_0 => "JobError"
  | HttpError_v1_8_0 => "HttpError"
  | AttributeError => "AttributeError"
  | KeyError k => k
  | TypeError => "TypeError"
  | ValueError => "ValueError"
  | UnboundLocalError v => v
  | SystemExit c => pretty c
  end.

(** The three states in which a job is finished. *)
Definition terminal_states : list string := ["CANCELED"; "COMPLETED"; "FAILED"].

(** A call of the engine's API whose result is not used. *)
Definition invoke (s : option string) (c : obj_class) (a : api)
    (target : option string) (params : list string) : Py weff unit :=
  remote_call (Invoke s c a target params) ;; Ret tt.

(** [s.upper()] *)
Definition upper_char (c : ascii) : ascii :=
  let n := nat_of_ascii c in
  if ((97 <=? n) && (n <=? 122))%nat then ascii_of_nat (n - 32) else c.
Fixpoint str_upper (s : string) : string :=
  match s with
  | EmptyString => EmptyString
  | String c s' => String (upper_char c) (str_upper s')
  end.

(** [dx_session_obj.jobs[k]] and [del dx_session_obj.jobs[k]] *)
Definition jobs_getitem (k : string) : Py weff job_ref :=
  r <- call (Jobs_getitem k) ;;
  match r with Some v => Ret v | None => Raise (KeyError k) end.

Definition jobs_delitem (k : string) : Py weff unit :=
  r <- call (Jobs_delitem k) ;;
  if r : bool then Ret tt else Raise (KeyError k).

(** [dx_session_obj.serversess(...)] *)
Definition serversess (ip user pw : string) : Py weff unit :=
  r <- call (Serversess ip user pw) ;;
  match r with Ok _ => Ret tt | Err e => Raise e end.

(** [engine['ip_address']] and the like: [engine] is a dict, or [None]. *)
Definition engine_item {E} (engine : option Engine) : Py E Engine :=
  match engine with
  | Some e => Ret e
  | None => Raise TypeError
  end.

(** [d[key]] for the configuration dict. *)
Definition dict_getitem {E} (cfg : Config) (key : string) : Py E Engine :=
  match dict_get cfg key with
  | Some e => Ret e
  | None => Raise (KeyError key)
  end.

(** Modelled from the spec: [dx_session_obj[name]], that is
    [GetSession.__getitem__], is not in the sources; the configuration
    source is a mapping from engine name to address, credentials and
    default flag (spec 6), so the subscript is taken to be the lookup of the
    engine in that mapping. *)
Definition session_getitem {E} (cfg : Config) (key : string) : Py E Engine :=
  dict_getitem cfg key.

(** ** lib/GetReferences.py *)

Module GetReferences.

(** The argument [active_branch]: [False], [True], or any other object. *)
Inductive pyarg : Type := PyFalse | PyTrue | PyOther.

(** What [find_obj_by_name] returns: the object, or the list
    [[reference, active_branch]]. *)
Inductive found : Type :=
| Found_obj (obj : Obj)
| Found_list (return_list : list string).

(** [convert_timestamp]: the engine's time zone is fetched; the
    conversion itself is date arithmetic of the Python library
    ([Localtime]), which raises [ValueError] when [strptime] cannot read the
    time stamp and [TypeError] when the time zone is not known. *)
Definition convert_timestamp (engine : option string) (timestamp : string)
  : Py weff (option string) :=
  engine_tz <- remote_call (Time_get engine) ;;
  try_except
    (engine_local_tz <- remote_call (Localtime timestamp engine_tz) ;;
     Ret (Some engine_local_tz))
    (except [K_TypeError] (fun _ => Ret None)).

(** The [for obj in all_objs:] loop of [find_obj_by_name], which returns
    from inside the loop. *)
Fixpoint find_obj_by_name_for (all_objs : list Obj) (obj_name : string)
    (active_branch : pyarg) : option found :=
  match all_objs with
  | [] => None
  | obj :: rest =>
      if String.eqb (name obj) obj_name then
        match active_branch with
        | PyFalse => Some (Found_obj obj)
        | PyTrue =>
            let 'Build_Obj _ obj_reference obj_active_branch _ _ _ _ _ _ _ := obj in
            Some (Found_list [obj_reference; obj_active_branch])
        | PyOther => Some (Found_obj obj)
        end
      else find_obj_by_name_for rest obj_name active_branch
  end.


Definition find_obj_by_name (engine : option string) (f_class : obj_class)
    (obj_name : string) (active_branch : pyarg) : Py weff found :=
  all_objs <-
    try_except (remote_call (Get_all engine f_class None))
      (except [K_AttributeError] (fun e =>
         Raise (DlpxException
                  ("Could not find reference for object class" ++ str_exn e)))) ;;
  match find_obj_by_name_for all_objs obj_name active_branch with
  | Some r => Ret r
  | None =>
      (* If the object isn't found, raise an exception. *)
      match engine with
      | Some address =>
          Raise (DlpxException (obj_name ++ " was not found on engine " ++ address ++ "."))
      | None => Raise AttributeError
      end
  end.

(** [find_obj_by_name(...).reference] *)
Definition reference_of (r : found) : Py weff string :=
  match r with
  | Found_obj obj => Ret (reference obj)
  | Found_list _ => Raise AttributeError
  end.

Definition find_obj_specs (engine : option string) (obj_lst : list string)
  : Py weff (list string) :=
  for_loop obj_lst [] (fun obj rep_lst =>
    r <- find_obj_by_name engine c_database obj PyFalse ;;
    ref <- reference_of r ;;
    Ret (Next, rep_lst ++ [ref])).

(** An element of the list [get_obj_reference] returns. *)
Inductive pyval : Type := PStr (s : string) | PBool (b : bool).

Fixpoint get_obj_reference_for (results : list Obj) (obj_name : string)
    (search_str : option string) (container : bool)
  : Py weff (option (list pyval)) :=
  match results with
  | [] => Ret None
  | result :: rest =>
      let 'Build_Obj result_name result_reference _ result_container _ _ _ _ _ _ :=
        result in
      if negb container then
        if String.eqb result_name obj_name then
          if truthy search_str then
            m <- remote_call (Re_search (arg search_str) result_reference) ;;
            Ret (Some [PStr result_reference; PBool m])
          else Ret (Some [PStr result_reference])
        else get_obj_reference_for rest obj_name search_str container
      else
        if String.eqb result_container obj_name then
          Ret (Some [PStr result_reference])
        else get_obj_reference_for rest obj_name search_str container
  end.

Definition get_obj_reference (engine : option string) (obj_type : obj_class)
    (obj_name : string) (search_str : option string) (container : bool)
  : Py weff (list pyval) :=
  results <- remote_call (Get_all engine obj_type None) ;;
  r <- get_obj_reference_for results obj_name search_str container ;;
  match r with
  | Some ret_lst => Ret ret_lst
  | None => Raise (DlpxException ("Reference not found for " ++ obj_name))
  end.

(** [get_obj_reference(...).pop()], used as a reference. *)
Definition pop_reference (ret_lst : list pyval) : string :=
  match last ret_lst with
  | Some (PStr s) => s
  | Some (PBool true) => "True"
  | Some (PBool false) => "False"
  | None => ""
  end.

(** Modelled from the spec: [find_obj_name] is imported from
    lib.GetReferences by the scripts but is not in the sources; it is the
    reference -> name lookup of the resource-resolution service (spec 6),
    whose failures abort the engine's operation; it is written after its
    sibling [get_db_name]. *)
Definition find_obj_name (engine : option string) (f_class : obj_class)
    (obj_reference : string) : Py weff string :=
  try_except
    (obj <- remote_call (Get engine f_class obj_reference) ;;
     Ret (name obj))
    (except [K_RequestError; K_JobError; K_HttpError] (fun e =>
       Raise (DlpxException (str_exn e)))).

(** The [for obj in all_objs:] loop of [find_sourceconfig]: its body
    returns or raises, so it never reaches a second element. *)
Definition find_sourceconfig_for (all_objs : list Obj) (sourceconfig_name : string)
  : Py weff (option Obj) :=
  match all_objs with
  | [] => Ret None
  | obj :: _ =>
      if String.eqb (name obj) sourceconfig_name then
        print_debug "Found a match %s" [] ;;
        Ret (Some obj)
      else
        Raise (DlpxException
                 ("No sourceconfig match found for type " ++ sourceconfig_name ++ "."))
  end.

Definition find_sourceconfig (engine : option string) (sourceconfig_name : string)
    (f_environment_ref : string) : Py weff (option Obj) :=
  print_debug
    "Searching objects in the SourceConfig class for one with the environment reference of %s and a name of %s"
    [f_environment_ref; sourceconfig_name] ;;
  all_objs <- remote_call (Get_all engine c_sourceconfig (Some f_environment_ref)) ;;
  find_sourceconfig_for all_objs sourceconfig_name.

(** [find_all_objects]: what [get_all] returns; [JobError] and
    [HttpError] become [DlpxException], whose message reads
    [engine.address]. *)
Definition find_all_objects (engine : option string) (f_class : obj_class)
  : Py weff (list Obj) :=
  try_except (remote_call (Get_all engine f_class None))
    (except [K_JobError; K_HttpError] (fun e =>
       match engine with
       | Some address =>
           Raise (DlpxException (address ++ " Error encountered in {}: " ++ str_exn e))
       | None => Raise AttributeError
       end)).

(** [find_obj_list]: [None] is returned if no match is found. *)
Fixpoint find_obj_list (obj_lst : list Obj) (obj_name : string) : option Obj :=
  match obj_lst with
  | [] => None
  | obj :: rest =>
      if String.eqb obj_name (name obj) then Some obj else find_obj_list rest obj_name
  end.

(** [get_db_name]: one handler for [RequestError], one for [JobError] and
    [HttpError]; both raise [DlpxException]. *)
Definition get_db_name (engine : option string) (db_reference : string)
  : Py weff string :=
  try_except
    (db_name <- remote_call (Get engine c_database db_reference) ;;
     Ret (name db_name))
    (fun e =>
       if isinstance e K_RequestError then Some (Raise (DlpxException (str_exn e)))
       else if existsb (isinstance e) [K_JobError; K_HttpError] then
         Some (Raise (DlpxException (str_exn e)))
       else None).

(** [obj.<a> == v] for an attribute of a repository object. *)
Definition attr_is (obj : Obj) (a v : string) : bool :=
  match find (fun kv => String.eqb (fst kv) a) (attrs obj) with
  | Some kv => String.eqb (snd kv) v
  | None => false
  end.

(** The [for obj in all_objs:] loop of [find_dbrepo]: it returns from
    inside the loop, raises in its last branch, and ends without a
    [return] when nothing matches. *)
Fixpoint find_dbrepo_for (all_objs : list Obj) (install_type f_install_path : string)
  : Py weff (option Obj) :=
  match all_objs with
  | [] => Ret None
  | obj :: rest =>
      if String.eqb "OracleInstall" install_type then
        if attr_is obj "type" install_type
           && attr_is obj "installation_home" f_install_path then
          print_debug "Found a match %s" [] ;;
          Ret (Some obj)
        else find_dbrepo_for rest install_type f_install_path
      else if String.eqb "MSSqlInstance" install_type then
        if attr_is obj "type" install_type
           && attr_is obj "instance_name" f_install_path then
          print_debug "Found a match {}" [reference obj] ;;
          Ret (Some obj)
        else find_dbrepo_for rest install_type f_install_path
      else
        Raise (DlpxException ("No Repo match found for type " ++ install_type ++ "."))
  end.

Definition find_dbrepo (engine : option string)
    (install_type f_environment_ref f_install_path : string) : Py weff (option Obj) :=
  print_debug
    "Searching objects in the %s class for one with the environment reference of %s and an install path of %s"
    [install_type; f_environment_ref; f_install_path] ;;
  all_objs <- remote_call (Get_all engine c_repository (Some f_environment_ref)) ;;
  find_dbrepo_for all_objs install_type f_install_path.

End GetReferences.

(** ** js_container.py *)

Module js_container.
Import GetReferences.

(** [arguments]: what docopt returns for the usage text of the script. *)
Record Arguments : Type := {
  opt_create_container : option string;
  opt_template_name : option string;
  opt_database : option string;
  opt_list_hiearchy : option string;
  opt_list : bool;
  opt_delete_container : option string;
  opt_keep_vdbs : bool;
  opt_refresh_container : option string;
  opt_add_owner : option string;
  opt_remove_owner : option string;
  opt_container_name : option string;
  opt_restore_container : option string;
  opt_bookmark_name : option string;
  opt_engine : option string;
  opt_all : bool;
  opt_poll : string;
  opt_config : string
}.

(** [--poll <n>  ... [default: 10]]: the value docopt stores when the
    command line has, or has not, the option. *)
Definition docopt_poll (given : option string) : string :=
  from_option id "10" given.

Section Worker.
Variable arguments : Arguments.

Definition build_ds_params (obj : obj_class) (db : string) : Py weff string :=
  try_except
    (s <- call Server_session ;;
     db_obj <- find_obj_by_name s obj db PyFalse ;;
     ref <- reference_of db_obj ;;
     Ret (db ++ "=" ++ ref)%string)
    (except [K_RequestError] (fun e =>
       print "Could not find {} {}" [db; str_exn e] ;;
       sys_exit 1)).

Definition create_container (template_name container_name database_name : string)
  : Py weff unit :=
  container_ds_lst <-
    for_loop (str_split ":" database_name) [] (fun db container_ds_lst =>
      ds <- build_ds_params c_database db ;;
      Ret (Next, container_ds_lst ++ [ds])) ;;
  try_except
    (s <- call Server_session ;;
     js_template_obj <- find_obj_by_name s c_template template_name PyFalse ;;
     template_ref <- reference_of js_template_obj ;;
     s' <- call Server_session ;;
     invoke s' c_container Create None
          (container_name :: template_ref :: container_ds_lst))
    (except [K_DlpxException; K_RequestError; K_HttpError] (fun e =>
       print "Container {} was not created. The error was: {}"
         [container_name; str_exn e] ;;
       sys_exit 1)).

Definition remove_owner (owner_name container_name : string) : Py weff unit :=
  try_except
    (s <- call Server_session ;;
     user_obj <- find_obj_by_name s c_user owner_name PyFalse ;;
     owner_ref <- reference_of user_obj ;;
     s1 <- call Server_session ;;
     container_obj <- find_obj_by_name s1 c_container container_name PyFalse ;;
     s2 <- call Server_session ;;
     container_ref <- reference_of container_obj ;;
     invoke s2 c_container Remove_owner (Some container_ref) [owner_ref])
    (except [K_DlpxException; K_RequestError; K_HttpError] (fun e =>
       print "User, {}, was not added to container {}. The errorwas: {}"
         [owner_name; container_name; str_exn e] ;;
       sys_exit 1)).

Definition restore_container (container_name bookmark_name : string) : Py weff unit :=
  s <- call Server_session ;;
  bookmark_ref <- get_obj_reference s c_bookmark bookmark_name None false ;;
  s1 <- call Server_session ;;
  s2 <- call Server_session ;;
  container_ref <- get_obj_reference s2 c_container container_name None false ;;
  invoke s1 c_container Restore (Some (pop_reference container_ref))
       [pop_reference bookmark_ref].

Definition add_owner (owner_name container_name : string) : Py weff unit :=
  try_except
    (s <- call Server_session ;;
     owner_ref <- get_obj_reference s c_user owner_name None false ;;
     s1 <- call Server_session ;;
     s2 <- call Server_session ;;
     container_ref <- get_obj_reference s2 c_container container_name None false ;;
     invoke s1 c_container Add_owner (Some (pop_reference container_ref))
          [pop_reference owner_ref])
    (except [K_DlpxException; K_RequestError; K_HttpError] (fun e =>
       print "User, {}, was not added to container {}. The error was: {}"
         [owner_name; container_name; str_exn e] ;;
       sys_exit 1)).

Definition refresh_container (container_name : string) : Py weff unit :=
  try_except
    (s <- call Server_session ;;
     s1 <- call Server_session ;;
     container_ref <- get_obj_reference s1 c_container container_name None false ;;
     invoke s c_container Refresh (Some (pop_reference container_ref)) [])
    (except [K_DlpxException; K_RequestError; K_HttpError] (fun e =>
       print "Container {} was not refreshed. The error was: {}"
         [container_name; str_exn e] ;;
       sys_exit 1)).

Definition delete_container (container_name : string) : Py weff unit :=
  try_except
    (if opt_keep_vdbs arguments then
       s <- call Server_session ;;
       s1 <- call Server_session ;;
       container_ref <- get_obj_reference s1 c_container container_name None false ;;
       invoke s c_container Delete (Some (pop_reference container_ref))
            ["delete_data_sources=False"]
     else if negb (opt_keep_vdbs arguments) then
       s <- call Server_session ;;
       s1 <- call Server_session ;;
       container_ref <- get_obj_reference s1 c_container container_name None false ;;
       invoke s c_container Delete (Some (pop_reference container_ref)) []
     else Ret tt)
    (except [K_DlpxException; K_RequestError; K_HttpError] (fun e =>
       print "Container {} was not deleted. The error was: {}"
         [container_name; str_exn e] ;;
       sys_exit 1)).

(** [s[:-5]] *)
Definition drop_last_5 (s : string) : string :=
  String.substring 0 (String.length s - 5) s.

Definition list_containers : Py weff unit :=
  s <- call Server_session ;;
  js_containers <- remote_call (Get_all s c_container None) ;;
  print "Name Active Branch Owner Reference Template Last Updated" [] ;;
  for_each js_containers (fun js_container =>
    s1 <- call Server_session ;;
    last_updated <- convert_timestamp s1 (drop_last_5 (last_updated js_container)) ;;
    print "{}, {}, {}, {}, {}, {}"
      [name js_container; active_branch js_container; attr js_container "owner";
       reference js_container; attr js_container "template";
       from_option id "None" last_updated]).

(** The line feed. *)
Definition newline : string := String "010" "".

(** [convert_dct_str], on the items of the dictionary: a value is the list
    of JDBC strings, or the string ['None']. *)
Definition convert_dct_str (obj_dct : list (string * option (list string))) : string :=
  foldr (fun '(js_db, js_jdbc) js_str =>
           match js_jdbc with
           | Some l => (js_db ++ ": " ++ String.concat ", " l ++ newline ++ js_str)%string
           | None => (js_db ++ ": None" ++ newline ++ js_str)%string
           end) "" obj_dct.

Definition list_hiearchy (container_name : string) : Py weff unit :=
  s <- call Server_session ;;
  layout <- find_obj_by_name s c_container container_name PyFalse ;;
  layout_ref <- reference_of layout ;;
  s1 <- call Server_session ;;
  datasources <- remote_call (Get_all s1 c_datasource (Some layout_ref)) ;;
  database_dct <-
    for_loop datasources (∅ : gmap string (option (list string)))
      (fun ds database_dct =>
         s2 <- call Server_session ;;
         db_name <- find_obj_name s2 c_database (container ds) ;;
         Ret (Next, <[db_name := jdbc_strings ds]> database_dct)) ;;
  try_except
    (print "Container: {} Related VDBs: {}"
       [container_name; convert_dct_str (map_to_list database_dct)])
    (except [K_AttributeError; K_DlpxException] (fun e =>
       print_exception "{}" [str_exn e])).

(** The [if len(thingstodo) > 0:] block of [main_workflow]: the one
    requested operation. *)
Definition thing_to_do : Py weff unit :=
  if truthy (opt_create_container arguments) then
    create_container (arg (opt_template_name arguments))
      (arg (opt_create_container arguments)) (arg (opt_database arguments))
  else if truthy (opt_delete_container arguments) then
    delete_container (arg (opt_delete_container arguments))
  else if opt_list arguments then list_containers
  else if truthy (opt_remove_owner arguments) then
    remove_owner (arg (opt_remove_owner arguments))
      (arg (opt_container_name arguments))
  else if truthy (opt_restore_container arguments) then
    restore_container (arg (opt_restore_container arguments))
      (arg (opt_bookmark_name arguments))
  else if truthy (opt_add_owner arguments) then
    add_owner (arg (opt_add_owner arguments)) (arg (opt_container_name arguments))
  else if truthy (opt_refresh_container arguments) then
    refresh_container (arg (opt_refresh_container arguments))
  else if truthy (opt_list_hiearchy arguments) then
    list_hiearchy (arg (opt_list_hiearchy arguments))
  else Ret tt.

(** The body of [for j in dx_session_obj.jobs.keys():], with the running
    job count [i] as loop state.  The [sleep] is inside the [for]. *)
Definition poll_job (engine : Engine) (j : string) (i : nat) : Py weff (ctl * nat) :=
  s <- call Server_session ;;
  ref <- jobs_getitem j ;;
  job_obj <- remote_call (Job_get s ref) ;;
  print_debug "{}" [job_reference job_obj] ;;
  print_info "{}: Replication operations: {}" [hostname engine; job_state job_obj] ;;
  i' <- (if str_in (job_state job_obj) terminal_states then
           (* If the job is in a non-running state, remove it from the
              running jobs list. *)
           jobs_delitem j ;; Ret i
         else if str_in_str (job_state job_obj) "RUNNING" then
           (* If the job is in a running state, increment the running
              job count. *)
           Ret (S i)
         else Ret i) ;;
  print_info "{}: {:d} jobs running." [hostname engine; pretty i'] ;;
  (* If we have running jobs, pause before repeating the checks. *)
  n <- call Jobs_len ;;
  (if (0 <? n)%nat then
     secs <- float_of (opt_poll arguments) ;;
     call (Sleep secs)
   else Ret tt) ;;
  Ret (Next, i').

(** One polling cycle: the [for] statement over a copy of the keys
    ([keys()] of Python 2 returns a list). *)
Definition poll_cycle (engine : Engine) : Py weff unit :=
  (* get all the jobs, then inspect them *)
  keys <- call Jobs_keys ;;
  for_loop keys 0 (poll_job engine) ;;
  Ret tt.

(** [while len(dx_session_obj.jobs) > 0 or len(thingstodo) > 0:];
    [fuel] bounds the number of iterations. *)
Fixpoint while_loop (fuel : nat) (engine : Engine) (thingstodo : list string)
  : Py weff unit :=
  n <- call Jobs_len ;;
  if (0 <? n)%nat || (0 <? length thingstodo)%nat then
    match fuel with
    | 0 => OutOfFuel
    | S fuel' =>
        thingstodo' <-
          (if (0 <? length thingstodo)%nat then
             thing_to_do ;; Ret (pop thingstodo)
           else Ret thingstodo) ;;
        poll_cycle engine ;;
        while_loop fuel' engine thingstodo'
    end
  else Ret tt.

(** [main_workflow(engine)], the target of a worker thread.  [cfg] is
    [dx_session_obj.dlpx_engines]. *)
Definition main_workflow (fuel : nat) (cfg : Config) (engine : option Engine)
  : Py weff unit :=
  try_except
    (* Setup the connection to the Delphix Engine *)
    (e <- engine_item engine ;;
     serversess (ip_address e) (username e) (password e))
    (except [K_DlpxException] (fun e =>
       h <- dict_getitem cfg "hostname" ;;
       print_exception
         "ERROR: Engine {} encountered an error while creating the session: {}"
         [hostname h; str_exn e] ;;
       sys_exit 1)) ;;
  try_except
    (e <- engine_item engine ;;
     while_loop fuel e ["thingtodo"])
    (except [K_DlpxException; K_RequestError; K_JobError; K_HttpError] (fun e =>
       eng <- engine_item engine ;;
       print "Error in js_container: {}: {}" [hostname eng; str_exn e] ;;
       sys_exit 1)).

End Worker.

(** [run_job(config_file_path)].  [main_workflow(engine)] starts a
    thread ([run_async]) and returns it. *)
Definition run_job (arguments : Arguments) (cfg : Config) (config_file_path : string)
  : Py ceff unit :=
  (* engine = None; threads = [] *)
  threads <-
    (if opt_all arguments then
       (* If the --all argument was given, run against every engine *)
       print_info "Executing against all Delphix Engines in the dxtools.conf" [] ;;
       try_except
         (for_loop cfg.*1 [] (fun delphix_engine threads =>
            engine <- session_getitem cfg delphix_engine ;;
            (* Create a new thread and add it to the list. *)
            t <- call (Thread_start (Some engine)) ;;
            Ret (Next, threads ++ [t])))
         (except [K_DlpxException] (fun e =>
            print "Error encountered in run_job(): {}" [str_exn e] ;;
            sys_exit 1))
     else if negb (opt_all arguments) then
       engine <-
         (if truthy (opt_engine arguments) then
            (* the --engine argument was given: test to see if the engine
               exists in dxtools.conf *)
            try_except
              (engine <- dict_getitem cfg (arg (opt_engine arguments)) ;;
               print_info "Executing against Delphix Engine: {}"
                 [arg (opt_engine arguments)] ;;
               Ret (Some engine))
              (except [K_DlpxException; K_RequestError; K_KeyError] (fun e =>
                 print_exception
                   "ERROR: Delphix Engine {} cannot be found in {}. Please check your value and try again. Exiting."
                   [arg (opt_engine arguments); config_file_path] ;;
                 Ret None))
          else
            (* Else search for a default engine in the dxtools.conf *)
            engine <-
              for_loop cfg.*1 None (fun delphix_engine engine =>
                e <- dict_getitem cfg delphix_engine ;;
                engine' <-
                  (if String.eqb (default e) "true" then
                     e' <- dict_getitem cfg delphix_engine ;;
                     h <- dict_getitem cfg delphix_engine ;;
                     print_info
                       "Executing against the default Delphix Engine in the dxtools.conf: {}"
                       [hostname h] ;;
                     Ret (Some e')
                   else Ret engine) ;;
                Ret (Break, engine')) ;;
            match engine with
            | None => Raise (DlpxException "ERROR: No default engine found. Exiting")
            | Some _ => Ret engine
            end) ;;
       (* run the job against the engine *)
       t <- call (Thread_start engine) ;;
       Ret [t]
     else Ret []) ;;
  (* For each thread in the list, join them back together so that we wait
     for all threads to complete before moving on *)
  for_each threads (fun each => call (Thread_join each)).

(** [main()].  [get_config] is what [dx_session_obj.get_config] makes of
    the configuration file: the engines, or the exception it raises.
    The handler [except SystemExit as e: sys.exit(e)] passes the
    exception object, not an integer, to [sys.exit]: the interpreter
    prints it and the status is 1. *)
Definition main (arguments : Arguments) (get_config : res Config) : Py ceff unit :=
  try_except
    (print_debug "{}" [] ;;
     config_file_path <- Ret (opt_config arguments) ;;
     (* Parse the dxtools.conf and put it into a dictionary *)
     cfg <- match get_config with Ok cfg => Ret cfg | Err e => Raise e end ;;
     (* This is the function that will handle processing main_workflow
        for all the servers. *)
     run_job arguments cfg (opt_config arguments) ;;
     print_info "script took {:.2f} minutes to get this far." [])
    (fun e =>
       match e with
       | SystemExit _ => Some (sys_exit 1)
       | DlpxException m =>
           Some (print "ERROR: Please check the ERROR message below: {}" [m] ;;
                 sys_exit 2)
       | HttpError =>
           Some (print
                   "ERROR: Connection failed to the Delphix Engine. Please check the ERROR message below: {}"
                   [str_exn e] ;;
                 sys_exit 2)
       | JobError =>
           Some (print "A job failed in the Delphix Engine: {}" [] ;;
                 print_info "{} took {:.2f} minutes to get this far" [] ;;
                 sys_exit 3)
       | _ =>
           Some (print "{}" [str_exn e] ;;
                 print_info "{} took {:.2f} minutes to get this far" [] ;;
                 sys_exit 1)
       end).

End js_container.

(** ** v1_8_0/dx_environment.py *)

Module dx_environment.
Import GetReferences.

Record Arguments : Type := {
  opt_type : option string;
  opt_env_name : option string;
  opt_host_user : option string;
  opt_ip : option string;
  opt_toolkit : option string;
  opt_ase : bool;
  opt_ase_user : option string;
  opt_ase_pw : option string;
  opt_update_ase_pw : option string;
  opt_update_ase_user : option string;
  opt_delete : option string;
  opt_refresh : option string;
  opt_list : bool;
  opt_connector_name : option string;
  opt_pw : option string;
  opt_engine : option string;
  opt_all : bool;
  opt_poll : string;
  opt_config : string
}.

Definition docopt_poll (given : option string) : string :=
  from_option id "10" given.

(** [dx_session_obj.jobs[engine['hostname']] =
    dx_session_obj.server_session.last_job] *)
Definition track_last_job (engine : Engine) : Py weff unit :=
  s <- call Server_session ;;
  last_job <- remote_call (Last_job s) ;;
  call (Jobs_setitem (hostname engine) last_job).

Section Worker.
Variable arguments : Arguments.

Definition list_env : Py weff unit :=
  s <- call Server_session ;;
  all_envs <- remote_call (Get_all s c_environment None) ;;
  for_each all_envs (fun env =>
    s1 <- call Server_session ;;
    env_user <- find_obj_name s1 c_environment_user (primary_user env) ;;
    s2 <- call Server_session ;;
    env_host <- find_obj_name s2 c_host (host env) ;;
    print
      "Environment Name: {}, Username: {}, Host: {}, Enabled: {}, ASE Environment Params: {}"
      [name env; env_user; env_host; attr env "enabled";
       attr env "ase_host_environment_parameters"]).

Definition delete_env (engine : Engine) (env_name : string) : Py weff unit :=
  s <- call Server_session ;;
  env_obj <- find_obj_by_name s c_environment env_name PyFalse ;;
  (* [if env_obj:] an object is true *)
  s1 <- call Server_session ;;
  ref <- reference_of env_obj ;;
  invoke s1 c_environment Delete (Some ref) [] ;;
  track_last_job engine.

Definition refresh_env (engine : Engine) (env_name : string) : Py weff unit :=
  try_except
    (s <- call Server_session ;;
     env_obj <- find_obj_by_name s c_environment env_name PyFalse ;;
     s1 <- call Server_session ;;
     ref <- reference_of env_obj ;;
     invoke s1 c_environment Refresh (Some ref) [] ;;
     track_last_job engine)
    (except [K_DlpxException; K_RequestError] (fun e =>
       print_exception "ERROR: Refreshing the environment {} encountered an error: {}"
         [env_name; str_exn e] ;;
       sys_exit 1)).

Definition update_ase_username : Py weff unit :=
  try_except
    (s <- call Server_session ;;
     s1 <- call Server_session ;;
     env <- find_obj_by_name s1 c_environment (arg (opt_env_name arguments)) PyOther ;;
     ref <- reference_of env ;;
     invoke s c_environment Update (Some ref)
       [("db_user=" ++ arg (opt_update_ase_user arguments))%string])
    (except [K_HttpError; K_RequestError] (fun e =>
       print_exception "ERROR: Updating the ASE DB password failed: {}" [str_exn e])).

Definition update_ase_pw : Py weff unit :=
  try_except
    (s <- call Server_session ;;
     s1 <- call Server_session ;;
     env <- find_obj_by_name s1 c_environment (arg (opt_env_name arguments)) PyOther ;;
     ref <- reference_of env ;;
     invoke s c_environment Update (Some ref)
       [("password=" ++ arg (opt_update_ase_pw arguments))%string])
    (except [K_HttpError; K_RequestError] (fun e =>
       print_exception "ERROR: Updating the ASE DB password failed: {}" [str_exn e])).

Definition create_linux_env (engine : Engine)
    (env_name host_user ip_addr toolkit_path : string) (pw : option string)
  : Py weff unit :=
  (match pw with
   | None => print_debug "Creating the environment with SSH Keys" []
   | Some _ => print_debug "Creating the environment with a password" []
   end) ;;
  ase <- Ret (if opt_ase arguments
              then [arg (opt_ase_user arguments); arg (opt_ase_pw arguments)]
              else []) ;;
  try_except
    (s <- call Server_session ;;
     invoke s c_environment Create None
       (["UnixHost"; env_name; host_user; ip_addr; toolkit_path;
         from_option id "SystemKeyCredential" pw] ++ ase) ;;
     track_last_job engine)
    (fun e =>
       if existsb (isinstance e) [K_DlpxException; K_RequestError; K_HttpError] then
         Some (print "ERROR: Encountered an exception while creating the environment: {}"
                 [str_exn e])
       else if isinstance e K_JobError then
         Some (print_exception "JobError while creating environment {}: {}"
                 [str_exn e; str_exn e])
       else None).

Definition create_windows_env (engine : Engine)
    (env_name host_user ip_addr : string) (pw connector_name : option string)
  : Py weff unit :=
  print_debug "Creating the environment with a password" [] ;;
  proxy <-
    (if truthy connector_name then
       s <- call Server_session ;;
       env_obj <- find_obj_by_name s c_environment (arg connector_name) PyFalse ;;
       (* [if env_obj:] an object is true *)
       match env_obj with
       | Found_obj obj => Ret [host obj]
       | Found_list _ => Raise AttributeError
       end
     else Ret []) ;;
  try_except
    (s <- call Server_session ;;
     invoke s c_environment Create None
       (["WindowsHost"; env_name; host_user; ip_addr; from_option id "None" pw]
          ++ proxy) ;;
     track_last_job engine)
    (except [K_DlpxException; K_RequestError; K_HttpError] (fun e =>
       print "ERROR: Encountered an exception while creating the environment: {}"
         [str_exn e])).

(** The [if len(thingstodo) > 0:] block of [main_workflow]. *)
Definition thing_to_do (engine : Engine) : Py weff unit :=
  if from_option (String.eqb "linux") false (opt_type arguments)
     || from_option (String.eqb "windows") false (opt_type arguments) then
    if from_option (String.eqb "linux") false (opt_type arguments) then
      create_linux_env engine (arg (opt_env_name arguments))
        (arg (opt_host_user arguments)) (arg (opt_ip arguments))
        (arg (opt_toolkit arguments)) (opt_pw arguments)
    else
      create_windows_env engine (arg (opt_env_name arguments))
        (arg (opt_host_user arguments)) (arg (opt_ip arguments))
        (opt_pw arguments) (opt_connector_name arguments)
  else if truthy (opt_delete arguments) then
    delete_env engine (arg (opt_delete arguments))
  else if truthy (opt_refresh arguments) then
    refresh_env engine (arg (opt_refresh arguments))
  else if truthy (opt_update_ase_pw arguments) then update_ase_pw
  else if truthy (opt_update_ase_user arguments) then update_ase_username
  else if opt_list arguments then list_env
  else Ret tt.

(** The body of [for j in dx_session_obj.jobs.keys():]. *)
Definition poll_job (engine : Engine) (j : string) (i : nat) : Py weff (ctl * nat) :=
  s <- call Server_session ;;
  ref <- jobs_getitem j ;;
  job_obj <- remote_call (Job_get s ref) ;;
  print_debug "{}" [job_reference job_obj] ;;
  print_info "{} Environment: {}" [hostname engine; job_state job_obj] ;;
  if str_in (job_state job_obj) terminal_states then
    (* If the job is in a non-running state, remove it from the running
       jobs list. *)
    jobs_delitem j ;; Ret (Next, i)
  else
    (* If the job is in a running state, increment the running job
       count. *)
    Ret (Next, S i).

(** One polling cycle: the [for] statement over a copy of the keys, and
    the [sleep] that follows it. *)
Definition poll_cycle (engine : Engine) : Py weff unit :=
  (* get all the jobs, then inspect them *)
  keys <- call Jobs_keys ;;
  i <- for_loop keys 0 (poll_job engine) ;;
  print_info "{}: {:d} jobs running." [hostname engine; pretty i] ;;
  (* If we have running jobs, pause before repeating the checks. *)
  n' <- call Jobs_len ;;
  if (0 <? n')%nat then
    secs <- float_of (opt_poll arguments) ;;
    call (Sleep secs)
  else Ret tt.

Fixpoint while_loop (fuel : nat) (engine : Engine) (thingstodo : list string)
  : Py weff unit :=
  n <- call Jobs_len ;;
  if (0 <? n)%nat || (0 <? length thingstodo)%nat then
    match fuel with
    | 0 => OutOfFuel
    | S fuel' =>
        thingstodo' <-
          (if (0 <? length thingstodo)%nat then
             thing_to_do engine ;; Ret (pop thingstodo)
           else Ret thingstodo) ;;
        poll_cycle engine ;;
        while_loop fuel' engine thingstodo'
    end
  else Ret tt.

(** [main_workflow(engine)].  The handler of the first [try] formats its
    message with [arguments['--target']], an option the usage text does
    not have. *)
Definition main_workflow (fuel : nat) (engine : option Engine) : Py weff unit :=
  try_except
    (e <- engine_item engine ;;
     serversess (ip_address e) (username e) (password e))
    (except [K_DlpxException] (fun e =>
       _ <- engine_item engine ;;
       Raise (KeyError "--target"))) ;;
  try_except
    (e <- engine_item engine ;;
     while_loop fuel e ["thingtodo"])
    (except [K_DlpxException; K_JobError] (fun e =>
       print_exception "Error while creating the environment {}: {}"
         [arg (opt_env_name arguments); str_exn e] ;;
       sys_exit 1)).

End Worker.

Definition run_job (arguments : Arguments) (cfg : Config) (config_file_path : string)
  : Py ceff unit :=
  (* engine = None; threads = [] *)
  threads <-
    (if opt_all arguments then
       print_info "Executing against all Delphix Engines in the dxtools.conf" [] ;;
       try_except
         (for_loop cfg.*1 [] (fun delphix_engine threads =>
            engine <- session_getitem cfg delphix_engine ;;
            t <- call (Thread_start (Some engine)) ;;
            Ret (Next, threads ++ [t])))
         (except [K_DlpxException] (fun e =>
            print_exception "Error encountered in run_job(): {}" [str_exn e] ;;
            sys_exit 1))
     else if negb (opt_all arguments) then
       engine <-
         (if truthy (opt_engine arguments) then
            try_except
              (engine <- dict_getitem cfg (arg (opt_engine arguments)) ;;
               print_info "Executing against Delphix Engine: {}"
                 [arg (opt_engine arguments)] ;;
               Ret (Some engine))
              (except [K_DlpxException; K_KeyError] (fun e =>
                 print_exception
                   "ERROR: Delphix Engine {} cannot be found in {}. Please check your value and try again. Exiting. {}"
                   [arg (opt_engine arguments); config_file_path; str_exn e] ;;
                 Ret None))
          else
            engine <-
              for_loop cfg.*1 None (fun delphix_engine engine =>
                e <- dict_getitem cfg delphix_engine ;;
                engine' <-
                  (if String.eqb (default e) "true" then
                     e' <- dict_getitem cfg delphix_engine ;;
                     h <- dict_getitem cfg delphix_engine ;;
                     print_info
                       "Executing against the default Delphix Engine in the dxtools.conf: {}"
                       [hostname h] ;;
                     Ret (Some e')
                   else Ret engine) ;;
                Ret (Break, engine')) ;;
            match engine with
            | None =>
                print_exception "ERROR: No default engine found. Exiting" [] ;;
                sys_exit 1
            | Some _ => Ret engine
            end) ;;
       (* run the job against the engine *)
       t <- call (Thread_start engine) ;;
       Ret [t]
     else Ret []) ;;
  for_each threads (fun each => call (Thread_join each)).

(** [main(argv)].  As in js_container.py, [except SystemExit as e:
    sys.exit(e)] ends the process with status 1. *)
Definition main (arguments : Arguments) (get_config : res Config) : Py ceff unit :=
  try_except
    (print_debug "{}" [] ;;
     print_info "Welcome to %s version %s" [] ;;
     (* Parse the dxtools.conf and put it into a dictionary *)
     cfg <- match get_config with Ok cfg => Ret cfg | Err e => Raise e end ;;
     run_job arguments cfg (opt_config arguments) ;;
     print_info "script took %s minutes to get this far. " [])
    (fun e =>
       match e with
       | SystemExit _ => Some (sys_exit 1)
       | DlpxException m =>
           Some (print "ERROR: Please check the ERROR message below: %s" [m] ;;
                 sys_exit 2)
       | HttpError =>
           Some (print
                   "ERROR: Connection failed to the Delphix Engine. Please check the ERROR message below: %s"
                   [str_exn e] ;;
                 sys_exit 2)
       | JobError =>
           Some (print "A job failed in the Delphix Engine: %s" [] ;;
                 print_info "{} took {} minutes to get this far." [] ;;
                 sys_exit 3)
       | _ =>
           Some (print "{}" [str_exn e] ;;
                 print "{}" [] ;;
                 print_info "%s took %s minutes to get this far" [] ;;
                 sys_exit 1)
       end).

End dx_environment.

(** ** v1_8_0/dx_jobs.py *)

(** [HttpError], [JobError] and [RequestError] are here the classes of
    [delphixpy.v1_8_0.exceptions]. *)
Module dx_jobs.

Record Arguments : Type := {
  opt_list : bool;
  opt_title : option string;
  opt_state : option string;
  opt_engine : option string;
  opt_all : bool;
  opt_poll : string;
  opt_config : string
}.

Definition docopt_poll (given : option string) : string :=
  from_option id "10" given.

Section Worker.
Variable arguments : Arguments.

Definition print_job (job_info : Job) : Py weff unit :=
  print "Job State={}, Reference={}, Title={}"
    [job_state job_info; job_reference job_info; job_title job_info].

(** The body of both [for job_info in job.get_all(...)] loops. *)
Definition list_job (job_info : Job) : Py weff unit :=
  if truthy (opt_title arguments) then
    m <- remote_call (Re_search (arg (opt_title arguments)) (job_title job_info)) ;;
    if m : bool then print_job job_info else Ret tt
  else print_job job_info.

(** [re.match('RUNNING|SUSPENDED|CANCELED|COMPLETED|FAILED', s)]: [s]
    starts with one of the alternatives. *)
Definition match_state (s : string) : bool :=
  existsb (fun a => String.prefix a s)
    ["RUNNING"; "SUSPENDED"; "CANCELED"; "COMPLETED"; "FAILED"].

Definition list_jobs : Py weff unit :=
  if truthy (opt_state arguments) then
    (if match_state (str_upper (arg (opt_state arguments))) then Ret tt
     else
       print_info
         "The state should be one of these options: RUNNING, SUSPENDED, CANCELED, COMPLETED, FAILED"
         [] ;;
       sys_exit 1) ;;
    s <- call Server_session ;;
    job_infos <-
      remote_call (Job_get_all s (Some (str_upper (arg (opt_state arguments))))) ;;
    for_each job_infos list_job
  else
    s <- call Server_session ;;
    job_infos <- remote_call (Job_get_all s None) ;;
    for_each job_infos list_job.

Definition thing_to_do : Py weff unit :=
  if opt_list arguments then list_jobs else Ret tt.

(** The body of [for j in dx_session_obj.jobs.keys():]. *)
Definition poll_job (engine : Engine) (j : string) (i : nat) : Py weff (ctl * nat) :=
  s <- call Server_session ;;
  ref <- jobs_getitem j ;;
  job_obj <- remote_call (Job_get s ref) ;;
  print_debug "{}" [job_reference job_obj] ;;
  print_info "{}: Operations: {}" [hostname engine; job_state job_obj] ;;
  i' <- (if str_in (job_state job_obj) terminal_states then
           jobs_delitem j ;; Ret i
         else if str_in_str (job_state job_obj) "RUNNING" then Ret (S i)
         else Ret i) ;;
  print_info "{}: {:d} jobs running." [hostname engine; pretty i'] ;;
  Ret (Next, i').

(** One polling cycle: the [for] statement over a copy of the keys, and
    the [sleep] that follows it. *)
Definition poll_cycle (engine : Engine) : Py weff unit :=
  (* get all the jobs, then inspect them *)
  keys <- call Jobs_keys ;;
  for_loop keys 0 (poll_job engine) ;;
  (* If we have running jobs, pause before repeating the checks. *)
  n' <- call Jobs_len ;;
  if (0 <? n')%nat then
    secs <- float_of (opt_poll arguments) ;;
    call (Sleep secs)
  else Ret tt.

Fixpoint while_loop (fuel : nat) (engine : Engine) (thingstodo : list string)
  : Py weff unit :=
  n <- call Jobs_len ;;
  if (0 <? n)%nat || (0 <? length thingstodo)%nat then
    match fuel with
    | 0 => OutOfFuel
    | S fuel' =>
        thingstodo' <-
          (if (0 <? length thingstodo)%nat then
             thing_to_do ;; Ret (pop thingstodo)
           else Ret thingstodo) ;;
        poll_cycle engine ;;
        while_loop fuel' engine thingstodo'
    end
  else Ret tt.

(** [main_workflow(engine)]: the loop is not inside a [try]. *)
Definition main_workflow (fuel : nat) (engine : option Engine) : Py weff unit :=
  try_except
    (e <- engine_item engine ;;
     serversess (ip_address e) (username e) (password e))
    (except [K_DlpxException] (fun e =>
       _ <- engine_item engine ;;
       Raise (KeyError "--target"))) ;;
  e <- engine_item engine ;;
  while_loop fuel e ["thingtodo"].

End Worker.

(** [run_job()].  The local variable [engine] has no initial value here:
    [None] below is the unbound variable, [Some None] the value [None]. *)
Definition run_job (arguments : Arguments) (cfg : Config) (config_file_path : string)
  : Py ceff unit :=
  (* threads = [] *)
  locals <-
    (if opt_all arguments then
       print_info "Executing against all Delphix Engines in the dxtools.conf" [] ;;
       try_except
         (for_loop cfg.*1 (None, []) (fun delphix_engine '(_, threads) =>
            engine <- session_getitem cfg delphix_engine ;;
            t <- call (Thread_start (Some engine)) ;;
            Ret (Next, (Some (Some engine), threads ++ [t]))))
         (except [K_DlpxException] (fun e =>
            print "Error encountered in run_job(): {}" [str_exn e] ;;
            sys_exit 1))
     else if negb (opt_all arguments) then
       if truthy (opt_engine arguments) then
         try_except
           (engine <- dict_getitem cfg (arg (opt_engine arguments)) ;;
            print_info "Executing against Delphix Engine: %s"
              [arg (opt_engine arguments)] ;;
            Ret (Some (Some engine), []))
           (except [K_DlpxException; K_RequestError_v1_8_0; K_KeyError] (fun e =>
              Raise (DlpxException
                       ("ERROR: Delphix Engine " ++ arg (opt_engine arguments)
                        ++ " cannot be found in " ++ config_file_path
                        ++ ". Please check your value and try again. Exiting."))))
       else
         engine <-
           for_loop cfg.*1 None (fun delphix_engine engine =>
             e <- dict_getitem cfg delphix_engine ;;
             engine' <-
               (if String.eqb (default e) "true" then
                  e' <- dict_getitem cfg delphix_engine ;;
                  h <- dict_getitem cfg delphix_engine ;;
                  print_info
                    "Executing against the default Delphix Engine in the dxtools.conf: %s"
                    [hostname h] ;;
                  Ret (Some (Some e'))
                else Ret engine) ;;
             Ret (Break, engine')) ;;
         match engine with
         | None => Raise (UnboundLocalError "engine")
         | Some None => Raise (DlpxException "ERROR: No default engine found. Exiting")
         | Some (Some _) => Ret (engine, [])
         end
     else Ret (None, [])) ;;
  let '(engine, threads) := locals in
  (* run the job against the engine *)
  engine <- match engine with
            | Some engine => Ret engine
            | None => Raise (UnboundLocalError "engine")
            end ;;
  t <- call (Thread_start engine) ;;
  threads <- Ret (threads ++ [t]) ;;
  for_each threads (fun each => call (Thread_join each)).

(** [main(argv)]; there is no clause for [DlpxException], which the last,
    bare [except:] takes. *)
Definition main (arguments : Arguments) (get_config : res Config) : Py ceff unit :=
  try_except
    (print_debug "{}" [] ;;
     cfg <- match get_config with Ok cfg => Ret cfg | Err e => Raise e end ;;
     run_job arguments cfg (opt_config arguments) ;;
     print_info "script took {} minutes to get this far." [])
    (fun e =>
       match e with
       | SystemExit _ => Some (sys_exit 1)
       | HttpError_v1_8_0 =>
           Some (print_exception
                   "Connection failed to the Delphix EnginePlease check the ERROR message below"
                   [] ;;
                 sys_exit 1)
       | JobError_v1_8_0 =>
           Some (print_exception "A job failed in the Delphix Engine" [] ;;
                 print_info "%s took %s minutes to get this far" [] ;;
                 sys_exit 3)
       | _ =>
           Some (print_exception "{}" [str_exn e] ;;
                 print_info "%s took %s minutes to get this far" [] ;;
                 sys_exit 1)
       end).

End dx_jobs.

(** ** v1_8_0/dx_replication.py *)

(** As in dx_jobs.py, [HttpError], [JobError] and [RequestError] are the
    classes of [delphixpy.v1_8_0.exceptions]; the lookups of
    lib/GetReferences.py, which the script calls, name those of
    [delphixpy.exceptions]. *)
Module dx_replication.
Import GetReferences.

Record Arguments : Type := {
  opt_rep_name : option string;
  opt_target_host : option string;
  opt_target_user : option string;
  opt_target_pw : option string;
  opt_rep_objs : option string;
  opt_schedule : string;
  opt_bandwidth : option string;
  opt_num_cons : option string;
  opt_enabled : bool;
  opt_delete : option string;
  opt_execute : option string;
  opt_list : bool;
  opt_engine : option string;
  opt_all : bool;
  opt_poll : string;
  opt_config : string
}.

Definition docopt_poll (given : option string) : string :=
  from_option id "10" given.

(** [server_session.address] *)
Definition address_of (s : option string) : Py weff string :=
  match s with
  | Some address => Ret address
  | None => Raise AttributeError
  end.

(** [if dx_session_obj.server_session.last_job:
       dx_session_obj.jobs[dx_session_obj.server_session.address] =
           dx_session_obj.server_session.last_job] *)
Definition track_last_job : Py weff unit :=
  s <- call Server_session ;;
  last_job <- remote_call (Last_job s) ;;
  if truthy last_job then
    s1 <- call Server_session ;;
    last_job' <- remote_call (Last_job s1) ;;
    s2 <- call Server_session ;;
    address <- address_of s2 ;;
    call (Jobs_setitem address last_job')
  else Ret tt.

Section Worker.
Variable arguments : Arguments.

(** [int(arguments['--x'])] when the option is given. *)
Definition int_option (a : option string) : Py weff (list string) :=
  if truthy a then
    n <- remote_call (Int_of (arg a)) ;;
    Ret [pretty n]
  else Ret [].

Definition create_replication_job : Py weff unit :=
  num_cons <- int_option (opt_num_cons arguments) ;;
  bandwidth <- int_option (opt_bandwidth arguments) ;;
  try_except
    (s <- call Server_session ;;
     objs <- find_obj_specs s (str_split "," (arg (opt_rep_objs arguments))) ;;
     s1 <- call Server_session ;;
     ref <- remote_call
              (Invoke s1 c_spec Create None
                 ([arg (opt_rep_name arguments); arg (opt_target_host arguments);
                   arg (opt_target_user arguments); arg (opt_target_pw arguments);
                   opt_schedule arguments;
                   if opt_enabled arguments then "enabled" else ""]
                  ++ num_cons ++ bandwidth ++ objs)) ;;
     track_last_job ;;
     print_info "Successfully created {} with reference {}"
       [arg (opt_rep_name arguments); ref])
    (except [K_HttpError_v1_8_0; K_RequestError_v1_8_0; K_DlpxException] (fun e =>
       print_exception "Could not create replication job {}: {}"
         [arg (opt_rep_name arguments); str_exn e])).

Definition delete_replication_job : Py weff unit :=
  try_except
    (s <- call Server_session ;;
     s1 <- call Server_session ;;
     rep <- find_obj_by_name s1 c_spec (arg (opt_delete arguments)) PyFalse ;;
     ref <- reference_of rep ;;
     invoke s c_spec Delete (Some ref) [] ;;
     track_last_job ;;
     print_info "Successfully deleted {}." [arg (opt_delete arguments)])
    (except [K_HttpError_v1_8_0; K_RequestError_v1_8_0; K_DlpxException] (fun e =>
       print_exception "Was not able to delete {}: {}"
         [arg (opt_delete arguments); str_exn e])).

Definition list_replication_jobs : Py weff unit :=
  s <- call Server_session ;;
  rep_jobs <- remote_call (Get_all s c_spec None) ;;
  for_loop rep_jobs [] (fun rep_job obj_names_lst =>
    obj_names_lst' <-
      for_loop (objects rep_job) obj_names_lst (fun obj_spec_ref obj_names_lst =>
        s1 <- call Server_session ;;
        db <- remote_call (Get s1 c_database obj_spec_ref) ;;
        Ret (Next, obj_names_lst ++ [name db])) ;;
    print
      "Name: {} Replicated Objects: {} Enabled: {} Encrypted: {} Reference: {} Schedule: {} Target Host: {}"
      [name rep_job; String.concat ", " obj_names_lst'; attr rep_job "enabled";
       attr rep_job "encrypted"; reference rep_job; attr rep_job "schedule";
       attr rep_job "target_host"] ;;
    Ret (Next, obj_names_lst')) ;;
  Ret tt.

Definition execute_replication_job (obj_name : string) : Py weff unit :=
  try_except
    (s <- call Server_session ;;
     s1 <- call Server_session ;;
     rep <- find_obj_by_name s1 c_spec obj_name PyFalse ;;
     ref <- reference_of rep ;;
     invoke s c_spec Execute (Some ref) [] ;;
     track_last_job ;;
     print_info "Successfully executed {}." [obj_name])
    (except [K_HttpError_v1_8_0; K_RequestError_v1_8_0; K_DlpxException;
             K_JobError_v1_8_0] (fun e =>
       print_exception "Could not execute job {}: {}" [obj_name; str_exn e])).

Definition thing_to_do : Py weff unit :=
  if truthy (opt_rep_name arguments) then create_replication_job
  else if truthy (opt_delete arguments) then delete_replication_job
  else if opt_list arguments then list_replication_jobs
  else if truthy (opt_execute arguments) then
    execute_replication_job (arg (opt_execute arguments))
  else Ret tt.

(** The body of [for j in dx_session_obj.jobs.keys():]; the [sleep] is
    inside the [for]. *)
Definition poll_job (engine : Engine) (j : string) (i : nat) : Py weff (ctl * nat) :=
  s <- call Server_session ;;
  ref <- jobs_getitem j ;;
  job_obj <- remote_call (Job_get s ref) ;;
  print_debug "{}" [job_reference job_obj] ;;
  print_info "{}: Replication operations: {}" [hostname engine; job_state job_obj] ;;
  i' <- (if str_in (job_state job_obj) terminal_states then
           jobs_delitem j ;; Ret i
         else if str_in_str (job_state job_obj) "RUNNING" then Ret (S i)
         else Ret i) ;;
  print_info "{}: {:d} jobs running." [hostname engine; pretty i'] ;;
  (* If we have running jobs, pause before repeating the checks. *)
  n <- call Jobs_len ;;
  (if (0 <? n)%nat then
     secs <- float_of (opt_poll arguments) ;;
     call (Sleep secs)
   else Ret tt) ;;
  Ret (Next, i').

(** One polling cycle: the [for] statement over a copy of the keys
    ([keys()] of Python 2 returns a list). *)
Definition poll_cycle (engine : Engine) : Py weff unit :=
  (* get all the jobs, then inspect them *)
  keys <- call Jobs_keys ;;
  for_loop keys 0 (poll_job engine) ;;
  Ret tt.

Fixpoint while_loop (fuel : nat) (engine : Engine) (thingstodo : list string)
  : Py weff unit :=
  n <- call Jobs_len ;;
  if (0 <? n)%nat || (0 <? length thingstodo)%nat then
    match fuel with
    | 0 => OutOfFuel
    | S fuel' =>
        thingstodo' <-
          (if (0 <? length thingstodo)%nat then
             thing_to_do ;; Ret (pop thingstodo)
           else Ret thingstodo) ;;
        poll_cycle engine ;;
        while_loop fuel' engine thingstodo'
    end
  else Ret tt.

(** [main_workflow(engine)]: the handler of the loop only reports. *)
Definition main_workflow (fuel : nat) (engine : option Engine) : Py weff unit :=
  try_except
    (e <- engine_item engine ;;
     serversess (ip_address e) (username e) (password e))
    (except [K_DlpxException] (fun e =>
       _ <- engine_item engine ;;
       Raise (KeyError "--target"))) ;;
  try_except
    (e <- engine_item engine ;;
     while_loop fuel e ["thingtodo"])
    (except [K_HttpError_v1_8_0; K_RequestError_v1_8_0; K_JobError_v1_8_0;
             K_DlpxException] (fun e =>
       print_exception "ERROR: Could not complete replication operation:{}"
         [str_exn e])).

End Worker.

(** [run_job()].  The last [threads.append(main_workflow(engine))] is at
    the level of the function body, after the [if]/[elif]. *)
Definition run_job (arguments : Arguments) (cfg : Config) (config_file_path : string)
  : Py ceff unit :=
  (* threads = []; engine = None *)
  locals <-
    (if opt_all arguments then
       print_info "Executing against all Delphix Engines in the dxtools.conf" [] ;;
       try_except
         (for_loop cfg.*1 (None, []) (fun delphix_engine '(_, threads) =>
            engine <- session_getitem cfg delphix_engine ;;
            (* Create a new thread and add it to the list. *)
            t <- call (Thread_start (Some engine)) ;;
            Ret (Next, (Some engine, threads ++ [t]))))
         (except [K_DlpxException] (fun e =>
            print "Error encountered in run_job(): {}" [str_exn e] ;;
            sys_exit 1))
     else if negb (opt_all arguments) then
       if truthy (opt_engine arguments) then
         try_except
           (engine <- dict_getitem cfg (arg (opt_engine arguments)) ;;
            print_info "Executing against Delphix Engine: {}"
              [arg (opt_engine arguments)] ;;
            Ret (Some engine, []))
           (except [K_DlpxException; K_RequestError_v1_8_0; K_KeyError] (fun e =>
              Raise (DlpxException
                       ("ERROR: Delphix Engine " ++ arg (opt_engine arguments)
                        ++ " cannot be found in " ++ config_file_path
                        ++ ". Please check your value and try again. Exiting."))))
       else
         (* Else search for a default engine in the dxtools.conf *)
         engine <-
           for_loop cfg.*1 None (fun delphix_engine engine =>
             e <- dict_getitem cfg delphix_engine ;;
             engine' <-
               (if String.eqb (default e) "true" then
                  e' <- dict_getitem cfg delphix_engine ;;
                  h <- dict_getitem cfg delphix_engine ;;
                  print_info
                    "Executing against the default Delphix Engine in the dxtools.conf: {}"
                    [hostname h] ;;
                  Ret (Some e')
                else Ret engine) ;;
             Ret (Break, engine')) ;;
         match engine with
         | None => Raise (DlpxException "ERROR: No default engine found. Exiting")
         | Some _ => Ret (engine, [])
         end
     else Ret (None, [])) ;;
  let '(engine, threads) := locals in
  (* run the job against the engine *)
  t <- call (Thread_start engine) ;;
  threads <- Ret (threads ++ [t]) ;;
  for_each threads (fun each => call (Thread_join each)).

(** [main(arguments)]; as in dx_jobs.py there is no clause for
    [DlpxException], which the last, bare [except:] takes. *)
Definition main (arguments : Arguments) (get_config : res Config) : Py ceff unit :=
  try_except
    (print_debug "{}" [] ;;
     (* Parse the dxtools.conf and put it into a dictionary *)
     cfg <- match get_config with Ok cfg => Ret cfg | Err e => Raise e end ;;
     run_job arguments cfg (opt_config arguments) ;;
     print_info "script took {:.2f} minutes to get this far." [])
    (fun e =>
       match e with
       | SystemExit _ => Some (sys_exit 1)
       | HttpError_v1_8_0 =>
           Some (print_exception
                   "Connection failed to the Delphix EnginePlease check the ERROR message: {}"
                   [str_exn e] ;;
                 sys_exit 1)
       | JobError_v1_8_0 =>
           Some (print_exception "A job failed in the Delphix Engine" [] ;;
                 print_info "{} took {:.2f} minutes to get this far {}" [str_exn e] ;;
                 sys_exit 3)
       | _ =>
           Some (print_exception "{}" [str_exn e] ;;
                 print_info "{} took {:.2f} minutes to get this far" [] ;;
                 sys_exit 1)
       end).

End dx_replication.

(** ** Threads *)

(** A thread that has run: the engine [main_workflow] was called with, how
    the call ended and what it did.  A Python thread whose target ends in an
    exception is simply over: [SystemExit] is dropped silently, any other
    exception is reported on stderr; nothing reaches the thread that
    started it. *)
Record thread : Type := {
  target_engine : option Engine;
  outcome : result unit;
  thread_trace : list event
}.

Inductive cevent : Type :=
| CEv {R : Type} (o : ceff R) (r : R).

Record cstate : Type := {
  c_session : GetSession;
  c_trace : list cevent;
  threads : list thread;
  joined : list nat
}.

(** The engines the started threads were given, and how the threads
    ended, in the order in which they were started. *)
Definition started_on (st : cstate) : list (option Engine) :=
  map target_engine (threads st).
Definition outcomes (st : cstate) : list (result unit) :=
  map outcome (threads st).

(** The state of the process when [main] has made [dx_session_obj =
    GetSession()]. *)
Definition process_start : cstate :=
  {| c_session := GetSession_new; c_trace := []; threads := []; joined := [] |}.

Section Sequential.
(** [w t]: the world as the [t]-th started thread meets it. *)
Variable w : nat -> oracle.
(** The target of the threads: [main_workflow]. *)
Variable worker : option Engine -> Py weff unit.

(** One coordinator operation, when every thread runs to its end as soon
    as it is started. *)
Definition cperform {R} (o : ceff R) (st : cstate) : R * cstate :=
  match o in ceff R return R * cstate with
  | CPrint ch fmt args =>
      (tt, {| c_session := c_session st;
              c_trace := c_trace st ++ [CEv (CPrint ch fmt args) tt];
              threads := threads st; joined := joined st |})
  | Thread_start engine =>
      let t := length (threads st) in
      let '(r, ts) :=
        exec (w t) (worker engine)
          {| session := c_session st; calls := 0; trace := [] |} in
      (t, {| c_session := session ts;
             c_trace := c_trace st ++ [CEv (Thread_start engine) t];
             threads := threads st ++
               [{| target_engine := engine; outcome := r; thread_trace := trace ts |}];
             joined := joined st |})
  | Thread_join t =>
      (tt, {| c_session := c_session st;
              c_trace := c_trace st ++ [CEv (Thread_join t) tt];
              threads := threads st; joined := joined st ++ [t] |})
  end.

Fixpoint run_main {A} (p : Py ceff A) (st : cstate) : result A * cstate :=
  match p with
  | Ret a => (Returned a, st)
  | Raise e => (Raised e, st)
  | OutOfFuel => (Exhausted, st)
  | Vis o k => let '(r, st') := cperform o st in run_main (k r) st'
  end.
End Sequential.

(** The exit status of the process when the main thread ends with [r]: 0
    when the script runs to its end, the code of an uncaught [SystemExit],
    1 for any other uncaught exception. *)
Definition exit_status (r : result unit) : option Z :=
  match r with
  | Returned _ => Some 0%Z
  | Raised (SystemExit c) => Some c
  | Raised _ => Some 1%Z
  | Exhausted => None
  end.

(** Coordinator and workers under an arbitrary schedule: at each step one
    thread performs one operation. *)
Module Interleaving.

Record wthread : Type := {
  code : Py weff unit;
  wcalls : nat;
  wtrace : list event
}.

Record system : Type := {
  shared : GetSession;
  coordinator : Py ceff unit;
  workers : list wthread
}.

(** Who moves: the coordinator, or the [t]-th started worker. *)
Inductive tid : Type := Main | Worker (t : nat).

Definition finished {E A} (p : Py E A) : bool :=
  match p with
  | Vis _ _ => false
  | _ => true
  end.

Section Run.
Variable w : nat -> oracle.
Variable worker : option Engine -> Py weff unit.

Definition step_worker (t : nat) (sys : system) : system :=
  match workers sys !! t with
  | Some th =>
      match code th with
      | Vis o k =>
          let '(r, ts) :=
            perform (w t) o
              {| session := shared sys; calls := wcalls th; trace := wtrace th |} in
          {| shared := session ts;
             coordinator := coordinator sys;
             workers := <[t := {| code := k r; wcalls := calls ts; wtrace := trace ts |}]>
                          (workers sys) |}
      | _ => sys
      end
  | None => sys
  end.

Definition is_finished (sys : system) (t : nat) : bool :=
  match workers sys !! t with
  | Some th => finished (code th)
  | None => true
  end.

Definition cstep {R} (o : ceff R) (sys : system) : option (R * list wthread) :=
  match o in ceff R return option (R * list wthread) with
  | CPrint _ _ _ => Some (tt, workers sys)
  | Thread_start engine =>
      Some (length (workers sys),
            workers sys ++ [{| code := worker engine; wcalls := 0; wtrace := [] |}])
  | Thread_join t =>
      (* [join] returns once the thread is over *)
      if is_finished sys t then Some (tt, workers sys) else None
  end.

Definition step_coordinator (sys : system) : system :=
  match coordinator sys with
  | Vis o k =>
      match cstep o sys with
      | Some (r, ws) =>
          {| shared := shared sys; coordinator := k r; workers := ws |}
      | None => sys
      end
  | _ => sys
  end.

Definition step (who : tid) (sys : system) : system :=
  match who with
  | Main => step_coordinator sys
  | Worker t => step_worker t sys
  end.

Definition run (schedule : list tid) (sys : system) : system :=
  foldl (fun sys who => step who sys) sys schedule.
End Run.

Definition start (main : Py ceff unit) : system :=
  {| shared := GetSession_new; coordinator := main; workers := [] |}.

End Interleaving.

(** ** Concrete runs *)

Module Scenario.

Definition engine1 : Engine :=
  {| ip_address := "10.0.0.1"; username := "admin"; password := "pw";
     hostname := "e1"; default := "false" |}.
Definition engine2 : Engine :=
  {| ip_address := "10.0.0.2"; username := "admin"; password := "pw";
     hostname := "e2"; default := "true" |}.

(** dxtools.conf with two engines; the second one is the default. *)
Definition two_engines : Config := [("e1", engine1); ("e2", engine2)].

Definition obj (n r : string) : Obj :=
  {| name := n; reference := r; active_branch := ""; container := "";
     primary_user := ""; host := ""; last_updated := ""; objects := [];
     jdbc_strings := None; attrs := [] |}.

(** What every [get_all] of these runs returns. *)
Definition catalog : list Obj :=
  [obj "other" "OBJ-0"; obj "db1" "DB-1"; obj "t1" "TEMPLATE-1"; obj "db1" "DB-9";
   obj "env1" "ENV-1"].

Definition job (state : string) : Job :=
  {| job_reference := "JOB-1"; job_state := state; job_title := "" |}.

(** An engine on which every call succeeds and every job is running until
    the [n]-th call of the thread, completed from then on. *)
Definition world_completing (n : nat) : oracle := fun i R c =>
  match c in rcall R return res R with
  | Connect _ _ _ => Ok tt
  | Get_all _ _ _ => Ok catalog
  | Get _ _ ref => Ok (obj "db1" ref)
  | Invoke _ _ _ _ _ => Ok "REF-1"
  | Job_get _ _ => Ok (job (if (i <? n)%nat then "RUNNING" else "COMPLETED"))
  | Job_get_all _ _ => Ok []
  | Last_job _ => Ok (Some "JOB-1")
  | Time_get _ => Ok "UTC"
  | Re_search _ _ => Ok true
  | Int_of _ => Ok 1%Z
  | Localtime timestamp zone => Ok (timestamp ++ " " ++ zone)%string
  end.

Definition world_ok : oracle := world_completing 0.

(** The same engine, on which no job ever ends. *)
Definition world_running : oracle := fun i R c =>
  match c in rcall R return res R with
  | Job_get _ _ => Ok (job "RUNNING")
  | c => world_ok i _ c
  end.

(** The same engine, rejecting every operation submitted to it
    ([RequestError]). *)
Definition world_rejecting : oracle := fun i R c =>
  match c in rcall R return res R with
  | Invoke _ _ _ _ _ => Err RequestError
  | c => world_ok i _ c
  end.

(** The same engine, whose job-status endpoint cannot be reached
    ([HttpError]). *)
Definition world_poll_unreachable : oracle := fun i R c =>
  match c in rcall R return res R with
  | Job_get _ _ => Err HttpError
  | c => world_ok i _ c
  end.

(** The same engine, whose job-status endpoint fails with [e]. *)
Definition world_failing_poll (e : exn) : oracle := fun i R c =>
  match c in rcall R return res R with
  | Job_get _ _ => Err e
  | c => world_ok i _ c
  end.

(** The same engine, on which no object can be listed: [get_all] fails
    with [e]. *)
Definition world_failing_listing (e : exn) : oracle := fun i R c =>
  match c in rcall R return res R with
  | Get_all _ _ _ => Err e
  | c => world_ok i _ c
  end.

(** Engines told apart by the session a call is made through, whichever
    thread makes it: every call succeeds, but the engines at the addresses
    [rejecting] reject what is submitted to them ([RequestError]). *)
Definition world_of_engines (rejecting : list string) : oracle := fun i R c =>
  match c in rcall R return res R with
  | Invoke (Some address) _ _ _ _ =>
      if str_in address rejecting then Err RequestError else Ok "REF-1"
  | c => world_ok i _ c
  end.

(** A thread that starts on a fresh [dx_session_obj]. *)
Definition fresh : tstate :=
  {| session := GetSession_new; calls := 0; trace := [] |}.

(** A thread that starts with the given jobs in the tracker. *)
Definition tracking (js : list (string * job_ref)) : tstate :=
  {| session := {| server_session := Some "10.0.0.1"; jobs := list_to_map js |};
     calls := 0; trace := [] |}.

End Scenario.

Module ScenarioArgs.
Import Scenario.

(** [js_container.py --create_container c1 --template_name t1 --database db1],
    with [--engine <name>] or [--all] as given, and no [--poll]. *)
Definition js_create (engine : option string) (all : bool) : js_container.Arguments :=
  {| js_container.opt_create_container := Some "c1";
     js_container.opt_template_name := Some "t1";
     js_container.opt_database := Some "db1";
     js_container.opt_list_hiearchy := None;
     js_container.opt_list := false;
     js_container.opt_delete_container := None;
     js_container.opt_keep_vdbs := false;
     js_container.opt_refresh_container := None;
     js_container.opt_add_owner := None;
     js_container.opt_remove_owner := None;
     js_container.opt_container_name := None;
     js_container.opt_restore_container := None;
     js_container.opt_bookmark_name := None;
     js_container.opt_engine := engine;
     js_container.opt_all := all;
     js_container.opt_poll := js_container.docopt_poll None;
     js_container.opt_config := "./dxtools.conf" |}.

(** [dx_environment.py --refresh env1] *)
Definition env_refresh (engine : option string) (all : bool) : dx_environment.Arguments :=
  {| dx_environment.opt_type := None;
     dx_environment.opt_env_name := None;
     dx_environment.opt_host_user := None;
     dx_environment.opt_ip := None;
     dx_environment.opt_toolkit := None;
     dx_environment.opt_ase := false;
     dx_environment.opt_ase_user := None;
     dx_environment.opt_ase_pw := None;
     dx_environment.opt_update_ase_pw := None;
     dx_environment.opt_update_ase_user := None;
     dx_environment.opt_delete := None;
     dx_environment.opt_refresh := Some "env1";
     dx_environment.opt_list := false;
     dx_environment.opt_connector_name := None;
     dx_environment.opt_pw := None;
     dx_environment.opt_engine := engine;
     dx_environment.opt_all := all;
     dx_environment.opt_poll := dx_environment.docopt_poll None;
     dx_environment.opt_config := "./dxtools.conf" |}.

(** [dx_jobs.py --list] *)
Definition jobs_list (engine : option string) (all : bool) : dx_jobs.Arguments :=
  {| dx_jobs.opt_list := true;
     dx_jobs.opt_title := None;
     dx_jobs.opt_state := None;
     dx_jobs.opt_engine := engine;
     dx_jobs.opt_all := all;
     dx_jobs.opt_poll := dx_jobs.docopt_poll None;
     dx_jobs.opt_config := "./dxtools.conf" |}.

(** [dx_replication.py --execute db1] *)
Definition rep_execute (engine : option string) (all : bool) : dx_replication.Arguments :=
  {| dx_replication.opt_rep_name := None;
     dx_replication.opt_target_host := None;
     dx_replication.opt_target_user := None;
     dx_replication.opt_target_pw := None;
     dx_replication.opt_rep_objs := None;
     dx_replication.opt_schedule := "0 0 0 */5 * ?";
     dx_replication.opt_bandwidth := None;
     dx_replication.opt_num_cons := None;
     dx_replication.opt_enabled := false;
     dx_replication.opt_delete := None;
     dx_replication.opt_execute := Some "db1";
     dx_replication.opt_list := false;
     dx_replication.opt_engine := engine;
     dx_replication.opt_all := all;
     dx_replication.opt_poll := dx_replication.docopt_poll None;
     dx_replication.opt_config := "./dxtools.conf" |}.

End ScenarioArgs.

(** ** What a worker does to its tracker, as the claims speak of it *)

(** The events of a trace that concern the job tracker and the poll loop:
    a job is tracked under a key, the tracker is asked for the job of a key
    in order to poll it, a job's status is fetched, a key is retired, the
    thread sleeps. *)
Inductive obs : Type :=
| Track (key : string) (ref : job_ref)
| Lookup (key : string) (found : option job_ref)
| Fetch (ref : job_ref) (answer : res string)
| Retire (key : string)
| Sleeping (secs : string).

Definition observe (ev : event) : option obs :=
  match ev with
  | Ev (Jobs_setitem k v) _ => Some (Track k v)
  | Ev (Jobs_getitem k) r => Some (Lookup k r)
  | Ev (Remote (Job_get _ ref)) r =>
      Some (Fetch ref match r with Ok jb => Ok (job_state jb) | Err e => Err e end)
  | Ev (Jobs_delitem k) _ => Some (Retire k)
  | Ev (Sleep secs) _ => Some (Sleeping secs)
  | _ => None
  end.

Definition observations (tr : list event) : list obs := omap observe tr.

(** The arguments of the [sleep] calls of a trace. *)
Definition sleeps (tr : list event) : list string :=
  omap (fun ev => match ev with Ev (Sleep secs) _ => Some secs | _ => None end) tr.

(** What a run added to the trace it started with. *)
Definition new_events (st st' : tstate) : list event :=
  drop (length (trace st)) (trace st').

(** Once a key is retired, the tracker is never asked for it again. *)
Definition retired_never_polled (os : list obs) : Prop :=
  forall k pre post found,
    os = pre ++ post -> Retire k ∈ pre -> Lookup k found ∉ post.

(** Operations of the submitted action itself: it reads the session, calls
    the engine (but not its job-status endpoint) and prints. *)
Definition submission_op {R} (o : weff R) : Prop :=
  match o with
  | Server_session => True
  | Print _ _ _ => True
  | Remote c => match c with Job_get _ _ => False | _ => True end
  | _ => False
  end.

(** A job state that ends the job. *)
Definition is_terminal (state : string) : bool := str_in state terminal_states.

(** An operation other than [sleep]. *)
Definition not_sleep {R} (o : weff R) : Prop :=
  match o with
  | Sleep _ => False
  | _ => True
  end.

(** Hoare triples on one thread's runs. *)
Definition triple (w : oracle) {A} (Pre : tstate -> Prop) (p : Py weff A)
    (Post : result A -> tstate -> Prop) : Prop :=
  forall st, Pre st -> Post (exec w p st).1 (exec w p st).2.

Definition is_sleeping (o : obs) : Prop :=
  match o with
  | Sleeping _ => True
  | _ => False
  end.

(** What one iteration of [for j in dx_session_obj.jobs.keys():] does, in
    every script: it asks the tracker for the job of [j], fetches its
    status, and removes [j] when the status is terminal; it may sleep at
    the end, and end in [ValueError] when it cannot. *)
Definition polls_one_job (w : oracle) (j : string) (st : tstate)
    (r : result (ctl * nat)) (st' : tstate) : Prop :=
  let tracker := jobs (session st) in
  let seen := observations (trace st) in
  server_session (session st') = server_session (session st) /\
  match tracker !! j with
  | None =>
      r = Raised (KeyError j) /\ jobs (session st') = tracker /\
      observations (trace st') = seen ++ [Lookup j None]
  | Some ref =>
      match w (calls st) _ (Job_get (server_session (session st)) ref) with
      | Err e =>
          r = Raised e /\ jobs (session st') = tracker /\
          observations (trace st') = seen ++ [Lookup j (Some ref); Fetch ref (Err e)]
      | Ok jb =>
          ((exists i', r = Returned (Next, i')) \/ r = Raised ValueError) /\
          jobs (session st') =
            (if is_terminal (job_state jb) then delete j tracker else tracker) /\
          exists tail,
            Forall is_sleeping tail /\
            observations (trace st') =
              seen ++ [Lookup j (Some ref); Fetch ref (Ok (job_state jb))]
                   ++ (if is_terminal (job_state jb) then [Retire j] else []) ++ tail
      end
  end.

(** Retired keys stay out: no key is asked for after it was retired, and a
    retired key is not in the tracker. *)
Definition tracker_consistent (st : tstate) : Prop :=
  retired_never_polled (observations (trace st)) /\
  forall k, Retire k ∈ observations (trace st) -> jobs (session st) !! k = None.

(** An operation that is not an access to an item of the tracker. *)
Definition tracker_neutral {R} (o : weff R) : Prop :=
  match o with
  | Jobs_getitem _ | Jobs_setitem _ _ | Jobs_delitem _ => False
  | _ => True
  end.

(** No status fetch has failed so far. *)
Definition no_failed_fetch (os : list obs) : Prop :=
  forall ref e, Fetch ref (Err e) ∉ os.

(** A status fetch has failed with [e], and that was the end of it: the
    fetch, made for the job of [j], is the last thing observed, and the job
    is still tracked under [j]. *)
Definition ended_by_failed_fetch (st : tstate) (j : string) (ref : job_ref) (e : exn)
  : Prop :=
  jobs (session st) !! j = Some ref /\
  exists before,
    no_failed_fetch before /\
    observations (trace st) = before ++ [Lookup j (Some ref); Fetch ref (Err e)].

(** A program in which a failed status fetch is fatal: either no fetch
    has failed, or the run ended with the exception of the failed fetch,
    right there. *)
Definition fetch_failure_is_fatal (w : oracle) {A} (p : Py weff A) : Prop :=
  triple w (fun st => no_failed_fetch (observations (trace st))) p
    (fun r st' =>
       no_failed_fetch (observations (trace st')) \/
       exists j ref e, r = Raised e /\ ended_by_failed_fetch st' j ref e).

(** An operation other than the fetch of a job's status. *)
Definition not_job_get {R} (o : weff R) : Prop :=
  match o with
  | Remote (Job_get _ _) => False
  | _ => True
  end.

(** An observation that neither asks the tracker for a key nor changes
    the tracker. *)
Definition about_no_key (o : obs) : Prop :=
  match o with
  | Fetch _ _ | Sleeping _ => True
  | _ => False
  end.

(** A property of the thread's state that a program keeps, however it ends. *)
Definition invariant (w : oracle) (I : tstate -> Prop) {A} (p : Py weff A) : Prop :=
  triple w I p (fun _ st' => I st').

(** ** Workers side by side *)

(** An operation that leaves the shared session as it is when no job is
    tracked: any operation but a connection and the tracking of a job. *)
Definition quiet_op {R} (o : weff R) : Prop :=
  match o with
  | Serversess _ _ _ | Jobs_setitem _ _ => False
  | _ => True
  end.

(** A worker that tracks no job and opens its session first, if at all. *)
Definition staged {A} (p : Py weff A) : Prop :=
  match p with
  | Vis o k =>
      match o with
      | Serversess _ _ _ => forall r, all_ops (@quiet_op) (k r)
      | _ => all_ops (@quiet_op) p
      end
  | _ => True
  end.

(** No job is tracked, and every worker is staged. *)
Definition orderly (sys : Interleaving.system) : Prop :=
  jobs (Interleaving.shared sys) = ∅ /\
  Forall (fun th => staged (Interleaving.code th)) (Interleaving.workers sys).

(** ** What a worker does to the tracker *)

(** An operation that leaves the tracker alone and is not part of the
    polling: it connects, reads the session or the size and keys of the
    tracker, calls the engine (but not for the status of a job), or prints. *)
Definition idle_op {R} (o : weff R) : Prop :=
  match o with
  | Serversess _ _ _ | Server_session | Jobs_keys | Jobs_len | Print _ _ _ => True
  | Remote c => match c with Job_get _ _ => False | _ => True end
  | _ => False
  end.

(** An operation that tracks a job, if at all, under the key [h]. *)
Definition tracks_under (h : string) {R} (o : weff R) : Prop :=
  match o with
  | Jobs_setitem k _ => k = h
  | _ => True
  end.

(** An engine on which every status fetch succeeds and shows a job that
    has ended. *)
Definition jobs_all_ended (w : oracle) : Prop :=
  forall n s ref,
    exists jb, w n _ (Job_get s ref) = Ok jb /\ is_terminal (job_state jb) = true.

(** ** v1_8_0/delphix_snapshot_group_will_plugin.py *)

Module delphix_snapshot_group_will_plugin.

(** [DelphixEngine(address, user, password, namespace)] *)
Record DelphixEngine : Type := {
  address : string;
  user : string;
  engine_password : string;
  namespace : string
}.

(** The calls of the plugin to the delphixpy library. *)
Inductive peff : Type -> Type :=
| Group_get_all (s : DelphixEngine) : peff (res (list Obj))
| Database_get_all (s : DelphixEngine) (group : string) : peff (res (list Obj))
| Database_sync (s : DelphixEngine) (ref : string) : peff (res unit).

Definition library_call {R} (c : peff (res R)) : Py peff R :=
  r <- call c ;;
  match r with Ok v => Ret v | Err e => Raise e end.

(** [for each in all_groups: if group_name == each.name: group_reference =
    each.reference; break]: the reference of the first group that has the
    name; [None] when the loop ends without the assignment. *)
Fixpoint group_reference_for (all_groups : list Obj) (group_name : string)
  : option string :=
  match all_groups with
  | [] => None
  | each :: rest =>
      if String.eqb group_name (name each) then Some (reference each)
      else group_reference_for rest group_name
  end.

(** [snapshot_group_will(self, message, v_object)]; [job_context.async]
    only sets the mode in which the jobs are started. *)
Definition snapshot_group_will (v_object : string) : Py peff unit :=
  let group_name := v_object in
  let server_session :=
    {| address := "landsharkengine"; user := "delphix_admin";
       engine_password := "landshark"; namespace := "DOMAIN" |} in
  all_groups <- library_call (Group_get_all server_session) ;;
  group_reference <-
    match group_reference_for all_groups group_name with
    | Some r => Ret r
    | None => Raise (UnboundLocalError "group_reference")
    end ;;
  database_objs <- library_call (Database_get_all server_session group_reference) ;;
  for_each database_objs (fun obj =>
    library_call (Database_sync server_session (reference obj))).

(** The engine as the plugin meets it: the answer to the [n]-th call. *)
Definition world : Type := nat -> forall R, peff R -> R.

Inductive pevent : Type :=
| PEv {R : Type} (o : peff R) (r : R).

Fixpoint run (w : world) {A} (p : Py peff A) (n : nat) (tr : list pevent)
  : result A * list pevent :=
  match p with
  | Ret a => (Returned a, tr)
  | Raise e => (Raised e, tr)
  | OutOfFuel => (Exhausted, tr)
  | Vis o k => run w (k (w n _ o)) (S n) (tr ++ [PEv o (w n _ o)])
  end.

(** The databases a run asked the engine to snapshot, in order. *)
Definition syncs (tr : list pevent) : list string :=
  omap (fun ev => match ev with PEv (Database_sync _ ref) _ => Some ref | _ => None end) tr.

(** The groups a run asked the databases of. *)
Definition listed_groups (tr : list pevent) : list string :=
  omap (fun ev => match ev with PEv (Database_get_all _ g) _ => Some g | _ => None end) tr.

End delphix_snapshot_group_will_plugin.

(** ** Programs that need no fuel *)

(** A program without a loop that could run out of fuel. *)
Fixpoint fuel_free {E A} (p : Py E A) : Prop :=
  match p with
  | Vis _ k => forall r, fuel_free (k r)
  | OutOfFuel => False
  | _ => True
  end.

(** The exit statuses a script can end with. *)
Definition exits_with (codes : list Z) (r : result unit) : Prop :=
  exists c, exit_status r = Some c /\ c ∈ codes.

(** What a run printed on standard output: the arguments of each [print]. *)
Definition printed (tr : list event) : list (list string) :=
  omap (fun ev => match ev with Ev (Print Stdout _ args) _ => Some args | _ => None end) tr.

(** ** A pass over the tracked jobs *)

(** A job met in a pass: the key it is tracked under, its reference, and
    the state that was fetched for it. *)
Definition polled : Type := string * job_ref * string.

(** What polling one job shows: the tracker is asked for the job of the
    key, the status of the job is fetched, and the key is retired when the
    status is terminal. *)
Definition poll_obs (p : polled) : list obs :=
  let '(j, ref, state) := p in
  [Lookup j (Some ref); Fetch ref (Ok state)]
    ++ (if is_terminal state then [Retire j] else []).

(** The keys of the polled jobs whose state is terminal. *)
Definition ended_keys (ps : list polled) : list string :=
  omap (fun p : polled => if is_terminal p.2 then Some p.1.1 else None) ps.

(** The observations other than sleeps. *)
Definition without_sleeps (os : list obs) : list obs :=
  omap (fun o => match o with Sleeping _ => None | _ => Some o end) os.

(** What a pass over the keys [keys] that starts in [st] and ends in [st']
    with [r] has done: it has polled the jobs [ps], tracked under the first
    of the keys, and under all of them when it came to its end; it was cut
    short, if at all, by a status fetch that failed ([cut]) or by the pause
    that follows a job; each job found ended was retired at once, and the
    tracker has lost these jobs and no other. *)
Definition pass_over (keys : list string) (st : tstate) {A} (r : result A)
    (st' : tstate) : Prop :=
  exists (ps : list polled) (cut : list obs),
    without_sleeps (observations (new_events st st')) = concat (poll_obs <$> ps) ++ cut /\
    (exists n, ps.*1.*1 = take n keys) /\
    (forall j ref state, (j, ref, state) ∈ ps -> jobs (session st) !! j = Some ref) /\
    (forall j, jobs (session st') !! j =
               if decide (j ∈ ended_keys ps) then None else jobs (session st) !! j) /\
    ((exists a, r = Returned a) -> ps.*1.*1 = keys /\ cut = []) /\
    (cut = [] \/
     exists j ref e,
       cut = [Lookup j (Some ref); Fetch ref (Err e)] /\ r = Raised e /\
       jobs (session st) !! j = Some ref).

(** A polling cycle: a pass over the keys of the tracker, in the order of
    [keys()]. *)
Definition polls_the_tracker (st : tstate) (r : result unit) (st' : tstate) : Prop :=
  pass_over (map_to_list (jobs (session st))).*1 st r st'.

(** An engine that answers every status fetch. *)
Definition fetches_answered (w : oracle) : Prop :=
  forall n s ref, exists jb, w n _ (Job_get s ref) = Ok jb.

(** An operation of the pause that follows the polling: the size of the
    tracker is read, the thread sleeps, a line is printed. *)
Definition pause_op {R} (o : weff R) : Prop :=
  match o with
  | Jobs_len | Sleep _ | Print _ _ _ => True
  | _ => False
  end.

(** The pause of a polling cycle that starts in [st] and ends in [st']:
    when jobs are still tracked the thread has slept once, for [poll]
    seconds, as the last thing it did in the cycle; when none is, it has
    not slept. *)
Definition pauses_once (poll : string) (st st' : tstate) : Prop :=
  if (0 <? size (jobs (session st')))%nat
  then float_literal poll = true /\
       exists evs, new_events st st' = evs ++ [Ev (Sleep poll) tt] /\ sleeps evs = []
  else sleeps (new_events st st') = [].

(** ** Workers that share the session *)

(** js_container.py against both engines: the coordinator starts the two
    workers; the second worker connects, then the first one, so that
    [dx_session_obj.server_session] is the session of the first engine
    from then on; then the second worker runs to its end, then the first
    one, and the coordinator joins them. *)
Definition late_connection : list Interleaving.tid :=
  replicate 4 Interleaving.Main
    ++ [Interleaving.Worker 1; Interleaving.Worker 0]
    ++ replicate 40 (Interleaving.Worker 1)
    ++ replicate 40 (Interleaving.Worker 0)
    ++ replicate 10 Interleaving.Main.

(** How the started workers have ended so far; [None] for a worker that
    is still running. *)
Definition worker_outcomes (sys : Interleaving.system) : list (option (result unit)) :=
  (fun th => match Interleaving.code th with
             | Ret a => Some (Returned a)
             | Raise e => Some (Raised e)
             | OutOfFuel => Some Exhausted
             | Vis _ _ => None
             end) <$> Interleaving.workers sys.

(** The sessions through which a thread has submitted operations to an
    engine, each with the answer of the engine. *)
Definition submissions (tr : list event) : list (option string * res string) :=
  omap (fun ev =>
          match ev with
          | Ev o r =>
              match o in weff R return R -> option (option string * res string) with
              | Remote c =>
                  match c in rcall R'
                        return res R' -> option (option string * res string) with
                  | Invoke s _ _ _ _ => fun r => Some (s, r)
                  | _ => fun _ => None
                  end
              | _ => fun _ => None
              end r
          end) tr.

(** A submission to the engine at [address]. *)
Definition submission_to (address : string) {R} (c : rcall R) : bool :=
  match c with
  | Invoke (Some a) _ _ _ _ => String.eqb a address
  | _ => false
  end.

(** The same run when the first worker has come to its end before the
    second one takes its first step. *)
Definition one_after_the_other : list Interleaving.tid :=
  replicate 4 Interleaving.Main
    ++ replicate 40 (Interleaving.Worker 0)
    ++ replicate 40 (Interleaving.Worker 1)
    ++ replicate 10 Interleaving.Main.

(** * Properties *)

(** ** Running programs *)

Lemma exec_bind {A B} (w : oracle) (m : Py weff A) (f : A -> Py weff B) (st : tstate) :
  exec w (bind m f) st =
  match exec w m st with
  | (Returned a, st') => exec w (f a) st'
  | (Raised e, st') => (Raised e, st')
  | (Exhausted, st') => (Exhausted, st')
  end.
Proof.
  revert st. induction m as [a | e | | R o k IH]; intros st; simpl; try reflexivity.
  destruct (perform w o st) as [r st']. apply IH.
Qed.

Lemma exec_try_except {A} (w : oracle) (p : Py weff A) (h : exn -> option (Py weff A))
    (st : tstate) :
  exec w (try_except p h) st =
  match exec w p st with
  | (Raised e, st') =>
      match h e with
      | Some q => exec w q st'
      | None => (Raised e, st')
      end
  | other => other
  end.
Proof.
  revert st. induction p as [a | e | | R o k IH]; intros st; simpl; try reflexivity.
  - destruct (h e); reflexivity.
  - destruct (perform w o st) as [r st']. apply IH.
Qed.

Lemma exec_call {R} (w : oracle) (o : weff R) (st : tstate) :
  exec w (call o) st = (Returned (perform w o st).1, (perform w o st).2).
Proof. unfold call. simpl. destruct (perform w o st). reflexivity. Qed.

Lemma exec_remote_call {R} (w : oracle) (c : rcall R) (st : tstate) :
  exec w (remote_call c) st =
  (match w (calls st) _ c with Ok v => Returned v | Err e => Raised e end,
   {| session := session st; calls := S (calls st);
      trace := trace st ++ [Ev (Remote c) (w (calls st) _ c)] |}).
Proof. unfold remote_call. simpl. destruct (w (calls st) R c); reflexivity. Qed.

Lemma exec_print (w : oracle) (ch : channel) (fmt : string) (args : list string)
    (st : tstate) :
  exec w (call (Print ch fmt args)) st =
  (Returned tt,
   {| session := session st; calls := calls st;
      trace := trace st ++ [Ev (Print ch fmt args) tt] |}).
Proof. reflexivity. Qed.

(** ** lib/GetReferences.py *)

Section find_obj_by_name_facts.
Import GetReferences.

Lemma find_obj_by_name_for_Some (all_objs : list Obj) (obj_name : string) (obj : Obj) :
  find_obj_by_name_for all_objs obj_name PyFalse = Some (Found_obj obj) <->
  exists pre post,
    all_objs = pre ++ obj :: post /\ name obj = obj_name /\
    Forall (fun o => name o <> obj_name) pre.
Proof.
  induction all_objs as [| o rest IH]; simpl.
  - split; [discriminate |]. intros (pre & post & H & _). destruct pre; discriminate.
  - destruct (String.eqb_spec (name o) obj_name) as [Heq | Hne].
    + split.
      * intros [= <-]. exists [], rest. repeat split; auto.
      * intros (pre & post & H & Hn & Hpre). destruct pre as [| o' pre]; simpl in H.
        -- injection H as -> _. reflexivity.
        -- injection H as -> _. apply Forall_cons in Hpre as [Hpre _]. contradiction.
    + rewrite IH. split.
      * intros (pre & post & -> & Hn & Hpre). exists (o :: pre), post.
        repeat split; auto.
      * intros (pre & post & H & Hn & Hpre). destruct pre as [| o' pre]; simpl in H.
        -- injection H as -> _. contradiction.
        -- injection H as -> ->. apply Forall_cons in Hpre as [_ Hpre]. eauto.
Qed.

Lemma find_obj_by_name_for_result (all_objs : list Obj) (obj_name : string) :
  match find_obj_by_name_for all_objs obj_name PyFalse with
  | Some (Found_obj _) => True
  | Some (Found_list _) => False
  | None => True
  end.
Proof.
  induction all_objs as [| o rest IH]; simpl; [exact I |].
  destruct (String.eqb (name o) obj_name); [exact I | exact IH].
Qed.

Lemma find_obj_by_name_for_None (all_objs : list Obj) (obj_name : string) :
  find_obj_by_name_for all_objs obj_name PyFalse = None <->
  Forall (fun o => name o <> obj_name) all_objs.
Proof.
  induction all_objs as [| o rest IH]; simpl.
  - split; auto.
  - destruct (String.eqb_spec (name o) obj_name) as [Heq | Hne].
    + split; [discriminate |]. intros H. apply Forall_cons in H as [H _]. contradiction.
    + rewrite IH. split; [intros H; constructor; auto |].
      intros H. apply Forall_cons in H as [_ H]. exact H.
Qed.

Lemma exec_find_obj_by_name (w : oracle) (address : string) (f_class : obj_class)
    (obj_name : string) (st : tstate) (all_objs : list Obj) :
  w (calls st) _ (Get_all (Some address) f_class None) = Ok all_objs ->
  (exec w (find_obj_by_name (Some address) f_class obj_name PyFalse) st).1 =
  match find_obj_by_name_for all_objs obj_name PyFalse with
  | Some r => Returned r
  | None =>
      Raised (DlpxException (obj_name ++ " was not found on engine " ++ address ++ "."))
  end.
Proof.
  intros Hw. unfold find_obj_by_name.
  rewrite exec_bind, exec_try_except, exec_remote_call, Hw.
  destruct (find_obj_by_name_for all_objs obj_name PyFalse); reflexivity.
Qed.

(** C9.  For every engine session and object class, when
    [f_class.get_all(engine)] returns the list [all_objs],
    [find_obj_by_name] called with [active_branch=False] returns the
    first object of [all_objs] whose name equals [obj_name], and it
    raises [DlpxException] if and only if no object of the list has that
    name. *)
Theorem find_obj_by_name_first_match (w : oracle) (address : string)
    (f_class : obj_class) (obj_name : string) (st : tstate) (all_objs : list Obj) :
  w (calls st) _ (Get_all (Some address) f_class None) = Ok all_objs ->
  let r := (exec w (find_obj_by_name (Some address) f_class obj_name PyFalse) st).1 in
  (forall obj,
      r = Returned (Found_obj obj) <->
      exists pre post,
        all_objs = pre ++ obj :: post /\ name obj = obj_name /\
        Forall (fun o => name o <> obj_name) pre) /\
  ((exists msg, r = Raised (DlpxException msg)) <->
   Forall (fun o => name o <> obj_name) all_objs) /\
  ((exists obj, r = Returned (Found_obj obj)) \/ (exists msg, r = Raised (DlpxException msg))).
Proof.
  intros Hw r. subst r. rewrite (exec_find_obj_by_name _ _ _ _ _ _ Hw).
  pose proof (find_obj_by_name_for_result all_objs obj_name) as Hres.
  pose proof (find_obj_by_name_for_None all_objs obj_name) as Hnone.
  pose proof (find_obj_by_name_for_Some all_objs obj_name) as Hsome.
  destruct (find_obj_by_name_for all_objs obj_name PyFalse) as [[obj' | l] |];
    try contradiction.
  - split; [| split].
    + intros obj. rewrite <- Hsome. split; congruence.
    + split; [intros [msg [=]] |]. intros H. apply Hnone in H. discriminate.
    + left. eauto.
  - split; [| split].
    + intros obj. rewrite <- Hsome. split; discriminate.
    + split; [intros _; apply Hnone; reflexivity | eauto].
    + right. eauto.
Qed.

End find_obj_by_name_facts.

Lemma find_obj_by_name_first_match_witness :
  Scenario.world_ok 0 _ (Get_all (Some "10.0.0.1") c_database None) = Ok Scenario.catalog /\
  (exec Scenario.world_ok
     (GetReferences.find_obj_by_name (Some "10.0.0.1") c_database "db1" GetReferences.PyFalse)
     Scenario.fresh).1
  = Returned (GetReferences.Found_obj (Scenario.obj "db1" "DB-1")).
Proof.
  split; [reflexivity |].
  apply (find_obj_by_name_first_match Scenario.world_ok "10.0.0.1" c_database "db1"
           Scenario.fresh Scenario.catalog eq_refl).
  exists [Scenario.obj "other" "OBJ-0"],
    [Scenario.obj "t1" "TEMPLATE-1"; Scenario.obj "db1" "DB-9";
     Scenario.obj "env1" "ENV-1"].
  split; [reflexivity |]. split; [reflexivity |].
  constructor; [discriminate | constructor].
Defined.

Lemma exec_print_debug (w : oracle) (fmt : string) (args : list string) (st : tstate) :
  exec w (print_debug fmt args) st =
  (Returned tt,
   {| session := session st; calls := calls st;
      trace := trace st ++ [Ev (Print Debug fmt args) tt] |}).
Proof. reflexivity. Qed.

Lemma exec_find_sourceconfig (w : oracle) (engine : option string)
    (sourceconfig_name f_environment_ref : string) (st : tstate) (all_objs : list Obj) :
  w (calls st) _ (Get_all engine c_sourceconfig (Some f_environment_ref)) = Ok all_objs ->
  (exec w (GetReferences.find_sourceconfig engine sourceconfig_name f_environment_ref) st).1 =
  match all_objs with
  | [] => Returned None
  | obj :: _ =>
      if String.eqb (name obj) sourceconfig_name then Returned (Some obj)
      else Raised (DlpxException
                     ("No sourceconfig match found for type " ++ sourceconfig_name ++ "."))
  end.
Proof.
  intros Hw. unfold GetReferences.find_sourceconfig.
  rewrite exec_bind, exec_print_debug, exec_bind, exec_remote_call. simpl calls.
  rewrite Hw. destruct all_objs as [| obj rest]; [reflexivity |].
  unfold GetReferences.find_sourceconfig_for.
  destruct (String.eqb (name obj) sourceconfig_name); reflexivity.
Qed.

(** C10.  [find_sourceconfig] returns the named sourceconfig only when it
    is the first element of what [sourceconfig.get_all] returns: on a
    non-empty list whose first element has another name it raises
    [DlpxException], whatever follows (a later element with the name
    included); on an empty list it returns [None]. *)
Theorem find_sourceconfig_first_element_only (w : oracle) (engine : option string)
    (sourceconfig_name f_environment_ref : string) (st : tstate) (all_objs : list Obj) :
  w (calls st) _ (Get_all engine c_sourceconfig (Some f_environment_ref)) = Ok all_objs ->
  let r :=
    (exec w (GetReferences.find_sourceconfig engine sourceconfig_name f_environment_ref) st).1 in
  (forall obj,
      r = Returned (Some obj) <->
      exists rest, all_objs = obj :: rest /\ name obj = sourceconfig_name) /\
  (forall obj rest,
      all_objs = obj :: rest -> name obj <> sourceconfig_name ->
      exists msg, r = Raised (DlpxException msg)) /\
  (all_objs = [] -> r = Returned None).
Proof.
  intros Hw r. subst r. rewrite (exec_find_sourceconfig _ _ _ _ _ _ Hw).
  split; [| split].
  - intros obj. destruct all_objs as [| o rest].
    + split; [discriminate | intros (? & [=] & _)].
    + destruct (String.eqb_spec (name o) sourceconfig_name) as [Heq | Hne].
      * split; [intros [= <-]; eauto | intros (? & [= <- _] & _); reflexivity].
      * split; [discriminate | intros (? & [= <- _] & ?); contradiction].
  - intros obj rest -> Hne.
    destruct (String.eqb_spec (name obj) sourceconfig_name); [contradiction | eauto].
  - intros ->. reflexivity.
Qed.

Lemma find_sourceconfig_first_element_only_witness :
  Scenario.world_ok 0 _ (Get_all (Some "10.0.0.1") c_sourceconfig (Some "ENV-1"))
  = Ok Scenario.catalog /\
  exists msg,
    (exec Scenario.world_ok
       (GetReferences.find_sourceconfig (Some "10.0.0.1") "db1" "ENV-1") Scenario.fresh).1
    = Raised (DlpxException msg).
Proof.
  split; [reflexivity |].
  apply (proj1 (proj2 (find_sourceconfig_first_element_only Scenario.world_ok
                         (Some "10.0.0.1") "db1" "ENV-1" Scenario.fresh Scenario.catalog
                         eq_refl))
           (Scenario.obj "other" "OBJ-0")
           [Scenario.obj "db1" "DB-1"; Scenario.obj "t1" "TEMPLATE-1";
            Scenario.obj "db1" "DB-9"; Scenario.obj "env1" "ENV-1"] eq_refl).
  discriminate.
Defined.

(** ** The coordinator *)

Lemma run_main_bind {A B} (w : nat -> oracle) (worker : option Engine -> Py weff unit)
    (m : Py ceff A) (f : A -> Py ceff B) (st : cstate) :
  run_main w worker (bind m f) st =
  match run_main w worker m st with
  | (Returned a, st') => run_main w worker (f a) st'
  | (Raised e, st') => (Raised e, st')
  | (Exhausted, st') => (Exhausted, st')
  end.
Proof.
  revert st. induction m as [a | e | | R o k IH]; intros st; simpl; try reflexivity.
  destruct (cperform w worker o st) as [r st']. apply IH.
Qed.

Lemma run_main_try_except {A} (w : nat -> oracle) (worker : option Engine -> Py weff unit)
    (p : Py ceff A) (h : exn -> option (Py ceff A)) (st : cstate) :
  run_main w worker (try_except p h) st =
  match run_main w worker p st with
  | (Raised e, st') =>
      match h e with
      | Some q => run_main w worker q st'
      | None => (Raised e, st')
      end
  | other => other
  end.
Proof.
  revert st. induction p as [a | e | | R o k IH]; intros st; simpl; try reflexivity.
  - destruct (h e); reflexivity.
  - destruct (cperform w worker o st) as [r st']. apply IH.
Qed.

(** What a coordinator operation answers does not depend on the threads:
    starting one returns its handle, joining one returns nothing. *)
Lemma cperform_answer {R} (w w' : nat -> oracle) (worker worker' : option Engine -> Py weff unit)
    (o : ceff R) (st st' : cstate) :
  length (threads st) = length (threads st') ->
  (cperform w worker o st).1 = (cperform w' worker' o st').1 /\
  length (threads (cperform w worker o st).2) = length (threads (cperform w' worker' o st').2).
Proof.
  intros Hlen. destruct o as [ch fmt args | engine | t]; simpl.
  - split; [reflexivity | exact Hlen].
  - destruct (exec (w (length (threads st))) (worker engine) _) as [r ts].
    destruct (exec (w' (length (threads st'))) (worker' engine) _) as [r' ts'].
    simpl. split; [exact Hlen |]. rewrite !length_app. simpl. lia.
  - split; [reflexivity | exact Hlen].
Qed.

(** How the coordinator ends is the same whatever the world answers to the
    workers and whatever the workers do. *)
Lemma run_main_blind_to_workers {A} (w w' : nat -> oracle)
    (worker worker' : option Engine -> Py weff unit) (p : Py ceff A) (st st' : cstate) :
  length (threads st) = length (threads st') ->
  (run_main w worker p st).1 = (run_main w' worker' p st').1.
Proof.
  revert st st'. induction p as [a | e | | R o k IH]; intros st st' Hlen; simpl;
    try reflexivity.
  destruct (cperform_answer w w' worker worker' o st st' Hlen) as [Hr Hl].
  destruct (cperform w worker o st) as [r st1].
  destruct (cperform w' worker' o st') as [r' st1'].
  simpl in Hr, Hl. subst r'. apply IH. exact Hl.
Qed.

(** C1.  The exit status of js_container.py does not tell whether the
    workers succeeded: it is the same whatever the engines answer and
    whatever the worker threads do; with [--all] on two engines that both
    reject the operation, both workers end in [sys.exit(1)] and the process
    still exits with status 0. *)
Theorem js_container_exit_status_blind_to_worker_failure :
  (forall (w w' : nat -> oracle) (worker worker' : option Engine -> Py weff unit)
          (arguments : js_container.Arguments) (get_config : res Config),
      exit_status (run_main w worker (js_container.main arguments get_config) process_start).1
      = exit_status (run_main w' worker' (js_container.main arguments get_config)
                       process_start).1) /\
  (let arguments := ScenarioArgs.js_create None true in
   let run :=
     run_main (fun _ => Scenario.world_rejecting)
       (js_container.main_workflow arguments 10 Scenario.two_engines)
       (js_container.main arguments (Ok Scenario.two_engines)) process_start in
   outcomes run.2 = [Raised (SystemExit 1); Raised (SystemExit 1)] /\
   exit_status run.1 = Some 0%Z).
Proof.
  split.
  - intros. f_equal. apply run_main_blind_to_workers. reflexivity.
  - vm_compute. split; reflexivity.
Qed.

Lemma dict_get_item (cfg : Config) (k : string) (e : Engine) :
  NoDup cfg.*1 -> (k, e) ∈ cfg -> dict_get cfg k = Some e.
Proof.
  induction cfg as [| [k' e'] cfg IH]; simpl; intros Hnd Hin.
  - apply elem_of_nil in Hin. contradiction.
  - apply NoDup_cons in Hnd as [Hk' Hnd]. apply elem_of_cons in Hin as [[= -> ->] | Hin].
    + rewrite String.eqb_refl. reflexivity.
    + destruct (String.eqb_spec k' k) as [-> | Hne]; [| auto].
      exfalso. apply Hk'. apply list_elem_of_fmap. exists (k, e). auto.
Qed.

(** The last loop of [run_job]: every thread of the list is joined. *)
Lemma run_main_join_all (w : nat -> oracle) (worker : option Engine -> Py weff unit)
    (ts : list nat) (st : cstate) :
  exists st',
    run_main w worker (for_each ts (fun each => call (Thread_join each))) st
    = (Returned tt, st') /\
    joined st' = joined st ++ ts /\ threads st' = threads st.
Proof.
  revert st. induction ts as [| t ts IH]; intros st; simpl.
  - exists st. rewrite app_nil_r. auto.
  - destruct (IH {| c_session := c_session st;
                    c_trace := c_trace st ++ [CEv (Thread_join t) tt];
                    threads := threads st; joined := joined st ++ [t] |})
      as (st' & Hrun & Hj & Ht).
    exists st'. rewrite Hrun, Hj. simpl. rewrite <- app_assoc. auto.
Qed.

Lemma for_loop_cons {E X S} (x : X) (l : list X) (s : S) (body : X -> S -> Py E (ctl * S)) :
  for_loop (x :: l) s body =
  (r <- body x s ;;
   match r with
   | (Next, s') => for_loop l s' body
   | (Break, s') => Ret s'
   end).
Proof. reflexivity. Qed.

Lemma run_main_call {R} (w : nat -> oracle) (worker : option Engine -> Py weff unit)
    (o : ceff R) (st : cstate) :
  run_main w worker (call o) st =
  (Returned (cperform w worker o st).1, (cperform w worker o st).2).
Proof. unfold call. simpl. destruct (cperform w worker o st). reflexivity. Qed.

Lemma run_main_dict_getitem (w : nat -> oracle) (worker : option Engine -> Py weff unit)
    (cfg : Config) (k : string) (st : cstate) :
  run_main w worker (dict_getitem cfg k) st =
  (match dict_get cfg k with Some e => Returned e | None => Raised (KeyError k) end, st).
Proof. unfold dict_getitem. destruct (dict_get cfg k); reflexivity. Qed.

Lemma cperform_thread_start (w : nat -> oracle) (worker : option Engine -> Py weff unit)
    (engine : option Engine) (st : cstate) :
  let st' := (cperform w worker (Thread_start engine) st).2 in
  (cperform w worker (Thread_start engine) st).1 = length (threads st) /\
  started_on st' = started_on st ++ [engine] /\
  joined st' = joined st /\
  length (threads st') = S (length (threads st)).
Proof.
  simpl. destruct (exec (w (length (threads st))) (worker engine) _) as [r ts]. simpl.
  unfold started_on. simpl. rewrite map_app, length_app. simpl.
  repeat split; auto. lia.
Qed.

(** The [--all] loop of js_container.py: one thread per item of the
    configuration, in order. *)
Lemma js_container_all_loop (w : nat -> oracle) (worker : option Engine -> Py weff unit)
    (cfg items : Config) (threads0 : list nat) (st : cstate) :
  (forall k e, (k, e) ∈ items -> dict_get cfg k = Some e) ->
  exists st',
    run_main w worker
      (for_loop items.*1 threads0 (fun delphix_engine threads =>
         engine <- session_getitem cfg delphix_engine ;;
         t <- call (Thread_start (Some engine)) ;;
         Ret (Next, threads ++ [t]))) st
    = (Returned (threads0 ++ seq (length (threads st)) (length items)), st') /\
    started_on st' = started_on st ++ map (fun ke => Some ke.2) items /\
    joined st' = joined st.
Proof.
  revert threads0 st. induction items as [| [k e] items IH]; intros threads0 st Hget.
  - exists st. simpl. rewrite !app_nil_r. auto.
  - rewrite fmap_cons. cbn [fst]. rewrite for_loop_cons, run_main_bind. cbv beta.
    rewrite run_main_bind.
    change (session_getitem cfg k) with (@dict_getitem ceff cfg k).
    rewrite run_main_dict_getitem.
    rewrite (Hget k e) by apply list_elem_of_here.
    rewrite run_main_bind, run_main_call.
    destruct (cperform_thread_start w worker (Some e) st) as (Ht & Hs & Hj & Hl).
    rewrite Ht. cbn [run_main fst snd].
    destruct (IH (threads0 ++ [length (threads st)])
                (cperform w worker (Thread_start (Some e)) st).2)
      as (st' & Hrun & Hs' & Hj').
    { intros k' e' Hin. apply Hget. apply list_elem_of_further. exact Hin. }
    exists st'. rewrite Hrun, Hs', Hj', Hs, Hj, Hl. simpl.
    rewrite <- !app_assoc. auto.
Qed.

Lemma run_main_bind_returned {A B} (w : nat -> oracle)
    (worker : option Engine -> Py weff unit) (m : Py ceff A) (f : A -> Py ceff B)
    (st st' : cstate) (a : A) :
  run_main w worker m st = (Returned a, st') ->
  run_main w worker (bind m f) st = run_main w worker (f a) st'.
Proof. intros H. rewrite run_main_bind, H. reflexivity. Qed.

Lemma run_main_bind_raised {A B} (w : nat -> oracle)
    (worker : option Engine -> Py weff unit) (m : Py ceff A) (f : A -> Py ceff B)
    (st st' : cstate) (e : exn) :
  run_main w worker m st = (Raised e, st') ->
  run_main w worker (bind m f) st = (Raised e, st').
Proof. intros H. rewrite run_main_bind, H. reflexivity. Qed.

Lemma run_main_try_returned {A} (w : nat -> oracle)
    (worker : option Engine -> Py weff unit) (p : Py ceff A)
    (h : exn -> option (Py ceff A)) (st st' : cstate) (a : A) :
  run_main w worker p st = (Returned a, st') ->
  run_main w worker (try_except p h) st = (Returned a, st').
Proof. intros H. rewrite run_main_try_except, H. reflexivity. Qed.

Lemma run_main_print (w : nat -> oracle) (worker : option Engine -> Py weff unit)
    (ch : channel) (fmt : string) (args : list string) (st : cstate) :
  run_main w worker (call (print_op ch fmt args)) st =
  (Returned tt,
   {| c_session := c_session st;
      c_trace := c_trace st ++ [CEv (CPrint ch fmt args) tt];
      threads := threads st; joined := joined st |}).
Proof. reflexivity. Qed.

(** With [--all], [run_job] of js_container.py starts one worker per
    configured engine and joins every one of them before it returns. *)
Lemma js_container_run_job_all (w : nat -> oracle) (worker : option Engine -> Py weff unit)
    (arguments : js_container.Arguments) (cfg : Config) (config_file_path : string) :
  js_container.opt_all arguments = true ->
  NoDup cfg.*1 ->
  exists st',
    run_main w worker (js_container.run_job arguments cfg config_file_path) process_start
    = (Returned tt, st') /\
    started_on st' = map (fun ke => Some ke.2) cfg /\
    joined st' = seq 0 (length cfg).
Proof.
  intros Hall Hnd. unfold js_container.run_job. rewrite Hall.
  match goal with
  | |- context [for_loop cfg.*1 [] ?body] =>
      destruct (js_container_all_loop w worker cfg cfg []
                  {| c_session := c_session process_start;
                     c_trace := c_trace process_start ++
                       [CEv (CPrint Info
                          "Executing against all Delphix Engines in the dxtools.conf" [])
                          tt];
                     threads := threads process_start;
                     joined := joined process_start |})
        as (st1 & Hrun & Hs & Hj)
  end.
  { intros k e. apply dict_get_item. exact Hnd. }
  destruct (run_main_join_all w worker ([] ++ seq 0 (length cfg)) st1)
    as (st2 & Hrun2 & Hj2 & Ht2).
  exists st2. split; [| split].
  - erewrite run_main_bind_returned; [exact Hrun2 |].
    erewrite run_main_bind_returned; [| apply run_main_print].
    apply run_main_try_returned. exact Hrun.
  - unfold started_on in *. rewrite Ht2, Hs. reflexivity.
  - rewrite Hj2, Hj. reflexivity.
Qed.

Lemma last_engine_cons (x : string * Engine) (items : Config) (eng0 : option Engine) :
  from_option (fun ke : string * Engine => Some ke.2) eng0 (last (x :: items)) =
  from_option (fun ke : string * Engine => Some ke.2) (Some x.2) (last items).
Proof. rewrite last_cons. destruct (last items); reflexivity. Qed.

(** The [--all] loop of dx_replication.py: one thread per item of the
    configuration; the variable [engine] is left at the last one. *)
Lemma dx_replication_all_loop (w : nat -> oracle) (worker : option Engine -> Py weff unit)
    (cfg items : Config) (eng0 : option Engine) (threads0 : list nat) (st : cstate) :
  (forall k e, (k, e) ∈ items -> dict_get cfg k = Some e) ->
  exists st',
    run_main w worker
      (for_loop items.*1 (eng0, threads0) (fun delphix_engine '(_, threads) =>
         engine <- session_getitem cfg delphix_engine ;;
         t <- call (Thread_start (Some engine)) ;;
         Ret (Next, (Some engine, threads ++ [t])))) st
    = (Returned (from_option (fun ke : string * Engine => Some ke.2) eng0 (last items),
                 threads0 ++ seq (length (threads st)) (length items)), st') /\
    started_on st' = started_on st ++ map (fun ke => Some ke.2) items /\
    joined st' = joined st /\
    length (threads st') = length (threads st) + length items.
Proof.
  revert eng0 threads0 st. induction items as [| [k e] items IH]; intros eng0 threads0 st Hget.
  - exists st. simpl. rewrite !app_nil_r. auto.
  - rewrite fmap_cons. cbn [fst]. rewrite for_loop_cons, run_main_bind. cbv beta iota.
    rewrite run_main_bind.
    change (session_getitem cfg k) with (@dict_getitem ceff cfg k).
    rewrite run_main_dict_getitem.
    rewrite (Hget k e) by apply list_elem_of_here.
    rewrite run_main_bind, run_main_call.
    destruct (cperform_thread_start w worker (Some e) st) as (Ht & Hs & Hj & Hl).
    rewrite Ht. cbn [run_main fst snd].
    destruct (IH (Some e) (threads0 ++ [length (threads st)])
                (cperform w worker (Thread_start (Some e)) st).2)
      as (st' & Hrun & Hs' & Hj' & Hl').
    { intros k' e' Hin. apply Hget. apply list_elem_of_further. exact Hin. }
    exists st'. rewrite Hrun, Hs', Hj', Hl', Hs, Hj, Hl, last_engine_cons. simpl.
    rewrite <- !app_assoc. repeat split; auto; lia.
Qed.

(** C2.  With [--all], [run_job] of dx_replication.py starts one worker
    more than there are configured engines: after the loop over the
    configuration it starts [main_workflow] once more, on the engine the
    loop ended with; it joins all of them. *)
Theorem dx_replication_all_starts_one_worker_too_many (w : nat -> oracle)
    (worker : option Engine -> Py weff unit) (arguments : dx_replication.Arguments)
    (cfg : Config) (last_name : string) (last_engine : Engine) (config_file_path : string) :
  dx_replication.opt_all arguments = true ->
  NoDup (cfg ++ [(last_name, last_engine)]).*1 ->
  exists st',
    run_main w worker
      (dx_replication.run_job arguments (cfg ++ [(last_name, last_engine)]) config_file_path)
      process_start
    = (Returned tt, st') /\
    started_on st' =
      map (fun ke => Some ke.2) (cfg ++ [(last_name, last_engine)]) ++ [Some last_engine] /\
    joined st' = seq 0 (length (cfg ++ [(last_name, last_engine)]) + 1).
Proof.
  intros Hall Hnd. unfold dx_replication.run_job. rewrite Hall.
  set (cfg' := cfg ++ [(last_name, last_engine)]) in *.
  destruct (dx_replication_all_loop w worker cfg' cfg' None []
              {| c_session := c_session process_start;
                 c_trace := c_trace process_start ++
                   [CEv (CPrint Info
                      "Executing against all Delphix Engines in the dxtools.conf" [])
                      tt];
                 threads := threads process_start;
                 joined := joined process_start |})
    as (st1 & Hrun & Hs & Hj & Hl).
  { intros k e. apply dict_get_item. exact Hnd. }
  assert (Hlast : last cfg' = Some (last_name, last_engine)) by apply last_snoc.
  rewrite Hlast in Hrun. cbn [from_option snd] in Hrun.
  destruct (cperform_thread_start w worker (Some last_engine) st1) as (Ht & Hs' & Hj' & Hl').
  set (st2 := (cperform w worker (Thread_start (Some last_engine)) st1).2) in *.
  destruct (run_main_join_all w worker
              (([] ++ seq 0 (length cfg')) ++ [length (threads st1)]) st2)
    as (st3 & Hrun3 & Hj3 & Ht3).
  exists st3. split; [| split].
  - erewrite run_main_bind_returned;
      [| erewrite run_main_bind_returned; [| apply run_main_print];
         apply run_main_try_returned; exact Hrun].
    cbv beta iota.
    erewrite run_main_bind_returned; [| apply run_main_call].
    rewrite Ht. fold st2. exact Hrun3.
  - unfold started_on in *. rewrite Ht3, Hs', Hs. reflexivity.
  - rewrite Hj3, Hj', Hj, Hl. simpl. rewrite seq_app. reflexivity.
Qed.

Lemma dx_replication_all_starts_one_worker_too_many_witness :
  dx_replication.opt_all (ScenarioArgs.rep_execute None true) = true /\
  NoDup ([("e1", Scenario.engine1)] ++ [("e2", Scenario.engine2)]).*1 /\
  exists st',
    run_main (fun _ => Scenario.world_ok)
      (dx_replication.main_workflow (ScenarioArgs.rep_execute None true) 10)
      (dx_replication.run_job (ScenarioArgs.rep_execute None true) Scenario.two_engines
         "./dxtools.conf")
      process_start
    = (Returned tt, st') /\
    started_on st' =
      [Some Scenario.engine1; Some Scenario.engine2; Some Scenario.engine2] /\
    joined st' = [0; 1; 2].
Proof.
  assert (Hnd : NoDup ([("e1", Scenario.engine1)] ++ [("e2", Scenario.engine2)]).*1).
  { apply (bool_decide_unpack _). vm_compute. exact I. }
  split; [reflexivity |]. split; [exact Hnd |].
  exact (dx_replication_all_starts_one_worker_too_many (fun _ => Scenario.world_ok)
           (dx_replication.main_workflow (ScenarioArgs.rep_execute None true) 10)
           (ScenarioArgs.rep_execute None true) [("e1", Scenario.engine1)] "e2"
           Scenario.engine2 "./dxtools.conf" eq_refl Hnd).
Defined.

(** dx_jobs.py has the same [run_job]: with [--all] on two engines it starts
    three workers, two of them on the second engine. *)
Example dx_jobs_all_starts_one_worker_too_many :
  let run :=
    run_main (fun _ => Scenario.world_ok)
      (dx_jobs.main_workflow (ScenarioArgs.jobs_list None true) 10)
      (dx_jobs.run_job (ScenarioArgs.jobs_list None true) Scenario.two_engines
         "./dxtools.conf")
      process_start in
  run.1 = Returned tt /\
  started_on run.2 = [Some Scenario.engine1; Some Scenario.engine2; Some Scenario.engine2] /\
  joined run.2 = [0; 1; 2].
Proof. vm_compute. repeat split; reflexivity. Qed.

(** C4.  When [--engine] names an engine that is not in the configuration,
    js_container.py reports it and goes on: [run_job] starts one worker, with
    [None] for engine, joins it and returns; that worker ends in a
    [TypeError], and the process exits with status 0. *)
Theorem js_container_unknown_engine_starts_a_worker (w : nat -> oracle) (fuel : nat)
    (arguments : js_container.Arguments) (cfg : Config) :
  js_container.opt_all arguments = false ->
  truthy (js_container.opt_engine arguments) = true ->
  dict_get cfg (arg (js_container.opt_engine arguments)) = None ->
  let run :=
    run_main w (js_container.main_workflow arguments fuel cfg)
      (js_container.main arguments (Ok cfg)) process_start in
  started_on run.2 = [None] /\
  outcomes run.2 = [Raised TypeError] /\
  joined run.2 = [0] /\
  exit_status run.1 = Some 0%Z.
Proof.
  intros Hall Hengine Hget run. subst run.
  unfold js_container.main, js_container.run_job. rewrite Hall, Hengine. simpl negb.
  unfold dict_getitem. simpl. rewrite Hget. simpl. auto.
Qed.

Lemma js_container_unknown_engine_starts_a_worker_witness :
  js_container.opt_all (ScenarioArgs.js_create (Some "missing-name") false) = false /\
  truthy (js_container.opt_engine (ScenarioArgs.js_create (Some "missing-name") false)) = true /\
  dict_get Scenario.two_engines
    (arg (js_container.opt_engine (ScenarioArgs.js_create (Some "missing-name") false)))
  = None /\
  let run :=
    run_main (fun _ => Scenario.world_ok)
      (js_container.main_workflow (ScenarioArgs.js_create (Some "missing-name") false) 10
         Scenario.two_engines)
      (js_container.main (ScenarioArgs.js_create (Some "missing-name") false)
         (Ok Scenario.two_engines))
      process_start in
  started_on run.2 = [None] /\
  outcomes run.2 = [Raised TypeError] /\
  joined run.2 = [0] /\
  exit_status run.1 = Some 0%Z.
Proof.
  split; [reflexivity |]. split; [reflexivity |]. split; [reflexivity |].
  exact (js_container_unknown_engine_starts_a_worker (fun _ => Scenario.world_ok) 10
           (ScenarioArgs.js_create (Some "missing-name") false) Scenario.two_engines
           eq_refl eq_refl eq_refl).
Defined.

(** dx_environment.py does the same. *)
Example dx_environment_unknown_engine_starts_a_worker :
  let arguments := ScenarioArgs.env_refresh (Some "missing-name") false in
  let run :=
    run_main (fun _ => Scenario.world_ok) (dx_environment.main_workflow arguments 10)
      (dx_environment.run_job arguments Scenario.two_engines "./dxtools.conf")
      process_start in
  run.1 = Returned tt /\ started_on run.2 = [None] /\
  outcomes run.2 = [Raised TypeError] /\ joined run.2 = [0].
Proof. vm_compute. repeat split; reflexivity. Qed.

(** dx_jobs.py raises the error instead: no worker is started and the
    process exits with status 1. *)
Example dx_jobs_unknown_engine_fails :
  let arguments := ScenarioArgs.jobs_list (Some "missing-name") false in
  let run :=
    run_main (fun _ => Scenario.world_ok) (dx_jobs.main_workflow arguments 10)
      (dx_jobs.run_job arguments Scenario.two_engines "./dxtools.conf") process_start in
  run.1 = Raised (DlpxException
                    "ERROR: Delphix Engine missing-name cannot be found in ./dxtools.conf. Please check your value and try again. Exiting.") /\
  started_on run.2 = [] /\
  exit_status
    (run_main (fun _ => Scenario.world_ok) (dx_jobs.main_workflow arguments 10)
       (dx_jobs.main arguments (Ok Scenario.two_engines)) process_start).1 = Some 1%Z.
Proof. vm_compute. repeat split; reflexivity. Qed.

(** Without [--all] and [--engine], js_container.py runs against the first
    engine of the configuration when that one is marked default. *)
Lemma js_container_default_engine_first (w : nat -> oracle)
    (worker : option Engine -> Py weff unit) (arguments : js_container.Arguments)
    (first_name : string) (first_engine : Engine) (cfg : Config)
    (config_file_path : string) :
  js_container.opt_all arguments = false ->
  truthy (js_container.opt_engine arguments) = false ->
  default first_engine = "true" ->
  let run :=
    run_main w worker
      (js_container.run_job arguments ((first_name, first_engine) :: cfg) config_file_path)
      process_start in
  run.1 = Returned tt /\ started_on run.2 = [Some first_engine] /\ joined run.2 = [0].
Proof.
  intros Hall Hengine Hdefault run. subst run.
  unfold js_container.run_job. rewrite Hall, Hengine. unfold dict_getitem. simpl.
  rewrite String.eqb_refl. simpl. rewrite Hdefault. simpl.
  destruct (exec (w 0) (worker (Some first_engine)) _) as [r ts]. simpl. auto.
Qed.

(** C5.  Without [--all] and [--engine], [run_job] of js_container.py looks
    at the first engine of the configuration only (the loop ends in an
    unconditional [break]): when that engine is not marked default, the run
    fails with "No default engine found" and starts no worker, whatever
    engines follow, a default one included. *)
Theorem js_container_default_engine_not_found_unless_first (w : nat -> oracle)
    (worker : option Engine -> Py weff unit) (arguments : js_container.Arguments)
    (first_name : string) (first_engine : Engine) (cfg : Config)
    (config_file_path : string) :
  js_container.opt_all arguments = false ->
  truthy (js_container.opt_engine arguments) = false ->
  default first_engine <> "true" ->
  run_main w worker
    (js_container.run_job arguments ((first_name, first_engine) :: cfg) config_file_path)
    process_start
  = (Raised (DlpxException "ERROR: No default engine found. Exiting"), process_start).
Proof.
  intros Hall Hengine Hdefault.
  unfold js_container.run_job. rewrite Hall, Hengine. unfold dict_getitem. simpl.
  rewrite String.eqb_refl. simpl.
  destruct (String.eqb_spec (default first_engine) "true") as [Heq | Hne];
    [contradiction | reflexivity].
Qed.

Lemma js_container_default_engine_not_found_unless_first_witness :
  js_container.opt_all (ScenarioArgs.js_create None false) = false /\
  truthy (js_container.opt_engine (ScenarioArgs.js_create None false)) = false /\
  default Scenario.engine1 <> "true" /\
  default Scenario.engine2 = "true" /\
  run_main (fun _ => Scenario.world_ok)
    (js_container.main_workflow (ScenarioArgs.js_create None false) 10 Scenario.two_engines)
    (js_container.run_job (ScenarioArgs.js_create None false) Scenario.two_engines
       "./dxtools.conf")
    process_start
  = (Raised (DlpxException "ERROR: No default engine found. Exiting"), process_start).
Proof.
  assert (Hd : default Scenario.engine1 <> "true") by discriminate.
  split; [reflexivity |]. split; [reflexivity |]. split; [exact Hd |].
  split; [reflexivity |].
  exact (js_container_default_engine_not_found_unless_first (fun _ => Scenario.world_ok)
           (js_container.main_workflow (ScenarioArgs.js_create None false) 10
              Scenario.two_engines)
           (ScenarioArgs.js_create None false) "e1" Scenario.engine1
           [("e2", Scenario.engine2)] "./dxtools.conf" eq_refl eq_refl Hd).
Defined.

(** dx_replication.py has the same loop. *)
Example dx_replication_default_engine_not_found_unless_first :
  let arguments := ScenarioArgs.rep_execute None false in
  run_main (fun _ => Scenario.world_ok) (dx_replication.main_workflow arguments 10)
    (dx_replication.run_job arguments Scenario.two_engines "./dxtools.conf") process_start
  = (Raised (DlpxException "ERROR: No default engine found. Exiting"), process_start).
Proof. vm_compute. reflexivity. Qed.

(** When no engine is marked default, the run fails with that error before
    any worker starts. *)
Lemma js_container_no_default_engine (w : nat -> oracle)
    (worker : option Engine -> Py weff unit) (arguments : js_container.Arguments)
    (cfg : Config) (config_file_path : string) :
  js_container.opt_all arguments = false ->
  truthy (js_container.opt_engine arguments) = false ->
  NoDup cfg.*1 ->
  Forall (fun ke => default ke.2 <> "true") cfg ->
  run_main w worker (js_container.run_job arguments cfg config_file_path) process_start
  = (Raised (DlpxException "ERROR: No default engine found. Exiting"), process_start).
Proof.
  intros Hall Hengine Hnd Hno. destruct cfg as [| [k e] cfg].
  - unfold js_container.run_job. rewrite Hall, Hengine. reflexivity.
  - apply Forall_cons in Hno as [Hno _]. simpl in Hno.
    unfold js_container.run_job. rewrite Hall, Hengine. unfold dict_getitem. simpl.
    rewrite String.eqb_refl. simpl.
    destruct (String.eqb_spec (default e) "true") as [Heq | Hne];
      [contradiction | reflexivity].
Qed.

(** ** Programs and the operations they perform *)

Lemma all_ops_impl {E A} (P Q : forall R, E R -> Prop) (p : Py E A) :
  (forall R (o : E R), P R o -> Q R o) -> all_ops P p -> all_ops Q p.
Proof.
  intros HPQ. induction p as [a | e | | R o k IH]; simpl; auto.
  intros [Ho Hk]. split; auto.
Qed.

Lemma all_ops_bind {E A B} (P : forall R, E R -> Prop) (m : Py E A) (f : A -> Py E B) :
  all_ops P m -> (forall a, all_ops P (f a)) -> all_ops P (bind m f).
Proof.
  intros Hm Hf. induction m as [a | e | | R o k IH]; simpl in *; auto.
  destruct Hm as [Ho Hk]. split; auto.
Qed.

Lemma all_ops_try_except {E A} (P : forall R, E R -> Prop) (p : Py E A)
    (h : exn -> option (Py E A)) :
  all_ops P p -> (forall e q, h e = Some q -> all_ops P q) -> all_ops P (try_except p h).
Proof.
  intros Hp Hh. induction p as [a | e | | R o k IH]; simpl in *; auto.
  - destruct (h e) as [q |] eqn:Hq; simpl; eauto.
  - destruct Hp as [Ho Hk]. split; auto.
Qed.

Lemma all_ops_except {E A} (P : forall R, E R -> Prop) (cs : list exn_class)
    (body : exn -> Py E A) (e : exn) (q : Py E A) :
  (forall e, all_ops P (body e)) -> except cs body e = Some q -> all_ops P q.
Proof.
  intros Hbody. unfold except. destruct (existsb (isinstance e) cs); [| discriminate].
  intros [= <-]. apply Hbody.
Qed.

Lemma all_ops_for_loop {E X S} (P : forall R, E R -> Prop) (l : list X) (s : S)
    (body : X -> S -> Py E (ctl * S)) :
  (forall x s, all_ops P (body x s)) -> all_ops P (for_loop l s body).
Proof.
  intros Hbody. revert s. induction l as [| x l IH]; intros s; simpl; [exact I |].
  apply all_ops_bind; [apply Hbody |]. intros [[|] s']; simpl; auto.
Qed.

Lemma all_ops_for_each {E X} (P : forall R, E R -> Prop) (l : list X)
    (body : X -> Py E unit) :
  (forall x, all_ops P (body x)) -> all_ops P (for_each l body).
Proof.
  intros Hbody. induction l as [| x l IH]; simpl; [exact I |].
  apply all_ops_bind; auto.
Qed.

Lemma all_ops_call {E R} (P : forall R, E R -> Prop) (o : E R) :
  P R o -> all_ops P (call o).
Proof. intros Ho. simpl. auto. Qed.

Section worker_ops.
Variable P : forall R, weff R -> Prop.
Hypothesis P_submission : forall R (o : weff R), submission_op o -> P R o.

Lemma all_ops_remote_call {R} (c : rcall R) :
  submission_op (Remote c) -> all_ops P (remote_call c).
Proof.
  intros Hc. unfold remote_call. apply all_ops_bind.
  - apply all_ops_call. apply P_submission. exact Hc.
  - intros [v | e]; exact I.
Qed.

Lemma all_ops_server_session : all_ops P (call Server_session).
Proof. apply all_ops_call, P_submission. exact I. Qed.

Lemma all_ops_print (ch : channel) (fmt : string) (args : list string) :
  all_ops P (call (Print ch fmt args)).
Proof. apply all_ops_call, P_submission. exact I. Qed.

Lemma all_ops_invoke (s : option string) (c : obj_class) (a : api)
    (target : option string) (params : list string) :
  all_ops P (invoke s c a target params).
Proof.
  unfold invoke. apply all_ops_bind; [apply all_ops_remote_call; exact I | intros; exact I].
Qed.

Lemma all_ops_find_obj_by_name (engine : option string) (f_class : obj_class)
    (obj_name : string) (active_branch : GetReferences.pyarg) :
  all_ops P (GetReferences.find_obj_by_name engine f_class obj_name active_branch).
Proof.
  unfold GetReferences.find_obj_by_name. apply all_ops_bind.
  - apply all_ops_try_except; [apply all_ops_remote_call; exact I |].
    intros e q. apply all_ops_except. intros; exact I.
  - intros all_objs. destruct (GetReferences.find_obj_by_name_for _ _ _); [exact I |].
    destruct engine; exact I.
Qed.

Lemma all_ops_reference_of (r : GetReferences.found) :
  all_ops P (GetReferences.reference_of r).
Proof. destruct r; exact I. Qed.

Lemma all_ops_get_obj_reference (engine : option string) (obj_type : obj_class)
    (obj_name : string) (search_str : option string) (container : bool) :
  all_ops P (GetReferences.get_obj_reference engine obj_type obj_name search_str container).
Proof.
  unfold GetReferences.get_obj_reference.
  apply all_ops_bind; [apply all_ops_remote_call; exact I |]. intros results.
  apply all_ops_bind; [| intros [ret_lst |]; exact I].
  induction results as [| [n r ab c pu h lu os js at'] results IH]; simpl; [exact I |].
  destruct container; simpl.
  - destruct (String.eqb c obj_name); [exact I | exact IH].
  - destruct (String.eqb n obj_name); [| exact IH].
    destruct (truthy search_str); [| exact I].
    split; [apply P_submission; exact I | intros [v | e]; exact I].
Qed.

Lemma all_ops_find_obj_name (engine : option string) (f_class : obj_class)
    (obj_reference : string) :
  all_ops P (GetReferences.find_obj_name engine f_class obj_reference).
Proof.
  unfold GetReferences.find_obj_name. apply all_ops_try_except.
  - apply all_ops_bind; [apply all_ops_remote_call; exact I | intros; exact I].
  - intros e q. apply all_ops_except. intros; exact I.
Qed.

Lemma all_ops_convert_timestamp (engine : option string) (timestamp : string) :
  all_ops P (GetReferences.convert_timestamp engine timestamp).
Proof.
  unfold GetReferences.convert_timestamp.
  apply all_ops_bind; [apply all_ops_remote_call; exact I |]. intros engine_tz.
  apply all_ops_try_except.
  - apply all_ops_bind; [apply all_ops_remote_call; exact I | intros; exact I].
  - intros e q. apply all_ops_except. intros; exact I.
Qed.

Lemma all_ops_find_obj_specs (engine : option string) (obj_lst : list string) :
  all_ops P (GetReferences.find_obj_specs engine obj_lst).
Proof.
  unfold GetReferences.find_obj_specs. apply all_ops_for_loop. intros obj rep_lst.
  apply all_ops_bind; [apply all_ops_find_obj_by_name |]. intros r.
  apply all_ops_bind; [apply all_ops_reference_of | intros; exact I].
Qed.

End worker_ops.

Ltac submission_step P_sub :=
  match goal with
  | |- all_ops _ (Ret _) => exact I
  | |- all_ops _ (Raise _) => exact I
  | |- all_ops _ (sys_exit _) => exact I
  | |- all_ops _ (bind _ _) => apply all_ops_bind
  | |- all_ops _ (try_except _ _) => apply all_ops_try_except
  | |- all_ops _ (for_loop _ _ _) => apply all_ops_for_loop
  | |- all_ops _ (for_each _ _) => apply all_ops_for_each
  | |- all_ops _ (remote_call _) => apply all_ops_remote_call; [exact P_sub | exact I]
  | |- all_ops _ (invoke _ _ _ _ _) => apply all_ops_invoke; exact P_sub
  | |- all_ops _ (call Server_session) => apply all_ops_server_session; exact P_sub
  | |- all_ops _ (print _ _) => apply all_ops_print; exact P_sub
  | |- all_ops _ (print_info _ _) => apply all_ops_print; exact P_sub
  | |- all_ops _ (print_debug _ _) => apply all_ops_print; exact P_sub
  | |- all_ops _ (print_exception _ _) => apply all_ops_print; exact P_sub
  | |- all_ops _ (GetReferences.find_obj_by_name _ _ _ _) =>
      apply all_ops_find_obj_by_name; exact P_sub
  | |- all_ops _ (GetReferences.reference_of _) => apply all_ops_reference_of
  | |- all_ops _ (GetReferences.get_obj_reference _ _ _ _ _) =>
      apply all_ops_get_obj_reference; exact P_sub
  | |- all_ops _ (GetReferences.find_obj_name _ _ _) =>
      apply all_ops_find_obj_name; exact P_sub
  | |- all_ops _ (GetReferences.convert_timestamp _ _) =>
      apply all_ops_convert_timestamp; exact P_sub
  | |- all_ops _ (GetReferences.find_obj_specs _ _) =>
      apply all_ops_find_obj_specs; exact P_sub
  | |- forall e q, except _ _ e = Some q -> _ => intros ? ?; apply all_ops_except
  | |- forall _, _ => intros
  | |- all_ops _ (if ?b then _ else _) => destruct b
  | |- all_ops _ (match ?x with _ => _ end) => destruct x
  end.

Ltac submission P_sub := repeat (submission_step P_sub).

Section thing_to_do_ops.
Variable P : forall R, weff R -> Prop.
Hypothesis P_submission : forall R (o : weff R), submission_op o -> P R o.

(** The operations js_container.py can be asked for only read the session,
    call the engine and print. *)
Lemma js_container_thing_to_do_ops (arguments : js_container.Arguments) :
  all_ops P (js_container.thing_to_do arguments).
Proof.
  unfold js_container.thing_to_do,
    js_container.create_container, js_container.build_ds_params,
    js_container.delete_container, js_container.list_containers,
    js_container.remove_owner, js_container.restore_container,
    js_container.add_owner, js_container.refresh_container,
    js_container.list_hiearchy.
  submission P_submission.
Qed.

(** So does the one of dx_jobs.py. *)
Lemma dx_jobs_thing_to_do_ops (arguments : dx_jobs.Arguments) :
  all_ops P (dx_jobs.thing_to_do arguments).
Proof.
  unfold dx_jobs.thing_to_do, dx_jobs.list_jobs, dx_jobs.list_job, dx_jobs.print_job.
  submission P_submission.
Qed.

End thing_to_do_ops.

(** ** Traces *)

Lemma observations_app (tr tr' : list event) :
  observations (tr ++ tr') = observations tr ++ observations tr'.
Proof. apply omap_app. Qed.

Lemma sleeps_app (tr tr' : list event) : sleeps (tr ++ tr') = sleeps tr ++ sleeps tr'.
Proof. apply omap_app. Qed.

Lemma perform_trace (w : oracle) {R} (o : weff R) (st : tstate) :
  trace (perform w o st).2 = trace st ++ [Ev o (perform w o st).1].
Proof.
  destruct o; simpl; try reflexivity.
  destruct (w (calls st) unit (Connect ip user pw)); reflexivity.
Qed.

(** A run only adds to the trace. *)
Lemma exec_trace {A} (w : oracle) (p : Py weff A) (st : tstate) :
  exists evs, trace (exec w p st).2 = trace st ++ evs.
Proof.
  revert st. induction p as [a | e | | R o k IH]; intros st; simpl;
    try (exists []; rewrite app_nil_r; reflexivity).
  destruct (perform w o st) as [r st1] eqn:Hp.
  destruct (IH r st1) as [evs Hevs]. exists (Ev o r :: evs). rewrite Hevs.
  pose proof (perform_trace w o st) as Ht. rewrite Hp in Ht. simpl in Ht.
  rewrite Ht, <- app_assoc. reflexivity.
Qed.

Lemma new_events_app (st st' : tstate) (evs : list event) :
  trace st' = trace st ++ evs -> new_events st st' = evs.
Proof. intros H. unfold new_events. rewrite H. apply drop_app_length. Qed.

(** The submitted action leaves the tracker alone. *)
Lemma exec_submission {A} (w : oracle) (p : Py weff A) (st : tstate) :
  all_ops (@submission_op) p ->
  session (exec w p st).2 = session st /\
  observations (trace (exec w p st).2) = observations (trace st) /\
  sleeps (trace (exec w p st).2) = sleeps (trace st).
Proof.
  revert st. induction p as [a | e | | R o k IH]; intros st Hp; simpl; auto.
  destruct Hp as [Ho Hk].
  destruct (perform w o st) as [r st1] eqn:Hperf.
  destruct (IH r st1 (Hk r)) as (Hs & Hobs & Hsl). rewrite Hs, Hobs, Hsl.
  destruct o; simpl in Ho; try contradiction; simpl in Hperf.
  - injection Hperf as <- <-. simpl.
    rewrite observations_app, sleeps_app. simpl. rewrite !app_nil_r. auto.
  - injection Hperf as <- <-. simpl.
    rewrite observations_app, sleeps_app.
    destruct c; try contradiction; simpl; rewrite !app_nil_r; auto.
  - injection Hperf as <- <-. simpl.
    rewrite observations_app, sleeps_app. simpl. rewrite !app_nil_r. auto.
Qed.

(** ** One iteration of the polling loop *)

Ltac poll_job_step := cbn -[pretty str_in str_in_str size].

Ltac poll_job_done :=
  repeat match goal with
         | |- _ /\ _ => split
         | |- (exists i', Returned _ = Returned (Next, i')) \/ _ =>
             left; eexists; reflexivity
         | |- _ \/ Raised ?e = Raised ?e => right; reflexivity
         | |- _ = _ => reflexivity
         end.

Ltac poll_job_tail tail :=
  exists tail; split;
  [ repeat constructor
  | rewrite ?observations_app; simpl; rewrite <- ?app_assoc; reflexivity ].

(** The end of an iteration that has the [sleep] inside the [for]. *)
Ltac poll_job_sleep poll :=
  match goal with
  | |- context [size ?m] => destruct (size m)
  end;
  poll_job_step;
  [ poll_job_done; poll_job_tail (@nil obs)
  | unfold float_of; destruct (float_literal poll); poll_job_step; poll_job_done;
    [ poll_job_tail [Sleeping poll] | poll_job_tail (@nil obs) ] ].

Ltac poll_job_obs :=
  rewrite ?observations_app; simpl; rewrite <- ?app_assoc; reflexivity.

Lemma js_container_poll_job_spec (w : oracle) (arguments : js_container.Arguments)
    (engine : Engine) (j : string) (i : nat) (st : tstate) :
  polls_one_job w j st
    (exec w (js_container.poll_job arguments engine j i) st).1
    (exec w (js_container.poll_job arguments engine j i) st).2.
Proof.
  unfold polls_one_job, js_container.poll_job. poll_job_step.
  destruct (jobs (session st) !! j) as [ref |] eqn:Hj; poll_job_step.
  - destruct (w (calls st) Job (Job_get (server_session (session st)) ref)) as [jb | e];
      poll_job_step.
    + unfold is_terminal. destruct (str_in (job_state jb) terminal_states); poll_job_step.
      * rewrite Hj. poll_job_step. poll_job_sleep (js_container.opt_poll arguments).
      * destruct (str_in_str (job_state jb) "RUNNING"); poll_job_step;
          poll_job_sleep (js_container.opt_poll arguments).
    + poll_job_done. poll_job_obs.
  - poll_job_done. poll_job_obs.
Qed.

Lemma dx_jobs_poll_job_spec (w : oracle)
    (engine : Engine) (j : string) (i : nat) (st : tstate) :
  polls_one_job w j st
    (exec w (dx_jobs.poll_job engine j i) st).1
    (exec w (dx_jobs.poll_job engine j i) st).2.
Proof.
  unfold polls_one_job, dx_jobs.poll_job. poll_job_step.
  destruct (jobs (session st) !! j) as [ref |] eqn:Hj; poll_job_step.
  - destruct (w (calls st) Job (Job_get (server_session (session st)) ref)) as [jb | e];
      poll_job_step.
    + unfold is_terminal. destruct (str_in (job_state jb) terminal_states); poll_job_step.
      * rewrite Hj. poll_job_step. poll_job_done. poll_job_tail (@nil obs).
      * destruct (str_in_str (job_state jb) "RUNNING"); poll_job_step; poll_job_done;
          poll_job_tail (@nil obs).
    + poll_job_done. poll_job_obs.
  - poll_job_done. poll_job_obs.
Qed.

Lemma dx_environment_poll_job_spec (w : oracle)
    (engine : Engine) (j : string) (i : nat) (st : tstate) :
  polls_one_job w j st
    (exec w (dx_environment.poll_job engine j i) st).1
    (exec w (dx_environment.poll_job engine j i) st).2.
Proof.
  unfold polls_one_job, dx_environment.poll_job. poll_job_step.
  destruct (jobs (session st) !! j) as [ref |] eqn:Hj; poll_job_step.
  - destruct (w (calls st) Job (Job_get (server_session (session st)) ref)) as [jb | e];
      poll_job_step.
    + unfold is_terminal. destruct (str_in (job_state jb) terminal_states); poll_job_step.
      * rewrite Hj. poll_job_step. poll_job_done. poll_job_tail (@nil obs).
      * poll_job_done. poll_job_tail (@nil obs).
    + poll_job_done. poll_job_obs.
  - poll_job_done. poll_job_obs.
Qed.

Lemma dx_replication_poll_job_spec (w : oracle) (arguments : dx_replication.Arguments)
    (engine : Engine) (j : string) (i : nat) (st : tstate) :
  polls_one_job w j st
    (exec w (dx_replication.poll_job arguments engine j i) st).1
    (exec w (dx_replication.poll_job arguments engine j i) st).2.
Proof.
  unfold polls_one_job, dx_replication.poll_job. poll_job_step.
  destruct (jobs (session st) !! j) as [ref |] eqn:Hj; poll_job_step.
  - destruct (w (calls st) Job (Job_get (server_session (session st)) ref)) as [jb | e];
      poll_job_step.
    + unfold is_terminal. destruct (str_in (job_state jb) terminal_states); poll_job_step.
      * rewrite Hj. poll_job_step. poll_job_sleep (dx_replication.opt_poll arguments).
      * destruct (str_in_str (job_state jb) "RUNNING"); poll_job_step;
          poll_job_sleep (dx_replication.opt_poll arguments).
    + poll_job_done. poll_job_obs.
  - poll_job_done. poll_job_obs.
Qed.

(** ** Retired keys *)

Lemma retired_never_polled_app (os os' : list obs) :
  retired_never_polled (os ++ os') <->
  retired_never_polled os /\ retired_never_polled os' /\
  (forall k found, Retire k ∈ os -> Lookup k found ∉ os').
Proof.
  unfold retired_never_polled. split.
  - intros H. split; [| split].
    + intros k pre post found -> Hret Hlook.
      apply (H k pre (post ++ os') found); [symmetry; apply app_assoc | exact Hret |].
      apply elem_of_app. auto.
    + intros k pre post found -> Hret Hlook.
      apply (H k (os ++ pre) post found); [apply app_assoc | | exact Hlook].
      apply elem_of_app. auto.
    + intros k found Hret Hlook. apply (H k os os' found); auto.
  - intros (Hos & Hos' & Hcross) k pre post found Heq Hret Hlook.
    apply List.app_eq_app in Heq as [l [[-> ->] | [-> ->]]].
    + apply elem_of_app in Hlook as [Hlook | Hlook].
      * apply (Hos k pre l found); auto.
      * apply (Hcross k found); [apply elem_of_app; auto | exact Hlook].
    + apply elem_of_app in Hret as [Hret | Hret].
      * apply (Hcross k found Hret). apply elem_of_app. auto.
      * apply (Hos' k l post found); auto.
Qed.

Lemma retired_never_polled_nil : retired_never_polled [].
Proof.
  intros k pre post found Heq Hret. symmetry in Heq.
  apply app_eq_nil in Heq as [-> _]. apply elem_of_nil in Hret. contradiction.
Qed.

Lemma retired_never_polled_about_no_key (os : list obs) :
  Forall about_no_key os -> retired_never_polled os.
Proof.
  intros Hos k pre post found -> Hret _.
  rewrite Forall_forall in Hos. apply (Hos (Retire k)). apply elem_of_app. auto.
Qed.

Lemma retired_never_polled_no_retire (os : list obs) :
  (forall k, Retire k ∉ os) -> retired_never_polled os.
Proof.
  intros Hos k pre post found -> Hret _. apply (Hos k). apply elem_of_app. auto.
Qed.

Lemma retired_never_polled_no_lookup (os : list obs) :
  (forall k found, Lookup k found ∉ os) -> retired_never_polled os.
Proof.
  intros Hos k pre post found -> _ Hlook. apply (Hos k found). apply elem_of_app. auto.
Qed.

(** The observations of one iteration of the polling loop. *)
Lemma elem_of_poll (x : obs) (j : string) (found : option job_ref) (ref : job_ref)
    (a : res string) (retire : bool) (tail : list obs) :
  Forall is_sleeping tail ->
  x ∈ [Lookup j found; Fetch ref a] ++ (if retire then [Retire j] else []) ++ tail ->
  x = Lookup j found \/ x = Fetch ref a \/ (retire = true /\ x = Retire j) \/ is_sleeping x.
Proof.
  intros Htail Hx. rewrite Forall_forall in Htail.
  apply elem_of_app in Hx as [Hx | Hx].
  - apply elem_of_cons in Hx as [-> | Hx]; [auto |].
    apply elem_of_cons in Hx as [-> | Hx]; [auto |]. apply elem_of_nil in Hx. contradiction.
  - apply elem_of_app in Hx as [Hx | Hx]; [| auto].
    destruct retire; [| apply elem_of_nil in Hx; contradiction].
    apply elem_of_cons in Hx as [-> | Hx]; [auto |]. apply elem_of_nil in Hx. contradiction.
Qed.

Lemma retired_never_polled_poll (j : string) (found : option job_ref) (ref : job_ref)
    (a : res string) (retire : bool) (tail : list obs) :
  Forall is_sleeping tail ->
  retired_never_polled
    ([Lookup j found; Fetch ref a] ++ (if retire then [Retire j] else []) ++ tail).
Proof.
  intros Htail. rewrite Forall_forall in Htail. apply retired_never_polled_app.
  split; [| split].
  - apply retired_never_polled_no_retire. intros k Hk.
    apply elem_of_cons in Hk as [[=] | Hk]. apply elem_of_cons in Hk as [[=] | Hk].
    apply elem_of_nil in Hk. contradiction.
  - apply retired_never_polled_no_lookup. intros k f Hk.
    apply elem_of_app in Hk as [Hk | Hk].
    + destruct retire; [| apply elem_of_nil in Hk; contradiction].
      apply elem_of_cons in Hk as [[=] | Hk]. apply elem_of_nil in Hk. contradiction.
    + apply (Htail _ Hk).
  - intros k f Hk. exfalso.
    apply elem_of_cons in Hk as [[=] | Hk]. apply elem_of_cons in Hk as [[=] | Hk].
    apply elem_of_nil in Hk. contradiction.
Qed.

(** A run that keeps the tracker consistent: what it adds keeps retired
    keys out, asks only for keys that are tracked, and removes from the
    tracker what it retires, inserting nothing. *)
Lemma tracker_consistent_step (st st' : tstate) (os' : list obs) :
  tracker_consistent st ->
  observations (trace st') = observations (trace st) ++ os' ->
  retired_never_polled os' ->
  (forall k found, Lookup k found ∈ os' -> jobs (session st) !! k <> None) ->
  (forall k, Retire k ∈ os' -> jobs (session st') !! k = None) ->
  (forall k, jobs (session st) !! k = None -> jobs (session st') !! k = None) ->
  tracker_consistent st'.
Proof.
  intros [Hrnp Hret] Hobs Hos' Hlook Hretire Hkeep. split.
  - rewrite Hobs. apply retired_never_polled_app. split; [exact Hrnp |].
    split; [exact Hos' |]. intros k found Hk Hk'. apply (Hlook k found Hk'). auto.
  - intros k. rewrite Hobs. intros Hk. apply elem_of_app in Hk as [Hk | Hk]; auto.
Qed.

Lemma polls_one_job_consistent (w : oracle) (j : string) (st : tstate)
    (r : result (ctl * nat)) (st' : tstate) :
  tracker_consistent st ->
  is_Some (jobs (session st) !! j) ->
  polls_one_job w j st r st' ->
  tracker_consistent st' /\
  (forall k, k <> j -> jobs (session st') !! k = jobs (session st) !! k) /\
  (forall k, jobs (session st) !! k = None -> jobs (session st') !! k = None).
Proof.
  intros Hcons [ref Hj] [Hsess Hspec]. rewrite Hj in Hspec.
  assert (Hshape : exists (a : res string) (retire : bool) (tail : list obs),
             Forall is_sleeping tail /\
             observations (trace st') =
               observations (trace st) ++
               [Lookup j (Some ref); Fetch ref a] ++
               (if retire then [Retire j] else []) ++ tail /\
             jobs (session st') =
               if retire then delete j (jobs (session st)) else jobs (session st)).
  { destruct (w (calls st) Job (Job_get (server_session (session st)) ref)) as [jb | e].
    - destruct Hspec as (_ & Hjobs & tail & Htail & Hobs).
      exists (Ok (job_state jb)), (is_terminal (job_state jb)), tail. auto.
    - destruct Hspec as (_ & Hjobs & Hobs). exists (Err e), false, []. auto. }
  destruct Hshape as (a & retire & tail & Htail & Hobs & Hjobs).
  assert (Hkeep : forall k, jobs (session st) !! k = None -> jobs (session st') !! k = None).
  { intros k Hk. rewrite Hjobs. destruct retire; [| exact Hk].
    apply lookup_delete_None. auto. }
  split; [| split; [| exact Hkeep]].
  - apply (tracker_consistent_step st st' _ Hcons Hobs).
    + apply retired_never_polled_poll. exact Htail.
    + intros k found Hk.
      apply (elem_of_poll _ _ _ _ _ _ _ Htail) in Hk as [[= -> _] | [[=] | [[_ [=]] | []]]].
      rewrite Hj. discriminate.
    + intros k Hk.
      apply (elem_of_poll _ _ _ _ _ _ _ Htail) in Hk as [[=] | [[=] | [[-> [= ->]] | []]]].
      rewrite Hjobs. apply lookup_delete_eq.
    + exact Hkeep.
  - intros k Hne. rewrite Hjobs. destruct retire; [| reflexivity].
    apply lookup_delete_ne. auto.
Qed.

(** ** Invariants of a run *)

Lemma invariant_bind (w : oracle) (I : tstate -> Prop) {A B} (m : Py weff A)
    (f : A -> Py weff B) :
  invariant w I m -> (forall a, invariant w I (f a)) -> invariant w I (bind m f).
Proof.
  intros Hm Hf st HI. specialize (Hm st HI). rewrite exec_bind.
  destruct (exec w m st) as [[a | e |] st1]; simpl in *; auto. apply Hf. exact Hm.
Qed.

Lemma invariant_try_except (w : oracle) (I : tstate -> Prop) {A} (p : Py weff A)
    (h : exn -> option (Py weff A)) :
  invariant w I p -> (forall e q, h e = Some q -> invariant w I q) ->
  invariant w I (try_except p h).
Proof.
  intros Hp Hh st HI. specialize (Hp st HI). rewrite exec_try_except.
  destruct (exec w p st) as [[a | e |] st1]; simpl in *; auto.
  destruct (h e) as [q |] eqn:Hq; simpl; auto. apply (Hh e q Hq). exact Hp.
Qed.

Lemma invariant_except (w : oracle) (I : tstate -> Prop) {A} (cs : list exn_class)
    (body : exn -> Py weff A) (e : exn) (q : Py weff A) :
  (forall e, invariant w I (body e)) -> except cs body e = Some q -> invariant w I q.
Proof.
  intros Hbody. unfold except. destruct (existsb (isinstance e) cs); [| discriminate].
  intros [= <-]. apply Hbody.
Qed.

Lemma invariant_ret (w : oracle) (I : tstate -> Prop) {A} (a : A) :
  invariant w I (Ret a : Py weff A).
Proof. intros st HI. exact HI. Qed.

Lemma invariant_raise (w : oracle) (I : tstate -> Prop) {A} (e : exn) :
  invariant w I (Raise e : Py weff A).
Proof. intros st HI. exact HI. Qed.

Lemma invariant_out_of_fuel (w : oracle) (I : tstate -> Prop) {A} :
  invariant w I (OutOfFuel : Py weff A).
Proof. intros st HI. exact HI. Qed.

(** Operations that are no access to an item of the tracker leave the
    tracker as it is and add nothing about a key to the observations. *)
Lemma exec_tracker_neutral {A} (w : oracle) (p : Py weff A) (st : tstate) :
  all_ops (@tracker_neutral) p ->
  jobs (session (exec w p st).2) = jobs (session st) /\
  exists os',
    observations (trace (exec w p st).2) = observations (trace st) ++ os' /\
    Forall about_no_key os'.
Proof.
  revert st. induction p as [a | e | | R o k IH]; intros st Hp; simpl;
    try (split; [reflexivity | exists []; rewrite app_nil_r; auto]).
  destruct Hp as [Ho Hk].
  destruct (perform w o st) as [r st1] eqn:Hperf.
  destruct (IH r st1 (Hk r)) as (Hj & os' & Hobs & Hos'). rewrite Hj, Hobs.
  assert (Hstep : jobs (session st1) = jobs (session st) /\
                  exists o', observations (trace st1) = observations (trace st) ++ o' /\
                             Forall about_no_key o').
  { destruct o; simpl in Ho; try contradiction; simpl in Hperf.
    - destruct (w (calls st) unit (Connect ip user pw)); injection Hperf as <- <-;
        simpl; (split; [reflexivity |]); exists []; rewrite observations_app; auto.
    - injection Hperf as <- <-. simpl. split; [reflexivity |].
      exists []. rewrite observations_app. auto.
    - injection Hperf as <- <-. simpl. split; [reflexivity |].
      exists []. rewrite observations_app. auto.
    - injection Hperf as <- <-. simpl. split; [reflexivity |].
      exists []. rewrite observations_app. auto.
    - injection Hperf as <- <-. simpl. split; [reflexivity |].
      rewrite observations_app. eexists. split; [reflexivity |].
      destruct c; simpl; repeat constructor.
    - injection Hperf as <- <-. simpl. split; [reflexivity |].
      rewrite observations_app. eexists. split; [reflexivity |]. repeat constructor.
    - injection Hperf as <- <-. simpl. split; [reflexivity |].
      exists []. rewrite observations_app. auto. }
  destruct Hstep as (Hj1 & o' & Hobs1 & Ho').
  split; [exact Hj1 |]. exists (o' ++ os'). rewrite Hobs1, <- app_assoc.
  split; [reflexivity |]. apply Forall_app. auto.
Qed.

Lemma invariant_tracker_neutral {A} (w : oracle) (p : Py weff A) :
  all_ops (@tracker_neutral) p -> invariant w tracker_consistent p.
Proof.
  intros Hp st Hcons. destruct (exec_tracker_neutral w p st Hp) as (Hj & os' & Hobs & Hos').
  rewrite Forall_forall in Hos'.
  apply (tracker_consistent_step st _ os' Hcons Hobs).
  - apply retired_never_polled_no_retire. intros k Hk. apply (Hos' _ Hk).
  - intros k found Hk. exfalso. apply (Hos' _ Hk).
  - intros k Hk. exfalso. apply (Hos' _ Hk).
  - intros k Hk. rewrite Hj. exact Hk.
Qed.

Lemma exec_for_loop_cons (w : oracle) {X S} (x : X) (l : list X) (s : S)
    (body : X -> S -> Py weff (ctl * S)) (st : tstate) :
  exec w (for_loop (x :: l) s body) st =
  match exec w (body x s) st with
  | (Returned (Next, s'), st') => exec w (for_loop l s' body) st'
  | (Returned (Break, s'), st') => (Returned s', st')
  | (Raised e, st') => (Raised e, st')
  | (Exhausted, st') => (Exhausted, st')
  end.
Proof.
  rewrite for_loop_cons, exec_bind.
  destruct (exec w (body x s) st) as [[[[|] s'] | e |] st']; reflexivity.
Qed.

Lemma exec_bind_returned {A B} (w : oracle) (m : Py weff A) (f : A -> Py weff B)
    (st st' : tstate) (a : A) :
  exec w m st = (Returned a, st') -> exec w (bind m f) st = exec w (f a) st'.
Proof. intros H. rewrite exec_bind, H. reflexivity. Qed.

Lemma exec_jobs_keys (w : oracle) (st : tstate) :
  exec w (call Jobs_keys) st =
  (Returned (map_to_list (jobs (session st))).*1,
   {| session := session st; calls := calls st;
      trace := trace st ++ [Ev Jobs_keys (map_to_list (jobs (session st))).*1] |}).
Proof. reflexivity. Qed.

Lemma exec_jobs_len (w : oracle) (st : tstate) :
  exec w (call Jobs_len) st =
  (Returned (size (jobs (session st))),
   {| session := session st; calls := calls st;
      trace := trace st ++ [Ev Jobs_len (size (jobs (session st)))] |}).
Proof. reflexivity. Qed.

Section polling_loop.
Variable w : oracle.
Variable body : string -> nat -> Py weff (ctl * nat).
Hypothesis body_spec :
  forall j i st, polls_one_job w j st (exec w (body j i) st).1 (exec w (body j i) st).2.

(** The [for] loop over a copy of the keys keeps the tracker consistent:
    every key of the copy is still tracked when its turn comes. *)
Lemma for_loop_tracker_consistent (keys : list string) (i : nat) (st : tstate) :
  tracker_consistent st ->
  NoDup keys ->
  (forall k, k ∈ keys -> is_Some (jobs (session st) !! k)) ->
  tracker_consistent (exec w (for_loop keys i body) st).2.
Proof.
  revert i st. induction keys as [| j keys IH]; intros i st Hcons Hnd Hkeys; [exact Hcons |].
  apply NoDup_cons in Hnd as [Hj Hnd].
  destruct (polls_one_job_consistent w j st _ _ Hcons
              (Hkeys j (list_elem_of_here _ _)) (body_spec j i st))
    as (Hcons1 & Hother & _).
  rewrite exec_for_loop_cons.
  destruct (exec w (body j i) st) as [[[[|] i'] | e |] st1]; simpl in *; auto.
  apply IH; auto. intros k Hk. rewrite Hother.
  - apply Hkeys. apply list_elem_of_further. exact Hk.
  - intros ->. contradiction.
Qed.

(** A polling cycle: [keys()], the [for] loop, and what follows it. *)
Lemma poll_cycle_tracker_consistent {A} (rest : nat -> Py weff A) :
  (forall i, invariant w tracker_consistent (rest i)) ->
  invariant w tracker_consistent
    (keys <- call Jobs_keys ;; i <- for_loop keys 0 body ;; rest i).
Proof.
  intros Hrest st Hcons. unfold invariant, triple in Hrest.
  erewrite exec_bind_returned; [| apply exec_jobs_keys].
  set (st1 := {| session := session st; calls := calls st;
                 trace := trace st ++ [Ev Jobs_keys (map_to_list (jobs (session st))).*1] |}).
  assert (Hcons1 : tracker_consistent st1).
  { apply (invariant_tracker_neutral w (call Jobs_keys)); [split; [exact I | intros; exact I] |].
    exact Hcons. }
  assert (Hloop :
    tracker_consistent
      (exec w (for_loop (map_to_list (jobs (session st))).*1 0 body) st1).2).
  { apply for_loop_tracker_consistent; [exact Hcons1 | apply NoDup_fst_map_to_list |].
    intros k Hk. apply list_elem_of_fmap in Hk as [[k' v] [-> Hk]].
    apply elem_of_map_to_list in Hk. simpl. rewrite Hk. eauto. }
  rewrite exec_bind.
  destruct (exec w (for_loop (map_to_list (jobs (session st))).*1 0 body) st1)
    as [[i | e |] st2]; simpl in Hloop; auto.
Qed.

End polling_loop.

(** ** The worker loops keep retired keys out *)

Lemma submission_op_neutral {R} (o : weff R) : submission_op o -> tracker_neutral o.
Proof. destruct o; simpl; auto. Qed.

Ltac ops_brute :=
  repeat first
    [ exact I
    | match goal with
      | |- _ /\ _ => split
      | |- forall _, _ => intros
      end
    | progress simpl
    | progress unfold float_of
    | match goal with
      | |- all_ops _ ?p =>
          match p with
          | context [match ?x with _ => _ end] =>
              lazymatch x with
              | context [match _ with _ => _ end] => fail
              | _ => destruct x
              end
          end
      end ].

(** The same, for the body of the polling loop. *)
Ltac ops_poll :=
  repeat first
    [ exact I
    | match goal with
      | |- _ /\ _ => split
      | |- forall _, _ => intros
      end
    | progress cbn -[pretty str_in str_in_str float_literal]
    | progress unfold float_of
    | match goal with
      | |- all_ops _ ?p =>
          match p with
          | context [match ?x with _ => _ end] =>
              lazymatch x with
              | context [match _ with _ => _ end] => fail
              | _ => destruct x
              end
          end
      end ].

Lemma dx_environment_poll_job_not_sleep (engine : Engine) (j : string) (i : nat) :
  all_ops (@not_sleep) (dx_environment.poll_job engine j i).
Proof. unfold dx_environment.poll_job. ops_poll. Qed.

Lemma dx_jobs_poll_job_not_sleep (engine : Engine) (j : string) (i : nat) :
  all_ops (@not_sleep) (dx_jobs.poll_job engine j i).
Proof. unfold dx_jobs.poll_job. ops_poll. Qed.

Lemma js_container_while_loop_consistent (w : oracle) (arguments : js_container.Arguments)
    (fuel : nat) (engine : Engine) (thingstodo : list string) :
  invariant w tracker_consistent (js_container.while_loop arguments fuel engine thingstodo).
Proof.
  revert thingstodo. induction fuel as [| fuel IH]; intros thingstodo;
    cbn [js_container.while_loop];
    (apply invariant_bind; [apply invariant_tracker_neutral; ops_brute |]); intros n;
    (destruct ((0 <? n)%nat || (0 <? length thingstodo)%nat); [| apply invariant_ret]).
  - apply invariant_out_of_fuel.
  - apply invariant_bind.
    + destruct (0 <? length thingstodo)%nat; [| apply invariant_ret].
      apply invariant_bind; [| intros; apply invariant_ret].
      apply invariant_tracker_neutral. apply js_container_thing_to_do_ops.
      intros R o. apply submission_op_neutral.
    + intros thingstodo'. apply invariant_bind; [| intros; apply IH].
      apply poll_cycle_tracker_consistent.
      * intros j i st. apply js_container_poll_job_spec.
      * intros i. apply invariant_ret.
Qed.

Lemma js_container_main_workflow_consistent (w : oracle)
    (arguments : js_container.Arguments) (fuel : nat) (cfg : Config)
    (engine : option Engine) :
  invariant w tracker_consistent (js_container.main_workflow arguments fuel cfg engine).
Proof.
  unfold js_container.main_workflow. apply invariant_bind.
  - apply invariant_tracker_neutral.
    unfold engine_item, serversess, dict_getitem, except. ops_brute.
  - intros _. apply invariant_try_except.
    + apply invariant_bind; [destruct engine; [apply invariant_ret | apply invariant_raise] |].
      intros e. apply js_container_while_loop_consistent.
    + intros e q. apply invariant_except. intros e'. apply invariant_tracker_neutral.
      unfold engine_item. ops_brute.
Qed.

Lemma dx_jobs_while_loop_consistent (w : oracle) (arguments : dx_jobs.Arguments)
    (fuel : nat) (engine : Engine) (thingstodo : list string) :
  invariant w tracker_consistent (dx_jobs.while_loop arguments fuel engine thingstodo).
Proof.
  revert thingstodo. induction fuel as [| fuel IH]; intros thingstodo;
    cbn [dx_jobs.while_loop];
    (apply invariant_bind; [apply invariant_tracker_neutral; ops_brute |]); intros n;
    (destruct ((0 <? n)%nat || (0 <? length thingstodo)%nat); [| apply invariant_ret]).
  - apply invariant_out_of_fuel.
  - apply invariant_bind.
    + destruct (0 <? length thingstodo)%nat; [| apply invariant_ret].
      apply invariant_bind; [| intros; apply invariant_ret].
      apply invariant_tracker_neutral. apply dx_jobs_thing_to_do_ops.
      intros R o. apply submission_op_neutral.
    + intros thingstodo'. apply invariant_bind; [| intros; apply IH].
      apply poll_cycle_tracker_consistent.
      * intros j i st. apply dx_jobs_poll_job_spec.
      * intros i. apply invariant_tracker_neutral. ops_brute.
Qed.

Lemma dx_jobs_main_workflow_consistent (w : oracle) (arguments : dx_jobs.Arguments)
    (fuel : nat) (engine : option Engine) :
  invariant w tracker_consistent (dx_jobs.main_workflow arguments fuel engine).
Proof.
  unfold dx_jobs.main_workflow. apply invariant_bind.
  - apply invariant_tracker_neutral.
    unfold engine_item, serversess, except. ops_brute.
  - intros _.
    apply invariant_bind; [destruct engine; [apply invariant_ret | apply invariant_raise] |].
    intros e. apply dx_jobs_while_loop_consistent.
Qed.

Lemma tracker_consistent_start (s : GetSession) (n : nat) :
  tracker_consistent {| session := s; calls := n; trace := [] |}.
Proof.
  split; [apply retired_never_polled_nil |].
  intros k Hk. apply elem_of_nil in Hk. contradiction.
Qed.

(** ** A failed status fetch *)

Lemma no_failed_fetch_app (os os' : list obs) :
  no_failed_fetch (os ++ os') <-> no_failed_fetch os /\ no_failed_fetch os'.
Proof.
  unfold no_failed_fetch. split.
  - intros H. split; intros ref e Hin; apply (H ref e); apply elem_of_app; auto.
  - intros [H H'] ref e Hin. apply elem_of_app in Hin as [Hin | Hin]; [eapply H | eapply H']; eauto.
Qed.

Lemma fetch_failure_is_fatal_bind (w : oracle) {A B} (m : Py weff A) (f : A -> Py weff B) :
  fetch_failure_is_fatal w m -> (forall a, fetch_failure_is_fatal w (f a)) ->
  fetch_failure_is_fatal w (bind m f).
Proof.
  intros Hm Hf st Hst. specialize (Hm st Hst). rewrite exec_bind.
  destruct (exec w m st) as [[a | e |] st1]; simpl in *.
  - destruct Hm as [Hm | (j & ref & e & [=] & _)]. apply Hf. exact Hm.
  - destruct Hm as [Hm | (j & ref & e' & [= <-] & Hend)]; [left; exact Hm |].
    right. exists j, ref, e. auto.
  - destruct Hm as [Hm | (j & ref & e & [=] & _)]. left. exact Hm.
Qed.

Lemma fetch_failure_is_fatal_for_loop (w : oracle) {X S} (l : list X) (s : S)
    (body : X -> S -> Py weff (ctl * S)) :
  (forall x s, fetch_failure_is_fatal w (body x s)) ->
  fetch_failure_is_fatal w (for_loop l s body).
Proof.
  intros Hbody. revert s. induction l as [| x l IH]; intros s.
  - intros st Hst. left. exact Hst.
  - rewrite for_loop_cons. apply fetch_failure_is_fatal_bind; [apply Hbody |].
    intros [[|] s']; [apply IH |]. intros st Hst. left. exact Hst.
Qed.

(** A program that never fetches a job status has no failed fetch. *)
Lemma exec_not_job_get {A} (w : oracle) (p : Py weff A) (st : tstate) :
  all_ops (@not_job_get) p ->
  no_failed_fetch (observations (trace st)) ->
  no_failed_fetch (observations (trace (exec w p st).2)).
Proof.
  revert st. induction p as [a | e | | R o k IH]; intros st Hp Hst; simpl; auto.
  destruct Hp as [Ho Hk].
  destruct (perform w o st) as [r st1] eqn:Hperf. apply (IH r st1 (Hk r)).
  pose proof (perform_trace w o st) as Ht. rewrite Hperf in Ht. simpl in Ht.
  rewrite Ht, observations_app. apply no_failed_fetch_app. split; [exact Hst |].
  intros ref e Hin. destruct o; simpl in Hin;
    try (apply elem_of_nil in Hin; contradiction);
    try (apply elem_of_cons in Hin as [[=] | Hin]; apply elem_of_nil in Hin; contradiction).
  destruct c; simpl in Ho; try contradiction; simpl in Hin;
    apply elem_of_nil in Hin; contradiction.
Qed.

Lemma fetch_failure_is_fatal_not_job_get (w : oracle) {A} (p : Py weff A) :
  all_ops (@not_job_get) p -> fetch_failure_is_fatal w p.
Proof. intros Hp st Hst. left. apply exec_not_job_get; auto. Qed.

Lemma polls_one_job_fetch_failure (w : oracle) (j : string) (st : tstate)
    (r : result (ctl * nat)) (st' : tstate) :
  no_failed_fetch (observations (trace st)) ->
  polls_one_job w j st r st' ->
  no_failed_fetch (observations (trace st')) \/
  exists j ref e, r = Raised e /\ ended_by_failed_fetch st' j ref e.
Proof.
  intros Hst [_ Hspec]. destruct (jobs (session st) !! j) as [ref |] eqn:Hj.
  - destruct (w (calls st) Job (Job_get (server_session (session st)) ref)) as [jb | e].
    + destruct Hspec as (_ & _ & tail & Htail & Hobs). left. rewrite Hobs.
      apply no_failed_fetch_app. split; [exact Hst |]. intros ref' e Hin.
      apply (elem_of_poll _ _ _ _ _ _ _ Htail) in Hin as [[=] | [[=] | [[_ [=]] | []]]].
    + destruct Hspec as (-> & Hjobs & Hobs). right. exists j, ref, e.
      split; [reflexivity |]. split; [rewrite Hjobs; exact Hj |]. exists (observations (trace st)).
      auto.
  - destruct Hspec as (_ & _ & Hobs). left. rewrite Hobs.
    apply no_failed_fetch_app. split; [exact Hst |]. intros ref e Hin.
    apply elem_of_cons in Hin as [[=] | Hin]. apply elem_of_nil in Hin. contradiction.
Qed.

(** When a failed fetch ended the run, the failed fetch found in the
    observations is that last one. *)
Lemma ended_by_failed_fetch_last (st : tstate) (j : string) (ref ref' : job_ref)
    (e e' : exn) (pre post : list obs) :
  ended_by_failed_fetch st j ref e ->
  observations (trace st) = pre ++ Fetch ref' (Err e') :: post ->
  post = [] /\ ref' = ref /\ e' = e /\
  exists pre', pre = pre' ++ [Lookup j (Some ref)].
Proof.
  intros (_ & before & Hbefore & Hobs) Heq. rewrite Hobs in Heq.
  apply List.app_eq_app in Heq as [l [[-> Heq] | [-> Heq]]].
  - destruct l as [| x l]; simpl in Heq; [discriminate |].
    injection Heq as <- _. exfalso. apply (Hbefore ref' e').
    apply elem_of_app. right. apply list_elem_of_here.
  - destruct l as [| x [| y l]]; simpl in Heq.
    + discriminate.
    + injection Heq as Hx Hr He Hp. subst. eauto.
    + injection Heq as _ _ Heq. destruct l; discriminate.
Qed.

Lemma submission_op_not_job_get {R} (o : weff R) : submission_op o -> not_job_get o.
Proof. destruct o; simpl; auto. Qed.

Lemma fetch_failure_is_fatal_poll_cycle (w : oracle)
    (body : string -> nat -> Py weff (ctl * nat)) {A} (rest : nat -> Py weff A) :
  (forall j i st, polls_one_job w j st (exec w (body j i) st).1 (exec w (body j i) st).2) ->
  (forall i, all_ops (@not_job_get) (rest i)) ->
  fetch_failure_is_fatal w (keys <- call Jobs_keys ;; i <- for_loop keys 0 body ;; rest i).
Proof.
  intros Hbody Hrest.
  apply fetch_failure_is_fatal_bind;
    [apply fetch_failure_is_fatal_not_job_get; split; [exact I | intros; exact I] |].
  intros keys. apply fetch_failure_is_fatal_bind.
  - apply fetch_failure_is_fatal_for_loop. intros j i st Hst.
    apply (polls_one_job_fetch_failure w j st _ _ Hst). apply Hbody.
  - intros i. apply fetch_failure_is_fatal_not_job_get. apply Hrest.
Qed.

Lemma js_container_while_loop_fetch_failure (w : oracle)
    (arguments : js_container.Arguments) (fuel : nat) (engine : Engine)
    (thingstodo : list string) :
  fetch_failure_is_fatal w (js_container.while_loop arguments fuel engine thingstodo).
Proof.
  revert thingstodo. induction fuel as [| fuel IH]; intros thingstodo;
    cbn [js_container.while_loop];
    (apply fetch_failure_is_fatal_bind;
     [apply fetch_failure_is_fatal_not_job_get; ops_brute |]); intros n;
    (destruct ((0 <? n)%nat || (0 <? length thingstodo)%nat);
     [| apply fetch_failure_is_fatal_not_job_get; exact I]).
  - apply fetch_failure_is_fatal_not_job_get. exact I.
  - apply fetch_failure_is_fatal_bind.
    + apply fetch_failure_is_fatal_not_job_get.
      destruct (0 <? length thingstodo)%nat; [| exact I].
      apply all_ops_bind; [| intros; exact I].
      apply js_container_thing_to_do_ops. intros R o. apply submission_op_not_job_get.
    + intros thingstodo'. apply fetch_failure_is_fatal_bind; [| intros; apply IH].
      apply fetch_failure_is_fatal_poll_cycle.
      * intros j i st. apply js_container_poll_job_spec.
      * intros i. exact I.
Qed.

(** The operations dx_environment.py can be asked for never fetch a job
    status. *)
Lemma dx_environment_thing_to_do_ops (arguments : dx_environment.Arguments)
    (engine : Engine) :
  all_ops (@not_job_get) (dx_environment.thing_to_do arguments engine).
Proof.
  assert (Hsub : forall R (o : weff R), submission_op o -> not_job_get o)
    by (intros R o; apply submission_op_not_job_get).
  assert (Htrack : all_ops (@not_job_get) (dx_environment.track_last_job engine)).
  { unfold dx_environment.track_last_job. submission Hsub. split; [exact I | intros; exact I]. }
  unfold dx_environment.thing_to_do, dx_environment.create_linux_env,
    dx_environment.create_windows_env, dx_environment.delete_env,
    dx_environment.refresh_env, dx_environment.update_ase_pw,
    dx_environment.update_ase_username, dx_environment.list_env.
  repeat first
    [ exact Htrack
    | submission_step Hsub
    | match goal with
      | H : (if ?b then _ else _) = Some _ |- _ => destruct b
      | H : Some _ = Some _ |- _ => injection H as <-
      | H : None = Some _ |- _ => discriminate H
      end ].
Qed.

Lemma dx_environment_while_loop_fetch_failure (w : oracle)
    (arguments : dx_environment.Arguments) (fuel : nat) (engine : Engine)
    (thingstodo : list string) :
  fetch_failure_is_fatal w (dx_environment.while_loop arguments fuel engine thingstodo).
Proof.
  revert thingstodo. induction fuel as [| fuel IH]; intros thingstodo;
    cbn [dx_environment.while_loop];
    (apply fetch_failure_is_fatal_bind;
     [apply fetch_failure_is_fatal_not_job_get; ops_brute |]); intros n;
    (destruct ((0 <? n)%nat || (0 <? length thingstodo)%nat);
     [| apply fetch_failure_is_fatal_not_job_get; exact I]).
  - apply fetch_failure_is_fatal_not_job_get. exact I.
  - apply fetch_failure_is_fatal_bind.
    + apply fetch_failure_is_fatal_not_job_get.
      destruct (0 <? length thingstodo)%nat; [| exact I].
      apply all_ops_bind; [| intros; exact I].
      apply dx_environment_thing_to_do_ops.
    + intros thingstodo'. apply fetch_failure_is_fatal_bind; [| intros; apply IH].
      apply fetch_failure_is_fatal_poll_cycle.
      * intros j i st. apply dx_environment_poll_job_spec.
      * intros i. ops_brute.
Qed.

Lemma ended_by_failed_fetch_print (st : tstate) (ch : channel) (fmt : string)
    (args : list string) (j : string) (ref : job_ref) (e : exn) :
  ended_by_failed_fetch st j ref e ->
  ended_by_failed_fetch
    {| session := session st; calls := calls st;
       trace := trace st ++ [Ev (Print ch fmt args) tt] |} j ref e.
Proof.
  intros (Hj & before & Hbefore & Hobs). split; [exact Hj |]. exists before.
  split; [exact Hbefore |]. simpl. rewrite observations_app, Hobs. simpl.
  apply app_nil_r.
Qed.

Lemma no_failed_fetch_print (st : tstate) (ch : channel) (fmt : string)
    (args : list string) :
  no_failed_fetch (observations (trace st)) ->
  no_failed_fetch (observations (trace st ++ [Ev (Print ch fmt args) tt])).
Proof. intros H. rewrite observations_app. simpl. rewrite app_nil_r. exact H. Qed.

Ltac handler_cases :=
  match goal with
  | |- context [if existsb ?f ?l then Some _ else None] => destruct (existsb f l)
  end.

(** js_container.py: a failed status fetch ends [main_workflow]; the
    handler of the loop turns the four exceptions it names into
    [sys.exit(1)]. *)
Lemma js_container_main_workflow_fetch_failure (w : oracle)
    (arguments : js_container.Arguments) (fuel : nat) (cfg : Config)
    (engine : option Engine) (st : tstate) :
  no_failed_fetch (observations (trace st)) ->
  let run := exec w (js_container.main_workflow arguments fuel cfg engine) st in
  no_failed_fetch (observations (trace run.2)) \/
  exists j ref e,
    ended_by_failed_fetch run.2 j ref e /\
    run.1 = if existsb (isinstance e)
                 [K_DlpxException; K_RequestError; K_JobError; K_HttpError]
            then Raised (SystemExit 1) else Raised e.
Proof.
  intros Hst run. subst run. unfold js_container.main_workflow. rewrite exec_bind.
  match goal with
  | |- context [exec w (try_except ?p ?h) st] =>
      assert (H1 : no_failed_fetch (observations (trace (exec w (try_except p h) st).2)));
      [ apply exec_not_job_get; [| exact Hst];
        unfold engine_item, serversess, dict_getitem, except; ops_brute
      | destruct (exec w (try_except p h) st) as [[[] | e |] st1] ]
  end; simpl in H1; [| left; exact H1 | left; exact H1].
  rewrite exec_try_except. destruct engine as [eng |]; [| left; exact H1].
  cbn [engine_item bind].
  pose proof (js_container_while_loop_fetch_failure w arguments fuel eng ["thingtodo"] st1 H1)
    as Hloop.
  destruct (exec w (js_container.while_loop arguments fuel eng ["thingtodo"]) st1)
    as [[a | e |] st2]; simpl in Hloop.
  - destruct Hloop as [Hloop | (j & ref & e & [=] & _)]. left. exact Hloop.
  - unfold except.
    destruct Hloop as [Hloop | (j & ref & e' & [= <-] & Hend)].
    + left. handler_cases; simpl; [apply no_failed_fetch_print |]; exact Hloop.
    + right. exists j, ref, e. handler_cases; simpl; split; try reflexivity.
      * apply (ended_by_failed_fetch_print st2). exact Hend.
      * exact Hend.
  - destruct Hloop as [Hloop | (j & ref & e & [=] & _)]. left. exact Hloop.
Qed.

(** dx_environment.py: the handler of the loop names [DlpxException] and
    [JobError] only. *)
Lemma dx_environment_main_workflow_fetch_failure (w : oracle)
    (arguments : dx_environment.Arguments) (fuel : nat) (engine : option Engine)
    (st : tstate) :
  no_failed_fetch (observations (trace st)) ->
  let run := exec w (dx_environment.main_workflow arguments fuel engine) st in
  no_failed_fetch (observations (trace run.2)) \/
  exists j ref e,
    ended_by_failed_fetch run.2 j ref e /\
    run.1 = if existsb (isinstance e) [K_DlpxException; K_JobError]
            then Raised (SystemExit 1) else Raised e.
Proof.
  intros Hst run. subst run. unfold dx_environment.main_workflow. rewrite exec_bind.
  match goal with
  | |- context [exec w (try_except ?p ?h) st] =>
      assert (H1 : no_failed_fetch (observations (trace (exec w (try_except p h) st).2)));
      [ apply exec_not_job_get; [| exact Hst];
        unfold engine_item, serversess, except; ops_brute
      | destruct (exec w (try_except p h) st) as [[[] | e |] st1] ]
  end; simpl in H1; [| left; exact H1 | left; exact H1].
  rewrite exec_try_except. destruct engine as [eng |]; [| left; exact H1].
  cbn [engine_item bind].
  pose proof (dx_environment_while_loop_fetch_failure w arguments fuel eng ["thingtodo"]
                st1 H1) as Hloop.
  destruct (exec w (dx_environment.while_loop arguments fuel eng ["thingtodo"]) st1)
    as [[a | e |] st2]; simpl in Hloop.
  - destruct Hloop as [Hloop | (j & ref & e & [=] & _)]. left. exact Hloop.
  - unfold except.
    destruct Hloop as [Hloop | (j & ref & e' & [= <-] & Hend)].
    + left. handler_cases; simpl; [apply no_failed_fetch_print |]; exact Hloop.
    + right. exists j, ref, e. handler_cases; simpl; split; try reflexivity.
      * apply (ended_by_failed_fetch_print st2). exact Hend.
      * exact Hend.
  - destruct Hloop as [Hloop | (j & ref & e & [=] & _)]. left. exact Hloop.
Qed.

Lemma no_failed_fetch_nil : no_failed_fetch [].
Proof. intros ref e H. apply elem_of_nil in H. contradiction. Qed.




(** ** The pause between polling cycles *)

Lemma exec_not_sleep {A} (w : oracle) (p : Py weff A) (st : tstate) :
  all_ops (@not_sleep) p -> sleeps (trace (exec w p st).2) = sleeps (trace st).
Proof.
  revert st. induction p as [a | e | | R o k IH]; intros st Hp; simpl; try reflexivity.
  destruct Hp as [Ho Hk]. destruct (perform w o st) as [r st1] eqn:Hperf.
  rewrite (IH r st1 (Hk r)).
  pose proof (perform_trace w o st) as Ht. rewrite Hperf in Ht. simpl in Ht.
  rewrite Ht, sleeps_app. destruct o; simpl in Ho; try contradiction; simpl;
    apply app_nil_r.
Qed.

Lemma sleeps_new_events (st st' : tstate) (l : list string) :
  (exists evs, trace st' = trace st ++ evs) ->
  sleeps (trace st') = sleeps (trace st) ++ l ->
  sleeps (new_events st st') = l.
Proof.
  intros [evs Hevs] Hs. rewrite (new_events_app _ _ _ Hevs).
  rewrite Hevs, sleeps_app in Hs. apply app_inv_head in Hs. exact Hs.
Qed.

(** dx_environment.py: a polling cycle that comes to its end has slept
    once, for [--poll] seconds, when jobs are still tracked after the pass,
    and not at all otherwise. *)
Lemma dx_environment_poll_cycle_sleeps_once (w : oracle)
    (arguments : dx_environment.Arguments) (engine : Engine) (st : tstate) :
  let run := exec w (dx_environment.poll_cycle arguments engine) st in
  run.1 = Returned tt ->
  sleeps (new_events st run.2) =
    if (0 <? size (jobs (session run.2)))%nat
    then [dx_environment.opt_poll arguments] else [].
Proof.
  intros run Hr. subst run. apply sleeps_new_events; [apply exec_trace |].
  revert Hr. unfold dx_environment.poll_cycle.
  rewrite (exec_bind_returned _ _ _ _ _ _ (exec_jobs_keys w st)).
  set (st0 := {| session := session st; calls := calls st;
                 trace := trace st ++ [Ev Jobs_keys (map_to_list (jobs (session st))).*1] |}).
  rewrite exec_bind.
  assert (Hloop : sleeps (trace (exec w (for_loop (map_to_list (jobs (session st))).*1 0
                                           (dx_environment.poll_job engine)) st0).2)
                  = sleeps (trace st)).
  { rewrite exec_not_sleep.
    - subst st0. simpl. rewrite sleeps_app. apply app_nil_r.
    - apply all_ops_for_loop. intros j i. apply dx_environment_poll_job_not_sleep. }
  destruct (exec w (for_loop (map_to_list (jobs (session st))).*1 0
                      (dx_environment.poll_job engine)) st0) as [[i | e |] st1];
    [| discriminate | discriminate].
  simpl in Hloop. cbn -[size float_of].
  destruct (size (jobs (session st1))) eqn:Hsize; cbn -[size float_of].
  - intros _. rewrite Hsize, !sleeps_app, Hloop. simpl. rewrite ?app_nil_r. reflexivity.
  - unfold float_of. destruct (float_literal _); cbn -[size]; [| discriminate].
    intros _. rewrite Hsize, !sleeps_app, Hloop. simpl. rewrite ?app_nil_r. reflexivity.
Qed.

(** dx_jobs.py: the same. *)
Lemma dx_jobs_poll_cycle_sleeps_once (w : oracle) (arguments : dx_jobs.Arguments)
    (engine : Engine) (st : tstate) :
  let run := exec w (dx_jobs.poll_cycle arguments engine) st in
  run.1 = Returned tt ->
  sleeps (new_events st run.2) =
    if (0 <? size (jobs (session run.2)))%nat then [dx_jobs.opt_poll arguments] else [].
Proof.
  intros run Hr. subst run. apply sleeps_new_events; [apply exec_trace |].
  revert Hr. unfold dx_jobs.poll_cycle.
  rewrite (exec_bind_returned _ _ _ _ _ _ (exec_jobs_keys w st)).
  set (st0 := {| session := session st; calls := calls st;
                 trace := trace st ++ [Ev Jobs_keys (map_to_list (jobs (session st))).*1] |}).
  rewrite exec_bind.
  assert (Hloop : sleeps (trace (exec w (for_loop (map_to_list (jobs (session st))).*1 0
                                           (dx_jobs.poll_job engine)) st0).2)
                  = sleeps (trace st)).
  { rewrite exec_not_sleep.
    - subst st0. simpl. rewrite sleeps_app. apply app_nil_r.
    - apply all_ops_for_loop. intros j i. apply dx_jobs_poll_job_not_sleep. }
  destruct (exec w (for_loop (map_to_list (jobs (session st))).*1 0
                      (dx_jobs.poll_job engine)) st0) as [[i | e |] st1];
    [| discriminate | discriminate].
  simpl in Hloop. cbn -[size float_of].
  destruct (size (jobs (session st1))) eqn:Hsize; cbn -[size float_of].
  - intros _. rewrite Hsize, !sleeps_app, Hloop. simpl. rewrite ?app_nil_r. reflexivity.
  - unfold float_of. destruct (float_literal _); cbn -[size]; [| discriminate].
    intros _. rewrite Hsize, !sleeps_app, Hloop. simpl. rewrite ?app_nil_r. reflexivity.
Qed.

(** ** Workers side by side *)

Lemma perform_quiet (w : oracle) {R} (o : weff R) (st : tstate) :
  quiet_op o -> jobs (session st) = ∅ -> session (perform w o st).2 = session st.
Proof.
  intros Ho Hjobs. destruct o; simpl in Ho; try contradiction; simpl; try reflexivity.
  destruct (session st) as [ss js]. simpl in *. subst js. rewrite delete_empty. reflexivity.
Qed.

Lemma perform_serversess_jobs (w : oracle) (ip user pw : string) (st : tstate) :
  jobs (session (perform w (Serversess ip user pw) st).2) = jobs (session st).
Proof. simpl. destruct (w (calls st) unit (Connect ip user pw)); reflexivity. Qed.

Lemma quiet_staged {A} (p : Py weff A) : all_ops (@quiet_op) p -> staged p.
Proof. destruct p as [a | e | | R o k]; simpl; auto. destruct o; simpl; tauto. Qed.

Lemma staged_step {A R} (o : weff R) (k : R -> Py weff A) (r : R) :
  staged (Vis o k) -> staged (k r).
Proof.
  intros H. apply quiet_staged. destruct o; simpl in H; try apply H.
Qed.

Lemma staged_perform (w : oracle) {A R} (o : weff R) (k : R -> Py weff A) (st : tstate) :
  staged (Vis o k) -> jobs (session st) = ∅ -> jobs (session (perform w o st).2) = ∅.
Proof.
  intros Hs Hjobs. destruct o;
    try (rewrite perform_quiet; [exact Hjobs | apply Hs | exact Hjobs]).
  rewrite perform_serversess_jobs. exact Hjobs.
Qed.

Section one_system.
Import Interleaving.
Variable w : nat -> oracle.
Variable worker : option Engine -> Py weff unit.
Hypothesis worker_staged : forall engine, staged (worker engine).

(** What a worker's step does: nothing when the thread does not exist or
    is over, one operation on the shared session otherwise. *)
Lemma step_worker_cases (t : nat) (s : system) :
  (step_worker w t s = s /\
   forall th, workers s !! t = Some th -> finished (code th) = true) \/
  exists th R (o : weff R) k,
    workers s !! t = Some th /\ code th = Vis o k /\
    let st := {| session := shared s; calls := wcalls th; trace := wtrace th |} in
    step_worker w t s =
      {| shared := session (perform (w t) o st).2;
         coordinator := coordinator s;
         workers := <[t := {| code := k (perform (w t) o st).1;
                              wcalls := calls (perform (w t) o st).2;
                              wtrace := trace (perform (w t) o st).2 |}]> (workers s) |}.
Proof.
  unfold step_worker. destruct (workers s !! t) as [th |] eqn:Ht.
  - destruct (code th) as [a | e | | R o k] eqn:Hcode;
      try (left; split; [reflexivity | intros th' [= <-]; rewrite Hcode; reflexivity]).
    right. exists th, R, o, k. split; [reflexivity |]. split; [exact Hcode |].
    simpl. destruct (perform (w t) o _) as [r ts]. reflexivity.
  - left. split; [reflexivity | intros th' [=]].
Qed.

Lemma step_worker_orderly (t : nat) (s : system) :
  orderly s -> orderly (step_worker w t s).
Proof.
  intros [Hjobs Hstaged].
  destruct (step_worker_cases t s) as [[-> _] | (th & R & o & k & Ht & Hcode & ->)];
    [split; assumption |].
  pose proof (Forall_lookup_1 _ _ _ _ Hstaged Ht) as Hth. simpl in Hth.
  rewrite Hcode in Hth. split; simpl.
  - apply (staged_perform _ _ k); assumption.
  - apply Forall_insert; [exact Hstaged |]. simpl. apply (staged_step o). exact Hth.
Qed.

Lemma step_coordinator_orderly (s : system) :
  orderly s -> orderly (step_coordinator worker s).
Proof.
  intros [Hjobs Hstaged]. unfold step_coordinator.
  destruct (coordinator s) as [a | e | | R o k]; try (split; assumption).
  destruct o; simpl.
  - split; assumption.
  - split; [assumption |]. simpl. apply Forall_app. split; [assumption |].
    repeat constructor. simpl. apply worker_staged.
  - destruct (is_finished s t); split; assumption.
Qed.

End one_system.

Lemma submission_op_quiet {R} (o : weff R) : submission_op o -> quiet_op o.
Proof. destruct o; simpl; auto. Qed.

Lemma js_container_while_loop_quiet (arguments : js_container.Arguments) (fuel : nat)
    (engine : Engine) (thingstodo : list string) :
  all_ops (@quiet_op) (js_container.while_loop arguments fuel engine thingstodo).
Proof.
  revert thingstodo. induction fuel as [| fuel IH]; intros thingstodo;
    cbn [js_container.while_loop];
    (apply all_ops_bind; [simpl; auto |]); intros n;
    (destruct ((0 <? n)%nat || (0 <? length thingstodo)%nat); [| exact I]);
    [exact I |].
  apply all_ops_bind.
  - destruct (0 <? length thingstodo)%nat; [| exact I].
    apply all_ops_bind; [| intros; exact I].
    apply js_container_thing_to_do_ops. intros R o. apply submission_op_quiet.
  - intros thingstodo'. apply all_ops_bind; [| intros; apply IH].
    unfold js_container.poll_cycle. apply all_ops_bind; [simpl; auto |].
    intros keys. apply all_ops_bind; [| intros; exact I].
    apply all_ops_for_loop. intros j i. unfold js_container.poll_job. ops_poll.
Qed.

(** The worker of js_container.py connects first, and tracks no job. *)
Lemma js_container_main_workflow_staged (arguments : js_container.Arguments) (fuel : nat)
    (cfg : Config) (engine : option Engine) :
  staged (js_container.main_workflow arguments fuel cfg engine).
Proof.
  unfold js_container.main_workflow. destruct engine as [eng |]; [| exact I].
  cbn [engine_item bind serversess call try_except staged]. intros r.
  apply all_ops_bind.
  - destruct r as [[] | e]; [exact I |]. cbn [try_except bind].
    unfold except. destruct (existsb (isinstance e) [K_DlpxException]); [| exact I].
    unfold dict_getitem. destruct (dict_get cfg "hostname"); simpl; auto.
  - intros _. apply all_ops_try_except.
    + apply js_container_while_loop_quiet.
    + intros e q. apply all_ops_except. intros e'. simpl. auto.
Qed.

(** * Further properties of the code *)

(** ** lib/GetReferences.py: the other lookups *)

(** [find_obj_list] returns the first object of the list that has the
    name, and [None] exactly when no object of the list has it. *)
Theorem find_obj_list_first_match (obj_lst : list Obj) (obj_name : string) :
  (forall obj,
      GetReferences.find_obj_list obj_lst obj_name = Some obj <->
      exists pre post,
        obj_lst = pre ++ obj :: post /\ name obj = obj_name /\
        Forall (fun o => name o <> obj_name) pre) /\
  (GetReferences.find_obj_list obj_lst obj_name = None <->
   Forall (fun o => name o <> obj_name) obj_lst).
Proof.
  induction obj_lst as [| o rest [IHsome IHnone]]; simpl.
  - split.
    + intros obj. split; [discriminate |]. intros (pre & post & H & _).
      destruct pre; discriminate.
    + split; auto.
  - destruct (String.eqb_spec obj_name (name o)) as [Heq | Hne].
    + split.
      * intros obj. split.
        -- intros [= <-]. exists [], rest. auto.
        -- intros (pre & post & H & Hn & Hpre). destruct pre as [| o' pre]; simpl in H.
           ++ injection H as -> _. reflexivity.
           ++ injection H as -> _. apply Forall_cons in Hpre as [Hpre _]. congruence.
      * split; [discriminate |]. intros H. apply Forall_cons in H as [H _]. congruence.
    + split.
      * intros obj. rewrite IHsome. split.
        -- intros (pre & post & -> & Hn & Hpre). exists (o :: pre), post.
           repeat split; auto.
        -- intros (pre & post & H & Hn & Hpre). destruct pre as [| o' pre]; simpl in H.
           ++ injection H as -> _. congruence.
           ++ injection H as -> ->. apply Forall_cons in Hpre as [_ Hpre]. eauto.
      * rewrite IHnone. split; [intros H; constructor; auto |].
        intros H. apply Forall_cons in H as [_ H]. exact H.
Qed.

(** [find_all_objects] hands on the list [get_all] returns.  Of the
    errors of [get_all] it turns [JobError] and [HttpError] into
    [DlpxException] (or fails on [engine.address]), so it never ends in
    one of these two; any other error, [RequestError] included, passes
    through as it is. *)
Theorem find_all_objects_errors (w : oracle) (engine : option string)
    (f_class : obj_class) (st : tstate) :
  let r := (exec w (GetReferences.find_all_objects engine f_class) st).1 in
  r <> Raised JobError /\ r <> Raised HttpError /\
  (forall objs, w (calls st) _ (Get_all engine f_class None) = Ok objs ->
                r = Returned objs) /\
  (forall e, w (calls st) _ (Get_all engine f_class None) = Err e ->
             e <> JobError -> e <> HttpError -> r = Raised e) /\
  (forall e address,
      w (calls st) _ (Get_all engine f_class None) = Err e ->
      e = JobError \/ e = HttpError -> engine = Some address ->
      exists msg, r = Raised (DlpxException msg)).
Proof.
  intros r. subst r. unfold GetReferences.find_all_objects.
  rewrite exec_try_except, exec_remote_call.
  destruct (w (calls st) (list Obj) (Get_all engine f_class None)) as [objs | e].
  - repeat split; try discriminate. intros ? [= <-]. reflexivity.
  - split; [| split; [| split; [| split]]].
    + destruct e, engine; discriminate.
    + destruct e, engine; discriminate.
    + discriminate.
    + intros e' [= <-] Hj Hh. destruct e; try reflexivity; congruence.
    + intros e' address [= <-] [-> | ->] ->; simpl; eauto.
Qed.

(** [get_db_name] gives the name of the database; each of the three
    errors of the engine's API ends in [DlpxException], so none of them
    reaches the caller. *)
Theorem get_db_name_errors (w : oracle) (engine : option string)
    (db_reference : string) (st : tstate) :
  let r := (exec w (GetReferences.get_db_name engine db_reference) st).1 in
  r <> Raised RequestError /\ r <> Raised JobError /\ r <> Raised HttpError /\
  (forall db, w (calls st) _ (Get engine c_database db_reference) = Ok db ->
              r = Returned (name db)) /\
  (forall e, w (calls st) _ (Get engine c_database db_reference) = Err e ->
             e = RequestError \/ e = JobError \/ e = HttpError ->
             exists msg, r = Raised (DlpxException msg)).
Proof.
  intros r. subst r. unfold GetReferences.get_db_name.
  rewrite exec_try_except, exec_bind, exec_remote_call.
  destruct (w (calls st) Obj (Get engine c_database db_reference)) as [db | e].
  - repeat split; try discriminate. intros ? [= <-]. reflexivity.
  - split; [| split; [| split; [| split]]].
    + destruct e; discriminate.
    + destruct e; discriminate.
    + destruct e; discriminate.
    + discriminate.
    + intros e' [= <-] [-> | [-> | ->]]; simpl; eauto.
Qed.

Lemma exec_find_dbrepo_for_known (w : oracle) (all_objs : list Obj)
    (install_type field f_install_path : string) (st : tstate) :
  (install_type = "OracleInstall" /\ field = "installation_home") \/
  (install_type = "MSSqlInstance" /\ field = "instance_name") ->
  (exec w (GetReferences.find_dbrepo_for all_objs install_type f_install_path) st).1 =
  Returned
    (find (fun obj => GetReferences.attr_is obj "type" install_type
                      && GetReferences.attr_is obj field f_install_path) all_objs).
Proof.
  intros Htype. revert st. induction all_objs as [| obj rest IH]; intros st;
    [reflexivity |].
  destruct Htype as [[-> ->] | [-> ->]]; cbn [GetReferences.find_dbrepo_for find];
    cbn [String.eqb Ascii.eqb Bool.eqb];
    match goal with
    | |- context [if ?c then _ else _] => destruct c
    end; try reflexivity; apply IH; auto.
Qed.

(** [find_dbrepo] for an Oracle or a SQL Server installation: it returns
    the first repository of the environment that has the install type and
    the install path (for SQL Server: the instance name); when none has,
    it returns [None], and it raises nothing. *)
Theorem find_dbrepo_first_match (w : oracle) (engine : option string)
    (install_type field f_environment_ref f_install_path : string) (st : tstate)
    (all_objs : list Obj) :
  (install_type = "OracleInstall" /\ field = "installation_home") \/
  (install_type = "MSSqlInstance" /\ field = "instance_name") ->
  w (calls st) _ (Get_all engine c_repository (Some f_environment_ref)) = Ok all_objs ->
  (exec w (GetReferences.find_dbrepo engine install_type f_environment_ref f_install_path)
     st).1 =
  Returned
    (find (fun obj => GetReferences.attr_is obj "type" install_type
                      && GetReferences.attr_is obj field f_install_path) all_objs).
Proof.
  intros Htype Hw. unfold GetReferences.find_dbrepo.
  rewrite exec_bind, exec_print_debug, exec_bind, exec_remote_call. simpl calls.
  rewrite Hw. apply exec_find_dbrepo_for_known. exact Htype.
Qed.

Lemma find_dbrepo_first_match_witness :
  let repo (t home ref : string) :=
    {| name := ref; reference := ref; active_branch := ""; container := "";
       primary_user := ""; host := ""; last_updated := ""; objects := [];
       jdbc_strings := None;
       attrs := [("type", t); ("installation_home", home)] |} in
  let repos :=
    [repo "MSSqlInstance" "/u01/oracle" "REPO-1"; repo "OracleInstall" "/u02/oracle" "REPO-2";
     repo "OracleInstall" "/u01/oracle" "REPO-3"; repo "OracleInstall" "/u01/oracle" "REPO-4"] in
  let w : oracle := fun n R c =>
    match c in rcall R return res R with
    | Get_all _ _ _ => Ok repos
    | c => Scenario.world_ok n _ c
    end in
  (exec w (GetReferences.find_dbrepo (Some "10.0.0.1") "OracleInstall" "ENV-1" "/u01/oracle")
     Scenario.fresh).1
  = Returned (Some (repo "OracleInstall" "/u01/oracle" "REPO-3")) /\
  (exec w (GetReferences.find_dbrepo (Some "10.0.0.1") "OracleInstall" "ENV-1" "/u09")
     Scenario.fresh).1
  = Returned None.
Proof.
  intros repo repos w. split.
  - rewrite (find_dbrepo_first_match w (Some "10.0.0.1") "OracleInstall"
               "installation_home" "ENV-1" "/u01/oracle" Scenario.fresh repos);
      [reflexivity | left; split; reflexivity | reflexivity].
  - rewrite (find_dbrepo_first_match w (Some "10.0.0.1") "OracleInstall"
               "installation_home" "ENV-1" "/u09" Scenario.fresh repos);
      [reflexivity | left; split; reflexivity | reflexivity].
Defined.

(** [find_dbrepo] for any other install type: it raises [DlpxException]
    as soon as the environment has one repository, whatever that repository
    is, and returns [None] when the environment has none. *)
Theorem find_dbrepo_other_type (w : oracle) (engine : option string)
    (install_type f_environment_ref f_install_path : string) (st : tstate)
    (all_objs : list Obj) :
  install_type <> "OracleInstall" ->
  install_type <> "MSSqlInstance" ->
  w (calls st) _ (Get_all engine c_repository (Some f_environment_ref)) = Ok all_objs ->
  (exec w (GetReferences.find_dbrepo engine install_type f_environment_ref f_install_path)
     st).1 =
  match all_objs with
  | [] => Returned None
  | _ :: _ =>
      Raised (DlpxException ("No Repo match found for type " ++ install_type ++ "."))
  end.
Proof.
  intros Ho Hm Hw. unfold GetReferences.find_dbrepo.
  rewrite exec_bind, exec_print_debug, exec_bind, exec_remote_call. simpl calls.
  rewrite Hw. destruct all_objs as [| obj rest]; [reflexivity |].
  cbn [GetReferences.find_dbrepo_for].
  destruct (String.eqb_spec "OracleInstall" install_type); [congruence |].
  destruct (String.eqb_spec "MSSqlInstance" install_type); [congruence |].
  reflexivity.
Qed.

Lemma find_dbrepo_other_type_witness :
  "ASEInstance" <> "OracleInstall" /\ "ASEInstance" <> "MSSqlInstance" /\
  exists msg,
    (exec Scenario.world_ok
       (GetReferences.find_dbrepo (Some "10.0.0.1") "ASEInstance" "ENV-1" "/opt/sybase")
       Scenario.fresh).1
    = Raised (DlpxException msg).
Proof.
  split; [discriminate |]. split; [discriminate |].
  rewrite (find_dbrepo_other_type Scenario.world_ok (Some "10.0.0.1") "ASEInstance" "ENV-1"
             "/opt/sybase" Scenario.fresh Scenario.catalog);
    [eexists; reflexivity | discriminate | discriminate | reflexivity].
Defined.

Lemma exec_get_obj_reference_for_container (w : oracle) (results : list Obj)
    (obj_name : string) (search_str : option string) (st : tstate) :
  exec w (GetReferences.get_obj_reference_for results obj_name search_str true) st =
  (Returned
     ((fun result => [GetReferences.PStr (reference result)]) <$>
      find (fun result => String.eqb (container result) obj_name) results),
   st).
Proof.
  induction results as [| result rest IH]; [reflexivity |].
  destruct result as [n r ab c pu h lu os js ats].
  cbn [GetReferences.get_obj_reference_for negb find container].
  destruct (String.eqb c obj_name); [reflexivity | exact IH].
Qed.

(** [get_obj_reference] with [container=True] looks for the first object
    whose container is [obj_name] and returns the one-element list of its
    reference, or raises [DlpxException] when there is none.  The search
    string is not used: the result is the same with and without it, and
    the regular expression is never evaluated (the call to [get_all] is
    the only operation). *)
Theorem get_obj_reference_by_container (w : oracle) (engine : option string)
    (obj_type : obj_class) (obj_name : string) (search_str : option string)
    (st : tstate) (results : list Obj) :
  w (calls st) _ (Get_all engine obj_type None) = Ok results ->
  let run :=
    exec w (GetReferences.get_obj_reference engine obj_type obj_name search_str true) st in
  run.1 =
    match find (fun result => String.eqb (container result) obj_name) results with
    | Some result => Returned [GetReferences.PStr (reference result)]
    | None => Raised (DlpxException ("Reference not found for " ++ obj_name))
    end /\
  new_events st run.2 = [Ev (Remote (Get_all engine obj_type None)) (Ok results)].
Proof.
  intros Hw run. subst run. unfold GetReferences.get_obj_reference.
  rewrite exec_bind, exec_remote_call, Hw, exec_bind,
    exec_get_obj_reference_for_container.
  destruct (find _ results) as [result |]; simpl; (split; [reflexivity |]);
    apply new_events_app; reflexivity.
Qed.

Lemma get_obj_reference_by_container_witness :
  let ds (n c r : string) :=
    {| name := n; reference := r; active_branch := ""; container := c;
       primary_user := ""; host := ""; last_updated := ""; objects := [];
       jdbc_strings := None; attrs := [] |} in
  let w : oracle := fun n R c =>
    match c in rcall R return res R with
    | Get_all _ _ _ => Ok [ds "a" "DB-1" "DS-1"; ds "b" "DB-2" "DS-2"; ds "c" "DB-2" "DS-3"]
    | c => Scenario.world_ok n _ c
    end in
  (exec w (GetReferences.get_obj_reference (Some "10.0.0.1") c_datasource "DB-2"
             (Some "DS-3") true) Scenario.fresh).1
  = Returned [GetReferences.PStr "DS-2"].
Proof.
  intros ds w.
  exact (proj1 (get_obj_reference_by_container w (Some "10.0.0.1") c_datasource "DB-2"
                  (Some "DS-3") Scenario.fresh
                  [ds "a" "DB-1" "DS-1"; ds "b" "DB-2" "DS-2"; ds "c" "DB-2" "DS-3"]
                  eq_refl)).
Defined.

Lemma exec_get_obj_reference_for_name (w : oracle) (results : list Obj)
    (obj_name : string) (st : tstate) :
  exec w (GetReferences.get_obj_reference_for results obj_name None false) st =
  (Returned
     ((fun result => [GetReferences.PStr (reference result)]) <$>
      find (fun result => String.eqb (name result) obj_name) results),
   st).
Proof.
  induction results as [| result rest IH]; [reflexivity |].
  destruct result as [n r ab c pu h lu os js ats].
  cbn [GetReferences.get_obj_reference_for negb find name truthy].
  destruct (String.eqb n obj_name); [reflexivity | exact IH].
Qed.

Lemma find_obj_by_name_for_find (all_objs : list Obj) (obj_name : string)
    (flag : GetReferences.pyarg) :
  GetReferences.find_obj_by_name_for all_objs obj_name flag =
  (fun obj =>
     match flag with
     | GetReferences.PyTrue => GetReferences.Found_list [reference obj; active_branch obj]
     | _ => GetReferences.Found_obj obj
     end) <$> find (fun obj => String.eqb (name obj) obj_name) all_objs.
Proof.
  induction all_objs as [| obj rest IH]; [reflexivity |].
  cbn [GetReferences.find_obj_by_name_for find].
  destruct (String.eqb (name obj) obj_name); [| exact IH].
  destruct obj, flag; reflexivity.
Qed.

(** [get_obj_reference(...).pop()], as the operations of js_container.py
    use it (by name, no search string): it is the reference of the first
    object that has the name, so it is what [find_obj_by_name(...).reference]
    gives for the same answer of the engine; both raise [DlpxException] when
    no object has the name. *)
Theorem get_obj_reference_pop_is_first_reference (w : oracle) (address : string)
    (obj_type : obj_class) (obj_name : string) (st : tstate) (results : list Obj) :
  w (calls st) _ (Get_all (Some address) obj_type None) = Ok results ->
  let by_list :=
    (exec w (ret_lst <- GetReferences.get_obj_reference (Some address) obj_type obj_name
                          None false ;;
             Ret (GetReferences.pop_reference ret_lst)) st).1 in
  let by_object :=
    (exec w (obj <- GetReferences.find_obj_by_name (Some address) obj_type obj_name
                      GetReferences.PyFalse ;;
             GetReferences.reference_of obj) st).1 in
  match find (fun result => String.eqb (name result) obj_name) results with
  | Some result =>
      by_list = Returned (reference result) /\ by_object = Returned (reference result)
  | None =>
      (exists msg, by_list = Raised (DlpxException msg)) /\
      (exists msg, by_object = Raised (DlpxException msg))
  end.
Proof.
  intros Hw by_list by_object. subst by_list by_object.
  unfold GetReferences.get_obj_reference, GetReferences.find_obj_by_name.
  rewrite !exec_bind, exec_try_except, exec_remote_call, Hw, exec_bind,
    exec_get_obj_reference_for_name, find_obj_by_name_for_find.
  destruct (find _ results) as [result |]; simpl; eauto.
Qed.

Lemma get_obj_reference_pop_is_first_reference_witness :
  (exec Scenario.world_ok
     (ret_lst <- GetReferences.get_obj_reference (Some "10.0.0.1") c_container "db1"
                   None false ;;
      Ret (GetReferences.pop_reference ret_lst)) Scenario.fresh).1
  = Returned "DB-1".
Proof.
  exact (proj1 (get_obj_reference_pop_is_first_reference Scenario.world_ok "10.0.0.1"
                  c_container "db1" Scenario.fresh Scenario.catalog eq_refl)).
Defined.

Lemma exec_find_obj_by_name_find (w : oracle) (address : string)
    (f_class : obj_class) (obj_name : string) (flag : GetReferences.pyarg)
    (st : tstate) (all_objs : list Obj) :
  w (calls st) _ (Get_all (Some address) f_class None) = Ok all_objs ->
  (exec w (GetReferences.find_obj_by_name (Some address) f_class obj_name flag) st).1 =
  match find (fun obj => String.eqb (name obj) obj_name) all_objs with
  | Some obj =>
      Returned
        match flag with
        | GetReferences.PyTrue =>
            GetReferences.Found_list [reference obj; active_branch obj]
        | _ => GetReferences.Found_obj obj
        end
  | None =>
      Raised (DlpxException (obj_name ++ " was not found on engine " ++ address ++ "."))
  end.
Proof.
  intros Hw. unfold GetReferences.find_obj_by_name.
  rewrite exec_bind, exec_try_except, exec_remote_call, Hw, find_obj_by_name_for_find.
  destruct (find _ all_objs); reflexivity.
Qed.

(** [find_obj_by_name] with [active_branch=True] returns the two-element
    list of the reference and the active branch of the first object that
    has the name; with an [active_branch] that is neither [True] nor
    [False] (the update operations of dx_environment.py pass an object)
    it returns that object itself, as it does for [False].  In all three
    cases it raises [DlpxException] exactly when no object has the name. *)
Theorem find_obj_by_name_active_branch (w : oracle) (address : string)
    (f_class : obj_class) (obj_name : string) (flag : GetReferences.pyarg)
    (st : tstate) (all_objs : list Obj) :
  w (calls st) _ (Get_all (Some address) f_class None) = Ok all_objs ->
  (exec w (GetReferences.find_obj_by_name (Some address) f_class obj_name flag) st).1 =
  match find (fun obj => String.eqb (name obj) obj_name) all_objs with
  | Some obj =>
      Returned
        match flag with
        | GetReferences.PyTrue =>
            GetReferences.Found_list [reference obj; active_branch obj]
        | _ => GetReferences.Found_obj obj
        end
  | None =>
      Raised (DlpxException (obj_name ++ " was not found on engine " ++ address ++ "."))
  end.
Proof.
  intros Hw. unfold GetReferences.find_obj_by_name.
  rewrite exec_bind, exec_try_except, exec_remote_call, Hw, find_obj_by_name_for_find.
  destruct (find _ all_objs) as [obj |]; [destruct flag |]; reflexivity.
Qed.

Lemma find_obj_by_name_active_branch_witness :
  let jsobj :=
    {| name := "c1"; reference := "JS_DATA_CONTAINER-1"; active_branch := "JS_BRANCH-7";
       container := ""; primary_user := ""; host := ""; last_updated := ""; objects := [];
       jdbc_strings := None; attrs := [] |} in
  let w : oracle := fun n R c =>
    match c in rcall R return res R with
    | Get_all _ _ _ => Ok [Scenario.obj "c0" "JS_DATA_CONTAINER-0"; jsobj]
    | c => Scenario.world_ok n _ c
    end in
  (exec w (GetReferences.find_obj_by_name (Some "10.0.0.1") c_container "c1"
             GetReferences.PyTrue) Scenario.fresh).1
  = Returned (GetReferences.Found_list ["JS_DATA_CONTAINER-1"; "JS_BRANCH-7"]).
Proof.
  intros jsobj w.
  exact (find_obj_by_name_active_branch w "10.0.0.1" c_container "c1" GetReferences.PyTrue
           Scenario.fresh [Scenario.obj "c0" "JS_DATA_CONTAINER-0"; jsobj] eq_refl).
Defined.

Lemma exec_find_obj_specs_loop (w : oracle) (address : string) (objs : list Obj)
    (obj_lst : list string) :
  (forall n, w n _ (Get_all (Some address) c_database None) = Ok objs) ->
  forall (rep_lst : list string) (st : tstate),
    let body := fun obj rep_lst =>
      r <- GetReferences.find_obj_by_name (Some address) c_database obj
             GetReferences.PyFalse ;;
      ref <- GetReferences.reference_of r ;;
      Ret (Next, rep_lst ++ [ref]) in
    match mapM (fun n => reference <$> find (fun o => String.eqb (name o) n) objs) obj_lst with
    | Some refs => (exec w (for_loop obj_lst rep_lst body) st).1 = Returned (rep_lst ++ refs)
    | None => exists msg, (exec w (for_loop obj_lst rep_lst body) st).1
                          = Raised (DlpxException msg)
    end.
Proof.
  intros Hw. induction obj_lst as [| n obj_lst IH]; intros rep_lst st body.
  - simpl. rewrite app_nil_r. reflexivity.
  - subst body. rewrite exec_for_loop_cons, exec_bind.
    pose proof (exec_find_obj_by_name_find w address c_database n
                  GetReferences.PyFalse st objs (Hw _)) as Hfind.
    destruct (exec w (GetReferences.find_obj_by_name (Some address) c_database n
                        GetReferences.PyFalse) st) as [r st1].
    simpl in Hfind. subst r. cbn [mapM mbind option_bind].
    destruct (find (fun o => String.eqb (name o) n) objs) as [obj |]; simpl;
      [| eauto].
    specialize (IH (rep_lst ++ [reference obj]) st1). simpl in IH.
    destruct (mapM _ obj_lst) as [refs |]; simpl.
    + rewrite IH, <- app_assoc. reflexivity.
    + exact IH.
Qed.

(** [find_obj_specs] is all or nothing, and keeps the order: when every
    name of [obj_lst] is the name of a database of the engine, it returns
    the references of the first database of each name, in the order of
    the names; when one name is not, it raises [DlpxException] and returns
    no reference at all. *)
Theorem find_obj_specs_all_or_nothing (w : oracle) (address : string) (objs : list Obj)
    (obj_lst : list string) (st : tstate) :
  (forall n, w n _ (Get_all (Some address) c_database None) = Ok objs) ->
  let r := (exec w (GetReferences.find_obj_specs (Some address) obj_lst) st).1 in
  match mapM (fun n => reference <$> find (fun o => String.eqb (name o) n) objs) obj_lst with
  | Some refs => r = Returned refs
  | None => exists msg, r = Raised (DlpxException msg)
  end.
Proof.
  intros Hw r. subst r.
  exact (exec_find_obj_specs_loop w address objs obj_lst Hw [] st).
Qed.

Lemma find_obj_specs_all_or_nothing_witness :
  (forall n, Scenario.world_ok n _ (Get_all (Some "10.0.0.1") c_database None)
             = Ok Scenario.catalog) /\
  (exec Scenario.world_ok
     (GetReferences.find_obj_specs (Some "10.0.0.1") ["t1"; "db1"; "other"]) Scenario.fresh).1
  = Returned ["TEMPLATE-1"; "DB-1"; "OBJ-0"] /\
  exists msg,
    (exec Scenario.world_ok
       (GetReferences.find_obj_specs (Some "10.0.0.1") ["t1"; "missing"; "db1"])
       Scenario.fresh).1
    = Raised (DlpxException msg).
Proof.
  assert (Hw : forall n, Scenario.world_ok n _ (Get_all (Some "10.0.0.1") c_database None)
                         = Ok Scenario.catalog) by reflexivity.
  split; [exact Hw |]. split.
  - exact (find_obj_specs_all_or_nothing Scenario.world_ok "10.0.0.1" Scenario.catalog
             ["t1"; "db1"; "other"] Scenario.fresh Hw).
  - exact (find_obj_specs_all_or_nothing Scenario.world_ok "10.0.0.1" Scenario.catalog
             ["t1"; "missing"; "db1"] Scenario.fresh Hw).
Defined.

(** ** The workers' loops *)

Lemma exec_bind_returned_inv {A B} (w : oracle) (m : Py weff A) (f : A -> Py weff B)
    (st : tstate) (b : B) :
  (exec w (bind m f) st).1 = Returned b ->
  exists a st1,
    exec w m st = (Returned a, st1) /\ exec w (bind m f) st = exec w (f a) st1.
Proof.
  rewrite exec_bind. destruct (exec w m st) as [[a | e |] st1]; try discriminate.
  intros _. eauto.
Qed.

Ltac while_loop_returns IH :=
  match goal with
  | |- (exec ?w (bind (call Jobs_len) ?k) ?st).1 = Returned _ -> _ =>
      rewrite (exec_bind_returned _ _ _ _ _ _ (exec_jobs_len w st));
      destruct (0 <? size (jobs (session st)))%nat eqn:Hsize;
      cbn [orb];
      [ idtac
      | destruct (0 <? length _)%nat;
        [ idtac
        | intros _; cbn [exec snd session];
          apply map_size_empty_inv; apply Nat.ltb_ge in Hsize; lia ] ]
  end.

Lemma js_container_while_loop_returns (w : oracle) (arguments : js_container.Arguments)
    (fuel : nat) (engine : Engine) (thingstodo : list string) (st : tstate) :
  (exec w (js_container.while_loop arguments fuel engine thingstodo) st).1 = Returned tt ->
  jobs (session (exec w (js_container.while_loop arguments fuel engine thingstodo) st).2) = ∅.
Proof.
  revert thingstodo st. induction fuel as [| fuel IH]; intros thingstodo st;
    cbn [js_container.while_loop]; while_loop_returns IH; try discriminate;
    (intros Hr; apply exec_bind_returned_inv in Hr as Hr1;
     destruct Hr1 as (things & st1 & _ & Heq); rewrite Heq in Hr |- *;
     apply exec_bind_returned_inv in Hr as Hr2;
     destruct Hr2 as ([] & st2 & _ & Heq2); rewrite Heq2 in Hr |- *;
     apply IH; exact Hr).
Qed.

Lemma dx_environment_while_loop_returns (w : oracle)
    (arguments : dx_environment.Arguments) (fuel : nat) (engine : Engine)
    (thingstodo : list string) (st : tstate) :
  (exec w (dx_environment.while_loop arguments fuel engine thingstodo) st).1 = Returned tt ->
  jobs (session (exec w (dx_environment.while_loop arguments fuel engine thingstodo) st).2)
  = ∅.
Proof.
  revert thingstodo st. induction fuel as [| fuel IH]; intros thingstodo st;
    cbn [dx_environment.while_loop]; while_loop_returns IH; try discriminate;
    (intros Hr; apply exec_bind_returned_inv in Hr as Hr1;
     destruct Hr1 as (things & st1 & _ & Heq); rewrite Heq in Hr |- *;
     apply exec_bind_returned_inv in Hr as Hr2;
     destruct Hr2 as ([] & st2 & _ & Heq2); rewrite Heq2 in Hr |- *;
     apply IH; exact Hr).
Qed.

Lemma dx_jobs_while_loop_returns (w : oracle) (arguments : dx_jobs.Arguments)
    (fuel : nat) (engine : Engine) (thingstodo : list string) (st : tstate) :
  (exec w (dx_jobs.while_loop arguments fuel engine thingstodo) st).1 = Returned tt ->
  jobs (session (exec w (dx_jobs.while_loop arguments fuel engine thingstodo) st).2) = ∅.
Proof.
  revert thingstodo st. induction fuel as [| fuel IH]; intros thingstodo st;
    cbn [dx_jobs.while_loop]; while_loop_returns IH; try discriminate;
    (intros Hr; apply exec_bind_returned_inv in Hr as Hr1;
     destruct Hr1 as (things & st1 & _ & Heq); rewrite Heq in Hr |- *;
     apply exec_bind_returned_inv in Hr as Hr2;
     destruct Hr2 as ([] & st2 & _ & Heq2); rewrite Heq2 in Hr |- *;
     apply IH; exact Hr).
Qed.

(** A worker that comes to its end without an exception has no job left
    to wait for: in js_container.py, dx_environment.py and dx_jobs.py,
    when [main_workflow] returns, the tracker is empty.  (The loop ends
    on [len(dx_session_obj.jobs) > 0] being false, and every handler of
    these workers ends in an exception.) *)
Theorem worker_returns_with_empty_tracker (w : oracle) (fuel : nat)
    (engine : option Engine) (st : tstate) :
  (forall (arguments : js_container.Arguments) (cfg : Config),
      let run := exec w (js_container.main_workflow arguments fuel cfg engine) st in
      run.1 = Returned tt -> jobs (session run.2) = ∅) /\
  (forall (arguments : dx_environment.Arguments),
      let run := exec w (dx_environment.main_workflow arguments fuel engine) st in
      run.1 = Returned tt -> jobs (session run.2) = ∅) /\
  (forall (arguments : dx_jobs.Arguments),
      let run := exec w (dx_jobs.main_workflow arguments fuel engine) st in
      run.1 = Returned tt -> jobs (session run.2) = ∅).
Proof.
  split; [| split].
  - intros arguments cfg run Hr. subst run. unfold js_container.main_workflow in *.
    apply exec_bind_returned_inv in Hr as Hr1.
    destruct Hr1 as ([] & st1 & _ & Heq). rewrite Heq in Hr |- *.
    destruct engine as [eng |]; [| discriminate]. cbn [engine_item bind] in *.
    rewrite exec_try_except in Hr |- *.
    pose proof (js_container_while_loop_returns w arguments fuel eng ["thingtodo"] st1)
      as Hloop.
    destruct (exec w (js_container.while_loop arguments fuel eng ["thingtodo"]) st1)
      as [[[] | e |] st2]; [auto | | discriminate].
    unfold except in *. handler_cases; [| discriminate]. discriminate.
  - intros arguments run Hr. subst run. unfold dx_environment.main_workflow in *.
    apply exec_bind_returned_inv in Hr as Hr1.
    destruct Hr1 as ([] & st1 & _ & Heq). rewrite Heq in Hr |- *.
    destruct engine as [eng |]; [| discriminate]. cbn [engine_item bind] in *.
    rewrite exec_try_except in Hr |- *.
    pose proof (dx_environment_while_loop_returns w arguments fuel eng ["thingtodo"] st1)
      as Hloop.
    destruct (exec w (dx_environment.while_loop arguments fuel eng ["thingtodo"]) st1)
      as [[[] | e |] st2]; [auto | | discriminate].
    unfold except in *. handler_cases; [| discriminate]. discriminate.
  - intros arguments run Hr. subst run. unfold dx_jobs.main_workflow in *.
    apply exec_bind_returned_inv in Hr as Hr1.
    destruct Hr1 as ([] & st1 & _ & Heq). rewrite Heq in Hr |- *.
    destruct engine as [eng |]; [| discriminate]. cbn [engine_item bind] in *.
    apply dx_jobs_while_loop_returns. exact Hr.
Qed.

Lemma worker_returns_with_empty_tracker_witness :
  let run :=
    exec (Scenario.world_completing 5)
      (dx_environment.main_workflow (ScenarioArgs.env_refresh None false) 100
         (Some Scenario.engine1))
      Scenario.fresh in
  run.1 = Returned tt /\
  sleeps (trace run.2) = ["10"] /\
  jobs (session run.2) = ∅.
Proof.
  intros run.
  assert (Hr : run.1 = Returned tt) by (vm_compute; reflexivity).
  split; [exact Hr |]. split; [vm_compute; reflexivity |].
  exact (proj1 (proj2 (worker_returns_with_empty_tracker (Scenario.world_completing 5) 100
                         (Some Scenario.engine1) Scenario.fresh))
           (ScenarioArgs.env_refresh None false) Hr).
Defined.

(** *** js_container.py tracks no job *)

Lemma invariant_idle (w : oracle) (os : list obs) {A} (p : Py weff A) :
  all_ops (@idle_op) p ->
  invariant w (fun st => jobs (session st) = ∅ /\ observations (trace st) = os) p.
Proof.
  intros Hp st. revert st Hp. induction p as [a | e | | R o k IH]; intros st Hp HI;
    try exact HI.
  destruct Hp as [Ho Hk]. simpl. destruct (perform w o st) as [r st1] eqn:Hperf.
  apply (IH r st1 (Hk r)).
  pose proof (perform_trace w o st) as Ht. rewrite Hperf in Ht. simpl in Ht.
  destruct HI as [Hj Hobs]. rewrite Ht, observations_app, Hobs.
  destruct o; simpl in Ho; try contradiction; simpl in Hperf.
  - destruct (w (calls st) unit (Connect ip user pw)); injection Hperf as <- <-;
      simpl; rewrite app_nil_r; auto.
  - injection Hperf as <- <-. simpl. rewrite app_nil_r. auto.
  - injection Hperf as <- <-. simpl. rewrite app_nil_r. auto.
  - injection Hperf as <- <-. simpl. rewrite app_nil_r. auto.
  - injection Hperf as <- <-. destruct c; try contradiction; simpl; rewrite app_nil_r; auto.
  - injection Hperf as <- <-. simpl. rewrite app_nil_r. auto.
Qed.

Lemma submission_op_idle {R} (o : weff R) : submission_op o -> idle_op o.
Proof. destruct o; simpl; auto. Qed.

Lemma js_container_poll_cycle_idle (w : oracle) (os : list obs)
    (arguments : js_container.Arguments) (engine : Engine) :
  invariant w (fun st => jobs (session st) = ∅ /\ observations (trace st) = os)
    (js_container.poll_cycle arguments engine).
Proof.
  intros st [Hj Hobs]. unfold js_container.poll_cycle.
  rewrite (exec_bind_returned _ _ _ _ _ _ (exec_jobs_keys w st)), Hj, map_to_list_empty.
  simpl. rewrite observations_app, Hobs. simpl. rewrite app_nil_r. auto.
Qed.

Lemma js_container_while_loop_idle (w : oracle) (os : list obs)
    (arguments : js_container.Arguments) (fuel : nat) (engine : Engine)
    (thingstodo : list string) :
  invariant w (fun st => jobs (session st) = ∅ /\ observations (trace st) = os)
    (js_container.while_loop arguments fuel engine thingstodo).
Proof.
  revert thingstodo. induction fuel as [| fuel IH]; intros thingstodo;
    cbn [js_container.while_loop];
    (apply invariant_bind; [apply invariant_idle; simpl; auto |]); intros n;
    (destruct ((0 <? n)%nat || (0 <? length thingstodo)%nat); [| apply invariant_ret]).
  - apply invariant_out_of_fuel.
  - apply invariant_bind.
    + destruct (0 <? length thingstodo)%nat; [| apply invariant_ret].
      apply invariant_bind; [| intros; apply invariant_ret].
      apply invariant_idle. apply js_container_thing_to_do_ops.
      intros R o. apply submission_op_idle.
    + intros thingstodo'. apply invariant_bind; [| intros; apply IH].
      apply js_container_poll_cycle_idle.
Qed.

(** No operation of js_container.py puts a job into the tracker, so its
    polling loop has nothing to poll: a worker that starts with an empty
    tracker keeps it empty, and neither asks for a job's status nor sleeps,
    whatever operation was asked for and whatever the engine answers. *)
Theorem js_container_tracks_no_job (w : oracle) (arguments : js_container.Arguments)
    (fuel : nat) (cfg : Config) (engine : option Engine) (st : tstate) :
  jobs (session st) = ∅ ->
  let run := exec w (js_container.main_workflow arguments fuel cfg engine) st in
  jobs (session run.2) = ∅ /\ observations (trace run.2) = observations (trace st).
Proof.
  intros Hj run. subst run.
  assert (Hinv : invariant w (fun st' => jobs (session st') = ∅ /\
                                         observations (trace st') = observations (trace st))
                   (js_container.main_workflow arguments fuel cfg engine));
    [| exact (Hinv st (conj Hj eq_refl))].
  unfold js_container.main_workflow. apply invariant_bind.
  - apply invariant_idle. unfold engine_item, serversess, dict_getitem, except. ops_brute.
  - intros _. apply invariant_try_except.
    + destruct engine as [eng |]; [| apply invariant_raise].
      apply js_container_while_loop_idle.
    + intros e q. apply invariant_except. intros e'.
      apply invariant_idle. unfold engine_item. ops_brute.
Qed.

Lemma js_container_tracks_no_job_witness :
  let run :=
    exec Scenario.world_running
      (js_container.main_workflow (ScenarioArgs.js_create None false) 100
         Scenario.two_engines (Some Scenario.engine1))
      Scenario.fresh in
  jobs (session Scenario.fresh) = ∅ /\
  run.1 = Returned tt /\ jobs (session run.2) = ∅ /\ observations (trace run.2) = [].
Proof.
  intros run. split; [reflexivity |]. split; [vm_compute; reflexivity |].
  exact (js_container_tracks_no_job Scenario.world_running
           (ScenarioArgs.js_create None false) 100 Scenario.two_engines
           (Some Scenario.engine1) Scenario.fresh eq_refl).
Defined.

(** *** dx_environment.py tracks its job under the engine's host name *)

Lemma exec_tracks_under (w : oracle) (h : string) {A} (p : Py weff A) (st : tstate) :
  all_ops (@tracks_under h) p ->
  forall k v,
    k <> h ->
    jobs (session (exec w p st).2) !! k = Some v -> jobs (session st) !! k = Some v.
Proof.
  revert st. induction p as [a | e | | R o k' IH]; intros st Hp k v Hk; simpl; auto.
  destruct Hp as [Ho Hrest]. destruct (perform w o st) as [r st1] eqn:Hperf.
  intros Hlook. apply (IH r st1 (Hrest r) k v Hk) in Hlook.
  destruct o; simpl in Ho, Hperf.
  - destruct (w (calls st) unit (Connect ip user pw)); injection Hperf as <- <-; exact Hlook.
  - injection Hperf as <- <-. exact Hlook.
  - injection Hperf as <- <-. exact Hlook.
  - injection Hperf as <- <-. exact Hlook.
  - injection Hperf as <- <-. exact Hlook.
  - injection Hperf as <- <-. simpl in Hlook. subst k0.
    rewrite lookup_insert_ne in Hlook by congruence. exact Hlook.
  - injection Hperf as <- <-. simpl in Hlook.
    apply lookup_delete_Some in Hlook as [_ Hlook]. exact Hlook.
  - injection Hperf as <- <-. exact Hlook.
  - injection Hperf as <- <-. exact Hlook.
  - injection Hperf as <- <-. exact Hlook.
Qed.

Lemma dx_environment_thing_to_do_tracks (arguments : dx_environment.Arguments)
    (engine : Engine) :
  all_ops (@tracks_under (hostname engine)) (dx_environment.thing_to_do arguments engine).
Proof.
  assert (Hsub : forall R (o : weff R), submission_op o -> tracks_under (hostname engine) o)
    by (intros R o; destruct o; simpl; tauto).
  assert (Htrack : all_ops (@tracks_under (hostname engine))
                     (dx_environment.track_last_job engine)).
  { unfold dx_environment.track_last_job. submission Hsub.
    split; [reflexivity | intros; exact I]. }
  unfold dx_environment.thing_to_do, dx_environment.create_linux_env,
    dx_environment.create_windows_env, dx_environment.delete_env,
    dx_environment.refresh_env, dx_environment.update_ase_pw,
    dx_environment.update_ase_username, dx_environment.list_env.
  repeat first
    [ exact Htrack
    | submission_step Hsub
    | match goal with
      | H : (if ?b then _ else _) = Some _ |- _ => destruct b
      | H : Some _ = Some _ |- _ => injection H as <-
      | H : None = Some _ |- _ => discriminate H
      end ].
Qed.

Lemma dx_environment_while_loop_tracks (arguments : dx_environment.Arguments) (fuel : nat)
    (engine : Engine) (thingstodo : list string) :
  all_ops (@tracks_under (hostname engine))
    (dx_environment.while_loop arguments fuel engine thingstodo).
Proof.
  revert thingstodo. induction fuel as [| fuel IH]; intros thingstodo;
    cbn [dx_environment.while_loop];
    (apply all_ops_bind; [simpl; auto |]); intros n;
    (destruct ((0 <? n)%nat || (0 <? length thingstodo)%nat); [| exact I]);
    [exact I |].
  apply all_ops_bind.
  - destruct (0 <? length thingstodo)%nat; [| exact I].
    apply all_ops_bind; [| intros; exact I]. apply dx_environment_thing_to_do_tracks.
  - intros thingstodo'. apply all_ops_bind; [| intros; apply IH].
    unfold dx_environment.poll_cycle. apply all_ops_bind; [simpl; auto |].
    intros keys. apply all_ops_bind.
    + apply all_ops_for_loop. intros j i. unfold dx_environment.poll_job. ops_brute.
    + intros i. ops_brute.
Qed.

(** The only key under which a worker of dx_environment.py ever puts a
    job into the tracker is the host name of its engine: any other key
    found in the tracker after the worker has run was there before, with
    the same job.  (So each operation of the worker replaces the job the
    previous one tracked, and a worker that starts on an empty tracker
    never waits for more than one job.) *)
Theorem dx_environment_tracks_under_hostname (w : oracle)
    (arguments : dx_environment.Arguments) (fuel : nat) (engine : Engine) (st : tstate)
    (k : string) (v : job_ref) :
  k <> hostname engine ->
  jobs (session (exec w (dx_environment.main_workflow arguments fuel (Some engine)) st).2)
    !! k = Some v ->
  jobs (session st) !! k = Some v.
Proof.
  apply exec_tracks_under. unfold dx_environment.main_workflow.
  apply all_ops_bind.
  - unfold engine_item, serversess, except. ops_brute.
  - intros _. apply all_ops_try_except.
    + apply dx_environment_while_loop_tracks.
    + intros e q. apply all_ops_except. intros e'. ops_brute.
Qed.

Lemma dx_environment_tracks_under_hostname_witness :
  let run :=
    exec Scenario.world_poll_unreachable
      (dx_environment.main_workflow (ScenarioArgs.env_refresh None false) 100
         (Some Scenario.engine1))
      (Scenario.tracking [("e2", Some "JOB-2")]) in
  "e2" <> hostname Scenario.engine1 /\
  jobs (session run.2) !! "e1" = Some (Some "JOB-1") /\
  jobs (session run.2) !! "e2" = Some (Some "JOB-2") /\
  jobs (session (Scenario.tracking [("e2", Some "JOB-2")])) !! "e2" = Some (Some "JOB-2").
Proof.
  intros run.
  assert (Hne : "e2" <> hostname Scenario.engine1) by discriminate.
  assert (H2 : jobs (session run.2) !! "e2" = Some (Some "JOB-2"))
    by (vm_compute; reflexivity).
  split; [exact Hne |]. split; [vm_compute; reflexivity |]. split; [exact H2 |].
  exact (dx_environment_tracks_under_hostname Scenario.world_poll_unreachable
           (ScenarioArgs.env_refresh None false) 100 Scenario.engine1
           (Scenario.tracking [("e2", Some "JOB-2")]) "e2" (Some "JOB-2") Hne H2).
Defined.

(** *** A polling cycle over jobs that have all ended *)

Section ended_loop.
Variable w : oracle.
Variable body : string -> nat -> Py weff (ctl * nat).
Hypothesis body_ended :
  forall j i st,
    is_Some (jobs (session st) !! j) ->
    exists i' st',
      exec w (body j i) st = (Returned (Next, i'), st') /\
      jobs (session st') = delete j (jobs (session st)).

Lemma for_loop_ended (keys : list string) :
  NoDup keys ->
  forall (i : nat) (st : tstate),
    Forall (fun k => is_Some (jobs (session st) !! k)) keys ->
    exists i' st',
      exec w (for_loop keys i body) st = (Returned i', st') /\
      forall k, jobs (session st') !! k =
                if decide (k ∈ keys) then None else jobs (session st) !! k.
Proof.
  induction keys as [| j keys IH]; intros Hnd i st Hkeys.
  - exists i, st. split; [reflexivity |]. intros k.
    destruct (decide (k ∈ [])) as [Hin | _]; [| reflexivity].
    apply elem_of_nil in Hin. contradiction.
  - apply NoDup_cons in Hnd as [Hj Hnd]. apply Forall_cons in Hkeys as [Hjs Hkeys].
    destruct (body_ended j i st Hjs) as (i1 & st1 & Hrun & Hjobs).
    destruct (IH Hnd i1 st1) as (i' & st' & Hrun' & Hjobs').
    { rewrite Hjobs. apply Forall_forall. intros k Hk.
      rewrite lookup_delete_ne by (intros ->; contradiction).
      rewrite Forall_forall in Hkeys. apply Hkeys, Hk. }
    exists i', st'. rewrite exec_for_loop_cons, Hrun. split; [exact Hrun' |].
    intros k. rewrite Hjobs', Hjobs.
    destruct (decide (k ∈ keys)) as [Hin | Hnin].
    + rewrite decide_True by (apply list_elem_of_further; exact Hin). reflexivity.
    + destruct (decide (k = j)) as [-> | Hne].
      * rewrite decide_True by apply list_elem_of_here. apply lookup_delete_eq.
      * rewrite decide_False by (intros Hin; apply elem_of_cons in Hin as [? | ?]; auto).
        apply lookup_delete_ne. congruence.
Qed.

Lemma for_loop_all_keys_ended (i : nat) (st : tstate) :
  exists i' st',
    exec w (for_loop (map_to_list (jobs (session st))).*1 i body) st = (Returned i', st') /\
    jobs (session st') = ∅.
Proof.
  destruct (for_loop_ended (map_to_list (jobs (session st))).*1
              (NoDup_fst_map_to_list _) i st) as (i' & st' & Hrun & Hjobs).
  { apply Forall_forall. intros k Hk. apply list_elem_of_fmap in Hk as [[k' ref] [-> Hk]].
    apply elem_of_map_to_list in Hk. simpl. rewrite Hk. eauto. }
  exists i', st'. split; [exact Hrun |]. apply map_empty. intros k. rewrite Hjobs.
  destruct (decide (k ∈ (map_to_list (jobs (session st))).*1)) as [_ | Hnin];
    [reflexivity |].
  destruct (jobs (session st) !! k) as [ref |] eqn:Hk; [| reflexivity].
  exfalso. apply Hnin. apply list_elem_of_fmap. exists (k, ref).
  split; [reflexivity |]. apply elem_of_map_to_list. exact Hk.
Qed.

End ended_loop.

Lemma dx_environment_poll_job_ended (w : oracle) (engine : Engine) (j : string) (i : nat)
    (st : tstate) :
  jobs_all_ended w ->
  is_Some (jobs (session st) !! j) ->
  exists i' st',
    exec w (dx_environment.poll_job engine j i) st = (Returned (Next, i'), st') /\
    jobs (session st') = delete j (jobs (session st)).
Proof.
  intros Hw [ref Hj]. unfold dx_environment.poll_job. poll_job_step.
  rewrite Hj. poll_job_step.
  destruct (Hw (calls st) (server_session (session st)) ref) as (jb & -> & Hjb).
  poll_job_step. unfold is_terminal in Hjb. rewrite Hjb. poll_job_step.
  rewrite Hj. poll_job_step. eauto.
Qed.

Lemma dx_jobs_poll_job_ended (w : oracle) (engine : Engine) (j : string) (i : nat)
    (st : tstate) :
  jobs_all_ended w ->
  is_Some (jobs (session st) !! j) ->
  exists i' st',
    exec w (dx_jobs.poll_job engine j i) st = (Returned (Next, i'), st') /\
    jobs (session st') = delete j (jobs (session st)).
Proof.
  intros Hw [ref Hj]. unfold dx_jobs.poll_job. poll_job_step.
  rewrite Hj. poll_job_step.
  destruct (Hw (calls st) (server_session (session st)) ref) as (jb & -> & Hjb).
  poll_job_step. unfold is_terminal in Hjb. rewrite Hjb. poll_job_step.
  rewrite Hj. poll_job_step. eauto.
Qed.

(** A worker that polls alone ([exec]: no other thread changes the tracker
    during the cycle, as in a run against one engine).  When all the
    tracked jobs have ended, one polling cycle of dx_environment.py or
    dx_jobs.py retires every one of them: the cycle comes to its end, the
    tracker is empty after it, and the worker does not sleep, however many
    jobs were tracked. *)
Theorem poll_cycle_retires_all_ended_jobs (w : oracle) (engine : Engine) (st : tstate) :
  jobs_all_ended w ->
  (forall (arguments : dx_environment.Arguments),
      let run := exec w (dx_environment.poll_cycle arguments engine) st in
      run.1 = Returned tt /\ jobs (session run.2) = ∅ /\ sleeps (new_events st run.2) = []) /\
  (forall (arguments : dx_jobs.Arguments),
      let run := exec w (dx_jobs.poll_cycle arguments engine) st in
      run.1 = Returned tt /\ jobs (session run.2) = ∅ /\ sleeps (new_events st run.2) = []).
Proof.
  intros Hw. split; intros arguments run.
  - assert (Hrun : run.1 = Returned tt /\ jobs (session run.2) = ∅).
    { subst run. unfold dx_environment.poll_cycle.
      rewrite (exec_bind_returned _ _ _ _ _ _ (exec_jobs_keys w st)).
      match goal with
      | |- context [for_loop ?keys0 ?i0 ?body0] =>
          destruct (for_loop_all_keys_ended w body0
                      (fun j1 i1 st1 => dx_environment_poll_job_ended w engine j1 i1 st1 Hw) i0
                      {| session := session st; calls := calls st;
                         trace := trace st ++ [Ev Jobs_keys keys0] |})
            as (i' & st' & Hloop & Hjobs)
      end.
      simpl session in Hloop. rewrite (exec_bind_returned _ _ _ _ _ _ Hloop).
      cbn -[size]. rewrite Hjobs, map_size_empty. simpl. auto. }
    destruct Hrun as [Hr Hjobs]. split; [exact Hr |]. split; [exact Hjobs |].
    pose proof (dx_environment_poll_cycle_sleeps_once w arguments engine st Hr) as Hs.
    fold run in Hs. rewrite Hjobs, map_size_empty in Hs. exact Hs.
  - assert (Hrun : run.1 = Returned tt /\ jobs (session run.2) = ∅).
    { subst run. unfold dx_jobs.poll_cycle.
      rewrite (exec_bind_returned _ _ _ _ _ _ (exec_jobs_keys w st)).
      match goal with
      | |- context [for_loop ?keys0 ?i0 ?body0] =>
          destruct (for_loop_all_keys_ended w body0
                      (fun j1 i1 st1 => dx_jobs_poll_job_ended w engine j1 i1 st1 Hw) i0
                      {| session := session st; calls := calls st;
                         trace := trace st ++ [Ev Jobs_keys keys0] |})
            as (i' & st' & Hloop & Hjobs)
      end.
      simpl session in Hloop. rewrite (exec_bind_returned _ _ _ _ _ _ Hloop).
      cbn -[size]. rewrite Hjobs, map_size_empty. simpl. auto. }
    destruct Hrun as [Hr Hjobs]. split; [exact Hr |]. split; [exact Hjobs |].
    pose proof (dx_jobs_poll_cycle_sleeps_once w arguments engine st Hr) as Hs.
    fold run in Hs. rewrite Hjobs, map_size_empty in Hs. exact Hs.
Qed.

Lemma poll_cycle_retires_all_ended_jobs_witness :
  let st := Scenario.tracking [("e1", Some "JOB-1"); ("e2", Some "JOB-2"); ("e3", None)] in
  let run :=
    exec Scenario.world_ok
      (dx_environment.poll_cycle (ScenarioArgs.env_refresh None false) Scenario.engine1) st in
  jobs_all_ended Scenario.world_ok /\
  size (jobs (session st)) = 3 /\
  run.1 = Returned tt /\ jobs (session run.2) = ∅ /\ sleeps (new_events st run.2) = [].
Proof.
  intros st run.
  assert (Hw : jobs_all_ended Scenario.world_ok).
  { intros n s ref. exists (Scenario.job "COMPLETED"). split; reflexivity. }
  split; [exact Hw |]. split; [vm_compute; reflexivity |].
  exact (proj1 (poll_cycle_retires_all_ended_jobs Scenario.world_ok Scenario.engine1 st Hw)
           (ScenarioArgs.env_refresh None false)).
Defined.

(** In dx_environment.py and in dx_jobs.py the [sleep] follows the pass
    over the tracked jobs: a polling cycle that comes to its end has slept
    exactly once, for [--poll] seconds, when jobs are still tracked after
    the pass, and not at all when none is; the interval is 10 when [--poll]
    is not given. *)
Theorem poll_cycle_sleeps_once_after_the_pass (w : oracle) (engine : Engine) (st : tstate) :
  (forall (arguments : dx_environment.Arguments),
      let run := exec w (dx_environment.poll_cycle arguments engine) st in
      run.1 = Returned tt ->
      sleeps (new_events st run.2) =
        if (0 <? size (jobs (session run.2)))%nat
        then [dx_environment.opt_poll arguments] else []) /\
  (forall (arguments : dx_jobs.Arguments),
      let run := exec w (dx_jobs.poll_cycle arguments engine) st in
      run.1 = Returned tt ->
      sleeps (new_events st run.2) =
        if (0 <? size (jobs (session run.2)))%nat
        then [dx_jobs.opt_poll arguments] else []) /\
  dx_environment.docopt_poll None = "10" /\ dx_jobs.docopt_poll None = "10".
Proof.
  split; [| split; [| split; reflexivity]].
  - intros arguments. apply dx_environment_poll_cycle_sleeps_once.
  - intros arguments. apply dx_jobs_poll_cycle_sleeps_once.
Qed.

Lemma poll_cycle_sleeps_once_after_the_pass_witness :
  let st := Scenario.tracking [("e1", Some "JOB-1"); ("e2", Some "JOB-2")] in
  let run :=
    exec Scenario.world_running
      (dx_jobs.poll_cycle (ScenarioArgs.jobs_list None false) Scenario.engine1) st in
  run.1 = Returned tt /\ size (jobs (session run.2)) = 2 /\
  sleeps (new_events st run.2) = ["10"].
Proof.
  intros st run.
  assert (Hr : run.1 = Returned tt) by (vm_compute; reflexivity).
  split; [exact Hr |]. split; [vm_compute; reflexivity |].
  pose proof (proj1 (proj2 (poll_cycle_sleeps_once_after_the_pass Scenario.world_running
                              Scenario.engine1 st))
                (ScenarioArgs.jobs_list None false) Hr) as Hs.
  fold run in Hs. rewrite Hs. vm_compute. reflexivity.
Defined.

(** ** v1_8_0/dx_jobs.py: the listing *)

(** [list_jobs] with [--state]: the state is put in upper case and has to
    begin with one of the five state names.  When it does not, [list_jobs]
    prints the five names and ends in [sys.exit(1)] without a call to the
    engine; when it does, the engine is asked for the jobs of that state in
    upper case, whatever follows the name in it. *)
Theorem dx_jobs_list_jobs_checks_the_state (w : oracle) (arguments : dx_jobs.Arguments)
    (st : tstate) :
  truthy (dx_jobs.opt_state arguments) = true ->
  let state := str_upper (arg (dx_jobs.opt_state arguments)) in
  let run := exec w (dx_jobs.list_jobs arguments) st in
  (dx_jobs.match_state state = false ->
   run.1 = Raised (SystemExit 1) /\ calls run.2 = calls st /\
   new_events st run.2 =
     [Ev (Print Info
            "The state should be one of these options: RUNNING, SUSPENDED, CANCELED, COMPLETED, FAILED"
            []) tt]) /\
  (dx_jobs.match_state state = true ->
   exists rest,
     new_events st run.2 =
       [Ev Server_session (server_session (session st));
        Ev (Remote (Job_get_all (server_session (session st)) (Some state)))
           (w (calls st) _ (Job_get_all (server_session (session st)) (Some state)))]
       ++ rest).
Proof.
  intros Hstate state run. subst run. unfold dx_jobs.list_jobs. rewrite Hstate.
  fold state. split; intros Hmatch; rewrite Hmatch.
  - simpl. split; [reflexivity |]. split; [reflexivity |].
    apply new_events_app. reflexivity.
  - cbn [bind call]. cbn [exec perform answer fst snd]. rewrite exec_bind, exec_remote_call.
    cbn [calls session trace].
    destruct (w (calls st) (list Job)
                (Job_get_all (server_session (session st)) (Some state))) as [infos | e].
    + match goal with
      | |- context [exec w ?p ?s] =>
          destruct (exec_trace w p s) as [evs Hevs]; exists evs;
          apply new_events_app; rewrite Hevs
      end.
      simpl. rewrite <- !app_assoc. reflexivity.
    + exists []. apply new_events_app. simpl. rewrite <- !app_assoc. reflexivity.
Qed.

Lemma dx_jobs_list_jobs_checks_the_state_witness :
  let args (state : string) : dx_jobs.Arguments :=
    {| dx_jobs.opt_list := true; dx_jobs.opt_title := None;
       dx_jobs.opt_state := Some state; dx_jobs.opt_engine := None;
       dx_jobs.opt_all := false; dx_jobs.opt_poll := "10";
       dx_jobs.opt_config := "./dxtools.conf" |} in
  dx_jobs.match_state (str_upper "done") = false /\
  (exec Scenario.world_ok (dx_jobs.list_jobs (args "done")) Scenario.fresh).1
    = Raised (SystemExit 1) /\
  dx_jobs.match_state (str_upper "failed-yesterday") = true /\
  exists rest,
    new_events Scenario.fresh
      (exec Scenario.world_ok (dx_jobs.list_jobs (args "failed-yesterday")) Scenario.fresh).2
    = [Ev Server_session None;
       Ev (Remote (Job_get_all None (Some "FAILED-YESTERDAY"))) (Ok [])] ++ rest.
Proof.
  intros args. split; [reflexivity |]. split; [| split; [reflexivity |]].
  - exact (proj1 (proj1 (dx_jobs_list_jobs_checks_the_state Scenario.world_ok (args "done")
                           Scenario.fresh eq_refl) eq_refl)).
  - exact (proj2 (dx_jobs_list_jobs_checks_the_state Scenario.world_ok
                    (args "failed-yesterday") Scenario.fresh eq_refl) eq_refl).
Defined.

(** ** The coordinators: which workers are started *)

(** With [--all], [run_job] of js_container.py starts one worker for
    every engine of the configuration, in the order of the configuration
    and each on its own engine, and joins every one of them, in the order
    in which they were started, before it returns. *)
Theorem js_container_all_starts_one_worker_per_engine (w : nat -> oracle)
    (worker : option Engine -> Py weff unit) (arguments : js_container.Arguments)
    (cfg : Config) (config_file_path : string) :
  js_container.opt_all arguments = true ->
  NoDup cfg.*1 ->
  let run :=
    run_main w worker (js_container.run_job arguments cfg config_file_path) process_start in
  run.1 = Returned tt /\
  started_on run.2 = map (fun ke => Some ke.2) cfg /\
  joined run.2 = seq 0 (length cfg).
Proof.
  intros Hall Hnd run. subst run.
  destruct (js_container_run_job_all w worker arguments cfg config_file_path Hall Hnd)
    as (st' & -> & Hs & Hj).
  auto.
Qed.

Lemma js_container_all_starts_one_worker_per_engine_witness :
  let run :=
    run_main (fun _ => Scenario.world_ok)
      (js_container.main_workflow (ScenarioArgs.js_create None true) 10 Scenario.two_engines)
      (js_container.run_job (ScenarioArgs.js_create None true) Scenario.two_engines
         "./dxtools.conf")
      process_start in
  js_container.opt_all (ScenarioArgs.js_create None true) = true /\
  NoDup Scenario.two_engines.*1 /\
  run.1 = Returned tt /\
  started_on run.2 = [Some Scenario.engine1; Some Scenario.engine2] /\
  joined run.2 = [0; 1].
Proof.
  intros run.
  assert (Hnd : NoDup Scenario.two_engines.*1).
  { repeat constructor; rewrite ?elem_of_cons, ?elem_of_nil; intuition discriminate. }
  split; [reflexivity |]. split; [exact Hnd |].
  exact (js_container_all_starts_one_worker_per_engine (fun _ => Scenario.world_ok)
           (js_container.main_workflow (ScenarioArgs.js_create None true) 10
              Scenario.two_engines)
           (ScenarioArgs.js_create None true) Scenario.two_engines "./dxtools.conf"
           eq_refl Hnd).
Defined.

Lemma truthy_Some (s : string) : s <> "" -> truthy (Some s) = true.
Proof. intros Hs. simpl. destruct (String.eqb_spec s ""); [contradiction | reflexivity]. Qed.

(** With [--engine <name>] and without [--all], when the configuration
    has an engine of that name, [run_job] starts exactly one worker, on
    that engine, and joins it; this is so in each of the four scripts. *)
Theorem named_engine_starts_one_worker (w : nat -> oracle)
    (worker : option Engine -> Py weff unit) (cfg : Config) (config_file_path : string)
    (engine_name : string) (engine : Engine) :
  engine_name <> "" ->
  dict_get cfg engine_name = Some engine ->
  let started (run : result unit * cstate) :=
    run.1 = Returned tt /\ started_on run.2 = [Some engine] /\ joined run.2 = [0] in
  (forall arguments,
      js_container.opt_all arguments = false ->
      js_container.opt_engine arguments = Some engine_name ->
      started (run_main w worker (js_container.run_job arguments cfg config_file_path)
                 process_start)) /\
  (forall arguments,
      dx_environment.opt_all arguments = false ->
      dx_environment.opt_engine arguments = Some engine_name ->
      started (run_main w worker (dx_environment.run_job arguments cfg config_file_path)
                 process_start)) /\
  (forall arguments,
      dx_jobs.opt_all arguments = false ->
      dx_jobs.opt_engine arguments = Some engine_name ->
      started (run_main w worker (dx_jobs.run_job arguments cfg config_file_path)
                 process_start)) /\
  (forall arguments,
      dx_replication.opt_all arguments = false ->
      dx_replication.opt_engine arguments = Some engine_name ->
      started (run_main w worker (dx_replication.run_job arguments cfg config_file_path)
                 process_start)).
Proof.
  intros Hname Hget started. subst started. cbv beta.
  pose proof (truthy_Some engine_name Hname) as Htruthy.
  split; [| split; [| split]]; intros arguments Hall Hengine;
    unfold js_container.run_job, dx_environment.run_job, dx_jobs.run_job,
      dx_replication.run_job;
    rewrite Hall, Hengine, Htruthy; unfold dict_getitem; simpl; rewrite Hget; simpl;
    destruct (exec (w 0) (worker (Some engine)) _) as [r ts]; simpl; auto.
Qed.

Lemma named_engine_starts_one_worker_witness :
  let run :=
    run_main (fun _ => Scenario.world_ok)
      (dx_replication.main_workflow (ScenarioArgs.rep_execute (Some "e1") false) 10)
      (dx_replication.run_job (ScenarioArgs.rep_execute (Some "e1") false)
         Scenario.two_engines "./dxtools.conf")
      process_start in
  "e1" <> "" /\ dict_get Scenario.two_engines "e1" = Some Scenario.engine1 /\
  run.1 = Returned tt /\ started_on run.2 = [Some Scenario.engine1] /\ joined run.2 = [0].
Proof.
  intros run. split; [discriminate |]. split; [reflexivity |].
  exact (proj2 (proj2 (proj2 (named_engine_starts_one_worker (fun _ => Scenario.world_ok)
                                (dx_replication.main_workflow
                                   (ScenarioArgs.rep_execute (Some "e1") false) 10)
                                Scenario.two_engines "./dxtools.conf" "e1" Scenario.engine1
                                ltac:(discriminate) eq_refl)))
           (ScenarioArgs.rep_execute (Some "e1") false) eq_refl eq_refl).
Defined.

(** Without [--all] and [--engine], when the first engine of the
    configuration is not marked default (or there is no engine at all), the
    other three scripts start no worker either, but each ends in its own
    way: dx_environment.py reports and calls [sys.exit(1)];
    dx_replication.py raises [DlpxException]; in dx_jobs.py the variable
    [engine] of [run_job] was never assigned, so the test [engine == None]
    itself fails with [UnboundLocalError], and the message about the
    default engine cannot be reached. *)
Theorem no_default_engine_in_the_other_scripts (w : nat -> oracle)
    (worker : option Engine -> Py weff unit) (cfg : Config) (config_file_path : string) :
  (forall ke, head cfg = Some ke -> default ke.2 <> "true") ->
  (forall arguments,
      dx_environment.opt_all arguments = false ->
      truthy (dx_environment.opt_engine arguments) = false ->
      let run :=
        run_main w worker (dx_environment.run_job arguments cfg config_file_path)
          process_start in
      run.1 = Raised (SystemExit 1) /\ started_on run.2 = []) /\
  (forall arguments,
      dx_replication.opt_all arguments = false ->
      truthy (dx_replication.opt_engine arguments) = false ->
      let run :=
        run_main w worker (dx_replication.run_job arguments cfg config_file_path)
          process_start in
      run.1 = Raised (DlpxException "ERROR: No default engine found. Exiting") /\
      started_on run.2 = []) /\
  (forall arguments,
      dx_jobs.opt_all arguments = false ->
      truthy (dx_jobs.opt_engine arguments) = false ->
      let run :=
        run_main w worker (dx_jobs.run_job arguments cfg config_file_path) process_start in
      run.1 = Raised (UnboundLocalError "engine") /\ started_on run.2 = []).
Proof.
  intros Hfirst.
  assert (Hcfg : cfg = [] \/
                 exists k e rest, cfg = (k, e) :: rest /\ String.eqb (default e) "true" = false).
  { destruct cfg as [| [k e] rest]; [left; reflexivity | right].
    exists k, e, rest. split; [reflexivity |].
    destruct (String.eqb_spec (default e) "true") as [Heq | Hne]; [| reflexivity].
    exfalso. exact (Hfirst (k, e) eq_refl Heq). }
  split; [| split]; intros arguments Hall Hengine run; subst run;
    unfold dx_environment.run_job, dx_replication.run_job, dx_jobs.run_job;
    rewrite Hall, Hengine;
    (destruct Hcfg as [-> | (k & e & rest & -> & Hdefault)];
     [ simpl; auto
     | unfold dict_getitem; simpl; rewrite String.eqb_refl; simpl; rewrite Hdefault;
       simpl; auto ]).
Qed.

Lemma no_default_engine_in_the_other_scripts_witness :
  (forall ke, head Scenario.two_engines = Some ke -> default ke.2 <> "true") /\
  (run_main (fun _ => Scenario.world_ok)
     (dx_jobs.main_workflow (ScenarioArgs.jobs_list None false) 10)
     (dx_jobs.run_job (ScenarioArgs.jobs_list None false) Scenario.two_engines
        "./dxtools.conf")
     process_start).1
  = Raised (UnboundLocalError "engine").
Proof.
  assert (Hfirst : forall ke, head Scenario.two_engines = Some ke -> default ke.2 <> "true")
    by (intros ke [= <-]; discriminate).
  split; [exact Hfirst |].
  exact (proj1 (proj2 (proj2 (no_default_engine_in_the_other_scripts
                                (fun _ => Scenario.world_ok)
                                (dx_jobs.main_workflow (ScenarioArgs.jobs_list None false) 10)
                                Scenario.two_engines "./dxtools.conf" Hfirst))
                  (ScenarioArgs.jobs_list None false) eq_refl eq_refl)).
Defined.

(** ** The exit status of the scripts *)

Lemma fuel_free_bind {E A B} (m : Py E A) (f : A -> Py E B) :
  fuel_free m -> (forall a, fuel_free (f a)) -> fuel_free (bind m f).
Proof. intros Hm Hf. induction m as [a | e | | R o k IH]; simpl in *; auto. Qed.

Lemma fuel_free_try_except {E A} (p : Py E A) (h : exn -> option (Py E A)) :
  fuel_free p -> (forall e q, h e = Some q -> fuel_free q) -> fuel_free (try_except p h).
Proof.
  intros Hp Hh. induction p as [a | e | | R o k IH]; simpl in *; auto.
  destruct (h e) as [q |] eqn:Hq; simpl; eauto.
Qed.

Lemma fuel_free_for_loop {E X S} (l : list X) (s : S) (body : X -> S -> Py E (ctl * S)) :
  (forall x s, fuel_free (body x s)) -> fuel_free (for_loop l s body).
Proof.
  intros Hbody. revert s. induction l as [| x l IH]; intros s; simpl; [exact I |].
  apply fuel_free_bind; [apply Hbody |]. intros [[|] s']; simpl; auto.
Qed.

Lemma fuel_free_for_each {E X} (l : list X) (body : X -> Py E unit) :
  (forall x, fuel_free (body x)) -> fuel_free (for_each l body).
Proof.
  intros Hbody. induction l as [| x l IH]; simpl; [exact I |].
  apply fuel_free_bind; auto.
Qed.

Lemma run_main_fuel_free {A} (w : nat -> oracle) (worker : option Engine -> Py weff unit)
    (p : Py ceff A) (st : cstate) :
  fuel_free p -> (run_main w worker p st).1 <> Exhausted.
Proof.
  revert st. induction p as [a | e | | R o k IH]; intros st Hp; simpl;
    try discriminate; try contradiction.
  destruct (cperform w worker o st) as [r st']. apply IH, Hp.
Qed.

Ltac fuel_free_step :=
  match goal with
  | |- fuel_free (Ret _) => exact I
  | |- fuel_free (Raise _) => exact I
  | |- fuel_free (sys_exit _) => exact I
  | |- fuel_free (bind _ _) => apply fuel_free_bind
  | |- fuel_free (try_except _ _) => apply fuel_free_try_except
  | |- fuel_free (for_loop _ _ _) => apply fuel_free_for_loop
  | |- fuel_free (for_each _ _) => apply fuel_free_for_each
  | |- fuel_free (call _) => intros ?; exact I
  | |- fuel_free (Vis _ _) => intros ?; cbv beta
  | |- fuel_free (print _ _) => intros ?; exact I
  | |- fuel_free (print_info _ _) => intros ?; exact I
  | |- fuel_free (print_debug _ _) => intros ?; exact I
  | |- fuel_free (print_exception _ _) => intros ?; exact I
  | |- fuel_free (session_getitem _ _) => unfold session_getitem
  | |- fuel_free (dict_getitem _ _) => unfold dict_getitem
  | |- forall e q, except _ _ e = Some q -> _ =>
      let e := fresh "e" in
      let q := fresh "q" in
      let H := fresh "H" in
      intros e q H; unfold except in H;
      match type of H with
      | (if ?c then _ else _) = _ => destruct c; [injection H as <- | discriminate H]
      end
  | |- forall _, _ => intros
  | |- fuel_free (if ?b then _ else _) => destruct b
  | |- fuel_free (match ?x with _ => _ end) => destruct x
  | |- fuel_free (let '(_, _) := ?x in _) => destruct x
  end.

Lemma run_jobs_fuel_free (cfg : Config) (config_file_path : string) :
  (forall arguments, fuel_free (js_container.run_job arguments cfg config_file_path)) /\
  (forall arguments, fuel_free (dx_environment.run_job arguments cfg config_file_path)) /\
  (forall arguments, fuel_free (dx_jobs.run_job arguments cfg config_file_path)) /\
  (forall arguments, fuel_free (dx_replication.run_job arguments cfg config_file_path)).
Proof.
  split; [| split; [| split]]; intros arguments;
    unfold js_container.run_job, dx_environment.run_job, dx_jobs.run_job,
      dx_replication.run_job;
    repeat fuel_free_step.
Qed.

Ltac exit_code c :=
  exists c; split; [reflexivity |];
  repeat first [apply list_elem_of_here | apply list_elem_of_further].

Ltac main_exit_status w worker Hfree :=
  rewrite run_main_try_except;
  match goal with
  | |- context [run_main w worker ?p ?st] =>
      let Hp := fresh "Hp" in
      assert (Hp : fuel_free p);
      [ repeat fuel_free_step; apply Hfree
      | pose proof (run_main_fuel_free w worker p st Hp);
        destruct (run_main w worker p st) as [[[] | e |] st'];
        [ exit_code 0%Z
        | destruct e; simpl; first [exit_code 1%Z | exit_code 2%Z | exit_code 3%Z]
        | contradiction ] ]
  end.

(** Whatever the configuration, the engines and the workers do, the main
    thread of each script comes to an end with an exit status, and the
    status is one of a few: 0, 1, 2 or 3 for js_container.py and
    dx_environment.py; 0, 1 or 3 for dx_jobs.py and dx_replication.py,
    whose [main] has no clause for [DlpxException] and reports it with
    status 1 through the bare [except]. *)
Theorem scripts_exit_statuses (w : nat -> oracle) (worker : option Engine -> Py weff unit)
    (get_config : res Config) :
  (forall arguments,
      exits_with [0; 1; 2; 3]%Z
        (run_main w worker (js_container.main arguments get_config) process_start).1) /\
  (forall arguments,
      exits_with [0; 1; 2; 3]%Z
        (run_main w worker (dx_environment.main arguments get_config) process_start).1) /\
  (forall arguments,
      exits_with [0; 1; 3]%Z
        (run_main w worker (dx_jobs.main arguments get_config) process_start).1) /\
  (forall arguments,
      exits_with [0; 1; 3]%Z
        (run_main w worker (dx_replication.main arguments get_config) process_start).1).
Proof.
  split; [| split; [| split]]; intros arguments; unfold exits_with.
  - assert (Hfree : forall cfg,
               fuel_free (js_container.run_job arguments cfg
                            (js_container.opt_config arguments)))
      by (intros cfg; apply run_jobs_fuel_free).
    unfold js_container.main. main_exit_status w worker Hfree.
  - assert (Hfree : forall cfg,
               fuel_free (dx_environment.run_job arguments cfg
                            (dx_environment.opt_config arguments)))
      by (intros cfg; apply run_jobs_fuel_free).
    unfold dx_environment.main. main_exit_status w worker Hfree.
  - assert (Hfree : forall cfg,
               fuel_free (dx_jobs.run_job arguments cfg (dx_jobs.opt_config arguments)))
      by (intros cfg; apply run_jobs_fuel_free).
    unfold dx_jobs.main. main_exit_status w worker Hfree.
  - assert (Hfree : forall cfg,
               fuel_free (dx_replication.run_job arguments cfg
                            (dx_replication.opt_config arguments)))
      by (intros cfg; apply run_jobs_fuel_free).
    unfold dx_replication.main. main_exit_status w worker Hfree.
Qed.

(** When [--engine] names an engine that is not in the configuration,
    dx_jobs.py and dx_replication.py start no worker: [run_job] raises
    [DlpxException], and as [main] has no clause for it, the bare [except]
    reports it and the process exits with status 1. *)
Theorem unknown_engine_fails_in_dx_jobs_and_dx_replication (w : nat -> oracle)
    (worker : option Engine -> Py weff unit) (cfg : Config) :
  (forall arguments,
      dx_jobs.opt_all arguments = false ->
      truthy (dx_jobs.opt_engine arguments) = true ->
      dict_get cfg (arg (dx_jobs.opt_engine arguments)) = None ->
      let run := run_main w worker (dx_jobs.main arguments (Ok cfg)) process_start in
      started_on run.2 = [] /\ exit_status run.1 = Some 1%Z) /\
  (forall arguments,
      dx_replication.opt_all arguments = false ->
      truthy (dx_replication.opt_engine arguments) = true ->
      dict_get cfg (arg (dx_replication.opt_engine arguments)) = None ->
      let run := run_main w worker (dx_replication.main arguments (Ok cfg)) process_start in
      started_on run.2 = [] /\ exit_status run.1 = Some 1%Z).
Proof.
  split; intros arguments Hall Hengine Hget run; subst run;
    unfold dx_jobs.main, dx_jobs.run_job, dx_replication.main, dx_replication.run_job;
    rewrite Hall, Hengine; unfold dict_getitem; simpl; rewrite Hget; simpl; auto.
Qed.

Lemma unknown_engine_fails_in_dx_jobs_and_dx_replication_witness :
  let arguments := ScenarioArgs.rep_execute (Some "missing-name") false in
  let run :=
    run_main (fun _ => Scenario.world_ok) (dx_replication.main_workflow arguments 10)
      (dx_replication.main arguments (Ok Scenario.two_engines)) process_start in
  dx_replication.opt_all arguments = false /\
  truthy (dx_replication.opt_engine arguments) = true /\
  dict_get Scenario.two_engines (arg (dx_replication.opt_engine arguments)) = None /\
  started_on run.2 = [] /\ exit_status run.1 = Some 1%Z.
Proof.
  intros arguments run.
  split; [reflexivity |]. split; [reflexivity |]. split; [reflexivity |].
  exact (proj2 (unknown_engine_fails_in_dx_jobs_and_dx_replication
                  (fun _ => Scenario.world_ok) (dx_replication.main_workflow arguments 10)
                  Scenario.two_engines)
           arguments eq_refl eq_refl eq_refl).
Defined.

(** ** v1_8_0/delphix_snapshot_group_will_plugin.py *)

Section snapshot_plugin.
Import delphix_snapshot_group_will_plugin.

Lemma group_reference_for_find (all_groups : list Obj) (group_name : string) :
  group_reference_for all_groups group_name =
  reference <$> find (fun each => String.eqb group_name (name each)) all_groups.
Proof.
  induction all_groups as [| each rest IH]; [reflexivity |]. simpl.
  destruct (String.eqb group_name (name each)); [reflexivity | exact IH].
Qed.

Lemma run_syncs (w : world) (s : DelphixEngine) (database_objs : list Obj) (n : nat)
    (tr : list pevent) :
  (forall i ref, w i _ (Database_sync s ref) = Ok tt) ->
  run w (for_each database_objs
           (fun obj => library_call (Database_sync s (reference obj)))) n tr =
  (Returned tt,
   tr ++ map (fun obj => PEv (Database_sync s (reference obj)) (Ok tt)) database_objs).
Proof.
  intros Hw. revert n tr. induction database_objs as [| obj rest IH]; intros n tr.
  - simpl. rewrite app_nil_r. reflexivity.
  - cbn [for_each bind library_call call run]. rewrite Hw. cbn [bind].
    rewrite IH, <- app_assoc. reflexivity.
Qed.

Lemma syncs_app (tr tr' : list pevent) : syncs (tr ++ tr') = syncs tr ++ syncs tr'.
Proof. apply omap_app. Qed.

(** When no group of the engine has the name given to the plugin, the
    variable [group_reference] is never assigned: the handler fails with
    [UnboundLocalError] on its first use, before it has asked for the
    databases of any group, and nothing is snapshotted. *)
Theorem snapshot_group_without_the_group (w : world) (v_object : string)
    (all_groups : list Obj) :
  (forall s, w 0 _ (Group_get_all s) = Ok all_groups) ->
  Forall (fun each => name each <> v_object) all_groups ->
  let r := run w (snapshot_group_will v_object) 0 [] in
  r.1 = Raised (UnboundLocalError "group_reference") /\
  listed_groups r.2 = [] /\ syncs r.2 = [].
Proof.
  intros Hw Hnone r. subst r. unfold snapshot_group_will.
  cbn [bind library_call call run]. rewrite Hw. cbn [bind].
  rewrite group_reference_for_find.
  assert (Hfind : find (fun each => String.eqb v_object (name each)) all_groups = None).
  { clear Hw. induction Hnone as [| each rest Hne _ IH]; [reflexivity |]. simpl.
    destruct (String.eqb_spec v_object (name each)); [congruence | exact IH]. }
  rewrite Hfind. simpl. auto.
Qed.

Lemma snapshot_group_without_the_group_witness :
  let w : world := fun n R o =>
    match o in peff R return R with
    | Group_get_all _ => Ok [Scenario.obj "Dev" "GROUP-1"; Scenario.obj "QA" "GROUP-2"]
    | Database_get_all _ _ => Ok []
    | Database_sync _ _ => Ok tt
    end in
  (run w (snapshot_group_will "Prod") 0 []).1 = Raised (UnboundLocalError "group_reference").
Proof.
  intros w.
  apply (snapshot_group_without_the_group w "Prod"
           [Scenario.obj "Dev" "GROUP-1"; Scenario.obj "QA" "GROUP-2"]).
  - reflexivity.
  - repeat constructor; discriminate.
Defined.

(** When a group of the engine has the name, the plugin asks for the
    databases of the first such group, and of no other, and starts a
    snapshot of every one of these databases, once each and in the order
    in which the engine listed them. *)
Theorem snapshot_group_syncs_every_database (w : world) (v_object : string)
    (all_groups database_objs : list Obj) (group : Obj) :
  (forall s, w 0 _ (Group_get_all s) = Ok all_groups) ->
  find (fun each => String.eqb v_object (name each)) all_groups = Some group ->
  (forall s, w 1 _ (Database_get_all s (reference group)) = Ok database_objs) ->
  (forall i s ref, w i _ (Database_sync s ref) = Ok tt) ->
  let r := run w (snapshot_group_will v_object) 0 [] in
  r.1 = Returned tt /\
  listed_groups r.2 = [reference group] /\
  syncs r.2 = map reference database_objs.
Proof.
  intros Hgroups Hfind Hdbs Hsync r. subst r. unfold snapshot_group_will.
  cbn [bind library_call call run]. rewrite Hgroups. cbn [bind].
  rewrite group_reference_for_find, Hfind. cbn [fmap option_fmap option_map bind run].
  rewrite Hdbs. cbn [bind].
  match goal with
  | |- context [run w (for_each database_objs ?body) ?n ?tr] =>
      match body with
      | context [Database_sync ?s _] =>
          pose proof (run_syncs w s database_objs n tr (fun i ref => Hsync i s ref)) as Hs
      end
  end.
  unfold library_call, call in Hs. cbn [bind] in Hs. rewrite Hs. clear Hs.
  cbn [fst snd]. split; [reflexivity |]. split.
  - unfold listed_groups. rewrite !omap_app. simpl. clear.
    induction database_objs as [| obj rest IH]; [reflexivity |]. exact IH.
  - rewrite !syncs_app. simpl. clear.
    induction database_objs as [| obj rest IH]; [reflexivity |]. simpl.
    f_equal. exact IH.
Qed.

Lemma snapshot_group_syncs_every_database_witness :
  let w : world := fun n R o =>
    match o in peff R return R with
    | Group_get_all _ =>
        Ok [Scenario.obj "Dev" "GROUP-1"; Scenario.obj "QA" "GROUP-2";
            Scenario.obj "QA" "GROUP-3"]
    | Database_get_all _ g =>
        Ok (if String.eqb g "GROUP-2"
            then [Scenario.obj "db1" "DB-1"; Scenario.obj "db2" "DB-2"] else [])
    | Database_sync _ _ => Ok tt
    end in
  let r := run w (snapshot_group_will "QA") 0 [] in
  r.1 = Returned tt /\ listed_groups r.2 = ["GROUP-2"] /\ syncs r.2 = ["DB-1"; "DB-2"].
Proof.
  intros w.
  apply (snapshot_group_syncs_every_database w "QA"
           [Scenario.obj "Dev" "GROUP-1"; Scenario.obj "QA" "GROUP-2";
            Scenario.obj "QA" "GROUP-3"]
           [Scenario.obj "db1" "DB-1"; Scenario.obj "db2" "DB-2"]
           (Scenario.obj "QA" "GROUP-2")); reflexivity.
Defined.

End snapshot_plugin.

(** ** v1_8_0/dx_environment.py: a rejected creation *)

(** When the engine rejects the creation of a Linux environment with one
    of the errors the function names ([DlpxException], [RequestError],
    [HttpError], [JobError]), [create_linux_env] only reports it: it
    returns as after a success, it has tracked no job and it has left the
    session as it was, so the worker goes on as if the environment were
    being created. *)
Theorem create_linux_env_failure_is_only_reported (w : oracle)
    (arguments : dx_environment.Arguments) (engine : Engine)
    (env_name host_user ip_addr toolkit_path : string) (pw : option string)
    (st : tstate) (e : exn) :
  (forall params,
      w (calls st) _ (Invoke (server_session (session st)) c_environment Create None params)
      = Err e) ->
  existsb (isinstance e) [K_DlpxException; K_RequestError; K_HttpError; K_JobError] = true ->
  let run :=
    exec w (dx_environment.create_linux_env arguments engine env_name host_user ip_addr
              toolkit_path pw) st in
  run.1 = Returned tt /\ session run.2 = session st /\
  observations (trace run.2) = observations (trace st).
Proof.
  intros Hw He run. subst run. unfold dx_environment.create_linux_env.
  rewrite exec_bind.
  assert (Hprint : forall fmt args,
             exec w (print_debug fmt args) st =
             (Returned tt, {| session := session st; calls := calls st;
                              trace := trace st ++ [Ev (Print Debug fmt args) tt] |}))
    by reflexivity.
  destruct pw as [p |]; rewrite Hprint; cbn [bind]; rewrite exec_try_except;
    unfold invoke; cbn [bind call exec perform answer fst snd session calls trace].
  all: rewrite !exec_bind, exec_remote_call; cbn [calls]; rewrite Hw;
    destruct e; try discriminate He; simpl;
    rewrite !observations_app; simpl; rewrite !app_nil_r; auto.
Qed.

Lemma create_linux_env_failure_is_only_reported_witness :
  let run :=
    exec Scenario.world_rejecting
      (dx_environment.create_linux_env (ScenarioArgs.env_refresh None false)
         Scenario.engine1 "env2" "delphix" "10.0.0.9" "/var/opt/delphix" None)
      Scenario.fresh in
  run.1 = Returned tt /\ jobs (session run.2) = ∅.
Proof.
  intros run.
  destruct (create_linux_env_failure_is_only_reported Scenario.world_rejecting
              (ScenarioArgs.env_refresh None false) Scenario.engine1 "env2" "delphix"
              "10.0.0.9" "/var/opt/delphix" None Scenario.fresh RequestError
              (fun _ => eq_refl) eq_refl) as (Hr & Hs & _).
  fold run in Hr, Hs. split; [exact Hr |]. rewrite Hs. reflexivity.
Defined.

(** ** The lookups of lib/GetReferences.py on given answers *)

Lemma find_obj_list_first_match_witness :
  GetReferences.find_obj_list Scenario.catalog "db1" = Some (Scenario.obj "db1" "DB-1") /\
  GetReferences.find_obj_list Scenario.catalog "db2" = None.
Proof.
  split.
  - apply (proj1 (find_obj_list_first_match Scenario.catalog "db1")).
    exists [Scenario.obj "other" "OBJ-0"],
      [Scenario.obj "t1" "TEMPLATE-1"; Scenario.obj "db1" "DB-9";
       Scenario.obj "env1" "ENV-1"].
    split; [reflexivity |]. split; [reflexivity |].
    constructor; [discriminate | constructor].
  - apply (proj2 (find_obj_list_first_match Scenario.catalog "db2")).
    repeat constructor; discriminate.
Defined.

Lemma find_all_objects_errors_witness :
  let w : oracle := fun n R c =>
    match c in rcall R return res R with
    | Get_all _ _ _ => Err HttpError
    | c => Scenario.world_ok n _ c
    end in
  exists msg,
    (exec w (GetReferences.find_all_objects (Some "10.0.0.1") c_database) Scenario.fresh).1
    = Raised (DlpxException msg).
Proof.
  intros w.
  exact (proj2 (proj2 (proj2 (proj2 (find_all_objects_errors w (Some "10.0.0.1") c_database
                                       Scenario.fresh))))
           HttpError "10.0.0.1" eq_refl (or_intror eq_refl) eq_refl).
Defined.

Lemma get_db_name_errors_witness :
  let w : oracle := fun n R c =>
    match c in rcall R return res R with
    | Get _ _ _ => Err RequestError
    | c => Scenario.world_ok n _ c
    end in
  (exec Scenario.world_ok (GetReferences.get_db_name (Some "10.0.0.1") "DB-1")
     Scenario.fresh).1 = Returned "db1" /\
  exists msg,
    (exec w (GetReferences.get_db_name (Some "10.0.0.1") "DB-1") Scenario.fresh).1
    = Raised (DlpxException msg).
Proof.
  intros w. split.
  - exact (proj1 (proj2 (proj2 (proj2 (get_db_name_errors Scenario.world_ok
                                         (Some "10.0.0.1") "DB-1" Scenario.fresh))))
             (Scenario.obj "db1" "DB-1") eq_refl).
  - exact (proj2 (proj2 (proj2 (proj2 (get_db_name_errors w (Some "10.0.0.1") "DB-1"
                                         Scenario.fresh))))
             RequestError eq_refl (or_introl eq_refl)).
Defined.

(** ** js_container.py: how an engine error ends the worker *)

(** Once the worker of js_container.py is connected, none of the four
    exceptions its handler names ([DlpxException], [RequestError],
    [JobError], [HttpError]) ends it: the handler prints the error and
    calls [sys.exit(1)], so such an error always ends the worker in
    [SystemExit], which the thread drops. *)
Theorem js_container_worker_errors_end_in_sys_exit (w : oracle)
    (arguments : js_container.Arguments) (fuel : nat) (cfg : Config) (engine : Engine)
    (st : tstate) :
  w (calls st) _ (Connect (ip_address engine) (username engine) (password engine)) = Ok tt ->
  forall e,
    (exec w (js_container.main_workflow arguments fuel cfg (Some engine)) st).1 = Raised e ->
    existsb (isinstance e) [K_DlpxException; K_RequestError; K_JobError; K_HttpError] = false.
Proof.
  intros Hw e. unfold js_container.main_workflow.
  cbn [engine_item bind serversess call try_except exec perform]. rewrite Hw.
  cbn [answer bind try_except]. rewrite exec_try_except.
  match goal with
  | |- context [exec w ?p ?s] => destruct (exec w p s) as [[[] | e' |] st2]
  end; try discriminate.
  unfold except.
  destruct (existsb (isinstance e')
              [K_DlpxException; K_RequestError; K_JobError; K_HttpError]) eqn:Hcaught.
  - simpl. intros [= <-]. reflexivity.
  - intros [= <-]. exact Hcaught.
Qed.

Lemma js_container_worker_errors_end_in_sys_exit_witness :
  let run :=
    exec Scenario.world_poll_unreachable
      (js_container.main_workflow (ScenarioArgs.js_create None false) 100
         Scenario.two_engines (Some Scenario.engine1))
      (Scenario.tracking [("e1", Some "JOB-1")]) in
  run.1 = Raised (SystemExit 1) /\
  existsb (isinstance (SystemExit 1))
    [K_DlpxException; K_RequestError; K_JobError; K_HttpError] = false.
Proof.
  intros run.
  assert (Hr : run.1 = Raised (SystemExit 1)) by (vm_compute; reflexivity).
  split; [exact Hr |].
  exact (js_container_worker_errors_end_in_sys_exit Scenario.world_poll_unreachable
           (ScenarioArgs.js_create None false) 100 Scenario.two_engines Scenario.engine1
           (Scenario.tracking [("e1", Some "JOB-1")]) eq_refl (SystemExit 1) Hr).
Defined.

(** ** v1_8_0/dx_replication.py: the listing *)

Lemma printed_app (tr tr' : list event) : printed (tr ++ tr') = printed tr ++ printed tr'.
Proof. apply omap_app. Qed.

Section list_replication_jobs_facts.
Variable w : oracle.
Variable nm : string -> string.
Hypothesis database_names :
  forall n s ref, exists db, w n _ (Get s c_database ref) = Ok db /\ name db = nm ref.

Lemma exec_object_names (refs : list string) :
  forall (obj_names_lst : list string) (st : tstate),
    exists st',
      exec w (for_loop refs obj_names_lst (fun obj_spec_ref obj_names_lst =>
                s1 <- call Server_session ;;
                db <- remote_call (Get s1 c_database obj_spec_ref) ;;
                Ret (Next, obj_names_lst ++ [name db]))) st
      = (Returned (obj_names_lst ++ map nm refs), st') /\
      printed (trace st') = printed (trace st).
Proof.
  match goal with
  | |- context [for_loop refs _ ?b] => set (body := b)
  end.
  induction refs as [| ref refs IH]; intros obj_names_lst st.
  - exists st. simpl. rewrite app_nil_r. auto.
  - rewrite exec_for_loop_cons. unfold body at 1.
    cbn [bind call exec perform answer fst snd].
    rewrite exec_bind, exec_remote_call. cbn [calls session trace].
    destruct (database_names (calls st) (server_session (session st)) ref)
      as (db & -> & Hname).
    cbn [exec]. rewrite Hname.
    match goal with
    | |- context [exec w (for_loop refs ?acc body) ?s] =>
        destruct (IH acc s) as (st' & -> & Hprinted)
    end.
    exists st'. rewrite <- app_assoc. split; [reflexivity |].
    rewrite Hprinted. simpl. rewrite !printed_app. simpl. rewrite !app_nil_r. reflexivity.
Qed.

Lemma exec_list_replication_loop (rep_jobs : list Obj) :
  forall (obj_names_lst : list string) (st : tstate),
    exists names st',
      exec w (for_loop rep_jobs obj_names_lst (fun rep_job obj_names_lst =>
                obj_names_lst' <-
                  for_loop (objects rep_job) obj_names_lst
                    (fun obj_spec_ref obj_names_lst =>
                       s1 <- call Server_session ;;
                       db <- remote_call (Get s1 c_database obj_spec_ref) ;;
                       Ret (Next, obj_names_lst ++ [name db])) ;;
                print
                  "Name: {} Replicated Objects: {} Enabled: {} Encrypted: {} Reference: {} Schedule: {} Target Host: {}"
                  [name rep_job; String.concat ", " obj_names_lst'; attr rep_job "enabled";
                   attr rep_job "encrypted"; reference rep_job; attr rep_job "schedule";
                   attr rep_job "target_host"] ;;
                Ret (Next, obj_names_lst'))) st
      = (Returned names, st') /\
      map (fun line => line !! 1) (printed (trace st')) =
        map (fun line => line !! 1) (printed (trace st)) ++
        map (fun k => Some (String.concat ", "
                              (obj_names_lst ++
                               map nm (concat (map objects (take (S k) rep_jobs))))))
            (seq 0 (length rep_jobs)).
Proof.
  match goal with
  | |- context [for_loop rep_jobs _ ?b] => set (body := b)
  end.
  induction rep_jobs as [| rep_job rep_jobs IH]; intros obj_names_lst st.
  - exists obj_names_lst, st. simpl. rewrite app_nil_r. auto.
  - rewrite exec_for_loop_cons. unfold body at 1. rewrite exec_bind.
    destruct (exec_object_names (objects rep_job) obj_names_lst st) as (st1 & -> & Hp1).
    cbn [bind print call exec perform answer fst snd print_op weff_printing].
    match goal with
    | |- context [exec w (for_loop rep_jobs ?acc body) ?s] =>
        destruct (IH acc s) as (names & st' & -> & Hprinted)
    end.
    exists names, st'. split; [reflexivity |].
    rewrite Hprinted. cbn [trace]. rewrite printed_app, map_app, Hp1. simpl.
    rewrite <- app_assoc. f_equal. simpl. rewrite app_nil_r. f_equal.
    rewrite <- seq_shift, map_map. apply map_ext. intros k. simpl.
    rewrite map_app, app_assoc. reflexivity.
Qed.

End list_replication_jobs_facts.

(** [list_replication_jobs] starts its list of object names once, before
    the loop over the replication jobs, and only ever appends to it: the
    line printed for a job shows, as its replicated objects, the names of
    the objects of that job and of every job listed before it. *)
Theorem list_replication_jobs_accumulates_names (w : oracle) (st : tstate)
    (rep_jobs : list Obj) (nm : string -> string) :
  w (calls st) _ (Get_all (server_session (session st)) c_spec None) = Ok rep_jobs ->
  (forall n s ref, exists db, w n _ (Get s c_database ref) = Ok db /\ name db = nm ref) ->
  let run := exec w dx_replication.list_replication_jobs st in
  run.1 = Returned tt /\
  map (fun line => line !! 1) (printed (new_events st run.2)) =
    map (fun k => Some (String.concat ", "
                          (map nm (concat (map objects (take (S k) rep_jobs))))))
        (seq 0 (length rep_jobs)).
Proof.
  intros Hjobs Hnames run. subst run. unfold dx_replication.list_replication_jobs.
  match goal with
  | |- context [for_loop _ [] ?b] => set (body := b)
  end.
  cbn [bind call exec perform answer fst snd]. rewrite exec_bind, exec_remote_call.
  cbn [calls session trace]. rewrite Hjobs. rewrite exec_bind. unfold body. clear body.
  match goal with
  | |- context [exec w (for_loop rep_jobs [] ?body) ?s] =>
      destruct (exec_list_replication_loop w nm Hnames rep_jobs [] s)
        as (names & st' & Hrun & Hprinted);
      pose proof (exec_trace w (for_loop rep_jobs [] body) s) as [evs Hevs]
  end.
  rewrite Hrun in Hevs |- *. cbn [exec fst snd]. split; [reflexivity |].
  simpl in Hevs. erewrite new_events_app by (rewrite Hevs, <- !app_assoc; reflexivity).
  rewrite Hevs in Hprinted. cbn [trace] in Hprinted.
  rewrite !printed_app, !map_app in Hprinted. simpl in Hprinted.
  rewrite app_nil_r in Hprinted. apply app_inv_head in Hprinted.
  rewrite !printed_app, !map_app. simpl. exact Hprinted.
Qed.

Lemma list_replication_jobs_accumulates_names_witness :
  let spec (n : string) (refs : list string) :=
    {| name := n; reference := n; active_branch := ""; container := "";
       primary_user := ""; host := ""; last_updated := ""; objects := refs;
       jdbc_strings := None; attrs := [] |} in
  let w : oracle := fun n R c =>
    match c in rcall R return res R with
    | Get_all _ _ _ => Ok [spec "nightly" ["DB-1"]; spec "weekly" ["DB-2"]]
    | Get _ _ ref => Ok (Scenario.obj ref ref)
    | c => Scenario.world_ok n _ c
    end in
  map (fun line => line !! 1)
    (printed (new_events Scenario.fresh
                (exec w dx_replication.list_replication_jobs Scenario.fresh).2))
  = [Some "DB-1"; Some "DB-1, DB-2"].
Proof.
  intros spec w.
  exact (proj2 (list_replication_jobs_accumulates_names w Scenario.fresh
                  [spec "nightly" ["DB-1"]; spec "weekly" ["DB-2"]] id eq_refl
                  (fun n s ref => ex_intro _ (Scenario.obj ref ref) (conj eq_refl eq_refl)))).
Defined.

(** ** A failed connection *)

(** When the session cannot be opened ([serversess] raises
    [DlpxException]), the handler that should report it fails itself while
    it builds its message: in dx_environment.py, dx_jobs.py and
    dx_replication.py on [arguments['--target']], an option these scripts
    do not have, and in js_container.py on
    [dx_session_obj.dlpx_engines['hostname']], unless an engine is called
    hostname.  So the worker ends in [KeyError], not in [sys.exit(1)], and
    nothing was asked of the engine after the failed connection. *)
Theorem connection_failure_handler_fails (w : oracle) (fuel : nat) (engine : Engine)
    (st : tstate) (msg : string) :
  w (calls st) _ (Connect (ip_address engine) (username engine) (password engine))
  = Err (DlpxException msg) ->
  let failed := fun (key : string) (run : result unit * tstate) =>
    run.1 = Raised (KeyError key) /\
    new_events st run.2 =
      [Ev (Serversess (ip_address engine) (username engine) (password engine))
          (Err (DlpxException msg))] in
  (forall arguments cfg,
      dict_get cfg "hostname" = None ->
      failed "hostname"
        (exec w (js_container.main_workflow arguments fuel cfg (Some engine)) st)) /\
  (forall arguments,
      failed "--target"
        (exec w (dx_environment.main_workflow arguments fuel (Some engine)) st)) /\
  (forall arguments,
      failed "--target" (exec w (dx_jobs.main_workflow arguments fuel (Some engine)) st)) /\
  (forall arguments,
      failed "--target"
        (exec w (dx_replication.main_workflow arguments fuel (Some engine)) st)).
Proof.
  intros Hw failed. subst failed. cbv beta.
  split; [| split; [| split]]; intros arguments;
    [ intros cfg Hcfg; unfold js_container.main_workflow, dict_getitem; rewrite Hcfg
    | unfold dx_environment.main_workflow
    | unfold dx_jobs.main_workflow
    | unfold dx_replication.main_workflow ];
    cbn [engine_item bind serversess call try_except exec perform]; rewrite Hw;
    cbn [answer bind try_except except existsb isinstance orb exec fst snd];
    (split; [reflexivity | apply new_events_app; reflexivity]).
Qed.

Lemma connection_failure_handler_fails_witness :
  let w : oracle := fun n R c =>
    match c in rcall R return res R with
    | Connect _ _ _ => Err (DlpxException "login failed")
    | c => Scenario.world_ok n _ c
    end in
  (exec w (js_container.main_workflow (ScenarioArgs.js_create None false) 100
             Scenario.two_engines (Some Scenario.engine1)) Scenario.fresh).1
  = Raised (KeyError "hostname").
Proof.
  intros w.
  exact (proj1 (proj1 (connection_failure_handler_fails w 100 Scenario.engine1
                         Scenario.fresh "login failed" eq_refl)
                  (ScenarioArgs.js_create None false) Scenario.two_engines eq_refl)).
Defined.

(** ** dx_jobs.py tracks no job *)

Lemma dx_jobs_poll_cycle_idle (w : oracle) (os : list obs) (arguments : dx_jobs.Arguments)
    (engine : Engine) :
  invariant w (fun st => jobs (session st) = ∅ /\ observations (trace st) = os)
    (dx_jobs.poll_cycle arguments engine).
Proof.
  intros st [Hj Hobs]. unfold dx_jobs.poll_cycle.
  rewrite (exec_bind_returned _ _ _ _ _ _ (exec_jobs_keys w st)), Hj, map_to_list_empty.
  cbn -[size]. rewrite Hj, map_size_empty. simpl.
  rewrite !observations_app, Hobs. simpl. rewrite !app_nil_r. auto.
Qed.

Lemma dx_jobs_while_loop_idle (w : oracle) (os : list obs) (arguments : dx_jobs.Arguments)
    (fuel : nat) (engine : Engine) (thingstodo : list string) :
  invariant w (fun st => jobs (session st) = ∅ /\ observations (trace st) = os)
    (dx_jobs.while_loop arguments fuel engine thingstodo).
Proof.
  revert thingstodo. induction fuel as [| fuel IH]; intros thingstodo;
    cbn [dx_jobs.while_loop];
    (apply invariant_bind; [apply invariant_idle; simpl; auto |]); intros n;
    (destruct ((0 <? n)%nat || (0 <? length thingstodo)%nat); [| apply invariant_ret]).
  - apply invariant_out_of_fuel.
  - apply invariant_bind.
    + destruct (0 <? length thingstodo)%nat; [| apply invariant_ret].
      apply invariant_bind; [| intros; apply invariant_ret].
      apply invariant_idle. apply dx_jobs_thing_to_do_ops.
      intros R o. apply submission_op_idle.
    + intros thingstodo'. apply invariant_bind; [| intros; apply IH].
      apply dx_jobs_poll_cycle_idle.
Qed.

(** dx_jobs.py only lists jobs: nothing in it puts a job into the tracker.
    A worker that starts with an empty tracker keeps it empty and neither
    fetches the status of a job nor sleeps; its polling loop, taken over
    from the other scripts, has nothing to do. *)
Theorem dx_jobs_tracks_no_job (w : oracle) (arguments : dx_jobs.Arguments) (fuel : nat)
    (engine : option Engine) (st : tstate) :
  jobs (session st) = ∅ ->
  let run := exec w (dx_jobs.main_workflow arguments fuel engine) st in
  jobs (session run.2) = ∅ /\ observations (trace run.2) = observations (trace st).
Proof.
  intros Hj run. subst run.
  assert (Hinv : invariant w (fun st' => jobs (session st') = ∅ /\
                                         observations (trace st') = observations (trace st))
                   (dx_jobs.main_workflow arguments fuel engine));
    [| exact (Hinv st (conj Hj eq_refl))].
  unfold dx_jobs.main_workflow. apply invariant_bind.
  - apply invariant_idle. unfold engine_item, serversess, except. ops_brute.
  - intros _. destruct engine as [eng |]; [| apply invariant_raise].
    apply dx_jobs_while_loop_idle.
Qed.

Lemma dx_jobs_tracks_no_job_witness :
  let run :=
    exec Scenario.world_running
      (dx_jobs.main_workflow (ScenarioArgs.jobs_list None false) 100 (Some Scenario.engine1))
      Scenario.fresh in
  jobs (session Scenario.fresh) = ∅ /\
  run.1 = Returned tt /\ jobs (session run.2) = ∅ /\ observations (trace run.2) = [].
Proof.
  intros run. split; [reflexivity |]. split; [vm_compute; reflexivity |].
  exact (dx_jobs_tracks_no_job Scenario.world_running (ScenarioArgs.jobs_list None false)
           100 (Some Scenario.engine1) Scenario.fresh eq_refl).
Defined.

(** ** A pass over the tracked jobs *)

Lemma without_sleeps_app (os os' : list obs) :
  without_sleeps (os ++ os') = without_sleeps os ++ without_sleeps os'.
Proof. apply omap_app. Qed.

Lemma without_sleeps_sleeping (tail : list obs) :
  Forall is_sleeping tail -> without_sleeps tail = [].
Proof.
  induction 1 as [| o tail Ho _ IH]; [reflexivity |].
  destruct o; try contradiction. exact IH.
Qed.

Lemma without_sleeps_poll_obs (p : polled) : without_sleeps (poll_obs p) = poll_obs p.
Proof. destruct p as [[j ref] state]. simpl. destruct (is_terminal state); reflexivity. Qed.

Lemma new_events_refl (st : tstate) : new_events st st = [].
Proof. unfold new_events. apply drop_all. Qed.

Lemma new_events_trans (st st1 st' : tstate) :
  (exists evs, trace st1 = trace st ++ evs) ->
  (exists evs, trace st' = trace st1 ++ evs) ->
  new_events st st' = new_events st st1 ++ new_events st1 st'.
Proof.
  intros [evs Hevs] [evs' Hevs'].
  rewrite (new_events_app st st1 evs Hevs), (new_events_app st1 st' evs' Hevs').
  apply new_events_app. rewrite Hevs', Hevs, <- app_assoc. reflexivity.
Qed.

Lemma observations_new_events (st st' : tstate) (os : list obs) :
  (exists evs, trace st' = trace st ++ evs) ->
  observations (trace st') = observations (trace st) ++ os ->
  observations (new_events st st') = os.
Proof.
  intros [evs Hevs] Hobs. rewrite (new_events_app _ _ _ Hevs).
  rewrite Hevs, observations_app in Hobs. apply app_inv_head in Hobs. exact Hobs.
Qed.

Lemma ended_keys_cons (p : polled) (ps : list polled) :
  ended_keys (p :: ps) =
  (if is_terminal p.2 then [p.1.1] else []) ++ ended_keys ps.
Proof. unfold ended_keys. simpl. destruct (is_terminal p.2); reflexivity. Qed.

Lemma ended_keys_polled (ps : list polled) (j : string) :
  j ∈ ended_keys ps -> j ∈ ps.*1.*1.
Proof.
  induction ps as [| p ps IH]; [intros H; apply elem_of_nil in H; contradiction |].
  rewrite ended_keys_cons. intros H. apply elem_of_app in H as [H | H].
  - destruct (is_terminal p.2); [| apply elem_of_nil in H; contradiction].
    apply elem_of_cons in H as [-> | H]; [apply list_elem_of_here |].
    apply elem_of_nil in H. contradiction.
  - apply list_elem_of_further. apply IH, H.
Qed.

(** The pass that polls [j] and then goes over [keys]. *)
Lemma pass_over_cons (j : string) (keys : list string) (ref : job_ref) (state : string)
    (tail : list obs) (st st1 st' : tstate) {A} (r : result A) :
  j ∉ keys ->
  jobs (session st) !! j = Some ref ->
  (exists evs, trace st1 = trace st ++ evs) ->
  (exists evs, trace st' = trace st1 ++ evs) ->
  observations (new_events st st1) = poll_obs (j, ref, state) ++ tail ->
  Forall is_sleeping tail ->
  jobs (session st1) =
    (if is_terminal state then delete j (jobs (session st)) else jobs (session st)) ->
  pass_over keys st1 r st' ->
  pass_over (j :: keys) st r st'.
Proof.
  intros Hj Href Htr1 Htr' Hobs Htail Hjobs1 (ps & cut & Hwo & [n Hn] & Hin & Hjobs & Hret & Hcut).
  assert (Hpsj : j ∉ ps.*1.*1).
  { rewrite Hn. intros H. apply Hj. eapply subseteq_take, H. }
  exists ((j, ref, state) :: ps), cut. split; [| split; [| split; [| split; [| split]]]].
  - rewrite (new_events_trans st st1 st' Htr1 Htr'), observations_app, without_sleeps_app.
    rewrite Hobs, without_sleeps_app, without_sleeps_poll_obs,
      (without_sleeps_sleeping _ Htail), app_nil_r, Hwo.
    rewrite fmap_cons, concat_cons, <- app_assoc. reflexivity.
  - exists (S n). simpl. rewrite <- Hn. reflexivity.
  - intros k ref' state' Hk. apply elem_of_cons in Hk as [[= -> -> ->] | Hk]; [exact Href |].
    pose proof (Hin k ref' state' Hk) as Hk1. rewrite Hjobs1 in Hk1.
    destruct (is_terminal state); [| exact Hk1].
    apply lookup_delete_Some in Hk1. apply Hk1.
  - intros k. rewrite Hjobs, ended_keys_cons. simpl. rewrite Hjobs1.
    destruct (decide (k ∈ ended_keys ps)) as [Hk | Hk].
    + rewrite decide_True by (apply elem_of_app; auto). reflexivity.
    + destruct (is_terminal state); simpl.
      * destruct (decide (k = j)) as [-> | Hne].
        -- rewrite decide_True by apply list_elem_of_here. apply lookup_delete_eq.
        -- rewrite decide_False by (intros H; apply elem_of_cons in H as [? | ?]; auto).
           apply lookup_delete_ne. congruence.
      * rewrite decide_False by exact Hk. reflexivity.
  - intros Hr. destruct (Hret Hr) as [Hps ->]. split; [| reflexivity].
    rewrite !fmap_cons, Hps. reflexivity.
  - destruct Hcut as [-> | (k & ref' & e & -> & -> & Hk)]; [left; reflexivity |].
    right. exists k, ref', e. split; [reflexivity |]. split; [reflexivity |].
    rewrite Hjobs1 in Hk. destruct (is_terminal state); [| exact Hk].
    apply lookup_delete_Some in Hk. apply Hk.
Qed.

(** A pass that ends with the poll of [j]. *)
Lemma pass_over_last (j : string) (keys : list string) (ref : job_ref) (state : string)
    (tail : list obs) (st st1 : tstate) {A} (e : exn) :
  jobs (session st) !! j = Some ref ->
  (exists evs, trace st1 = trace st ++ evs) ->
  observations (new_events st st1) = poll_obs (j, ref, state) ++ tail ->
  Forall is_sleeping tail ->
  jobs (session st1) =
    (if is_terminal state then delete j (jobs (session st)) else jobs (session st)) ->
  pass_over (j :: keys) st (Raised e : result A) st1.
Proof.
  intros Href Htr1 Hobs Htail Hjobs1.
  exists [(j, ref, state)], []. split; [| split; [| split; [| split; [| split]]]].
  - rewrite Hobs, without_sleeps_app, without_sleeps_poll_obs,
      (without_sleeps_sleeping _ Htail). simpl. rewrite !app_nil_r. reflexivity.
  - exists 1. reflexivity.
  - intros k ref' state' Hk. apply elem_of_cons in Hk as [[= -> -> ->] | Hk]; [exact Href |].
    apply elem_of_nil in Hk. contradiction.
  - intros k. rewrite Hjobs1, ended_keys_cons. simpl. rewrite app_nil_r.
    destruct (is_terminal state).
    + destruct (decide (k = j)) as [-> | Hne].
      * rewrite decide_True by apply list_elem_of_here. apply lookup_delete_eq.
      * rewrite decide_False
          by (intros H; apply elem_of_cons in H as [? | H]; [auto | apply elem_of_nil in H; auto]).
        apply lookup_delete_ne. congruence.
    + rewrite decide_False by apply not_elem_of_nil. reflexivity.
  - intros [a [=]].
  - left. reflexivity.
Qed.

Section pass.
Variable w : oracle.
Variable body : string -> nat -> Py weff (ctl * nat).
Hypothesis body_spec :
  forall j i st, polls_one_job w j st (exec w (body j i) st).1 (exec w (body j i) st).2.

Lemma for_loop_pass_over (keys : list string) :
  NoDup keys ->
  forall (i : nat) (st : tstate),
    (forall k, k ∈ keys -> is_Some (jobs (session st) !! k)) ->
    pass_over keys st (exec w (for_loop keys i body) st).1
      (exec w (for_loop keys i body) st).2.
Proof.
  induction keys as [| j keys IH]; intros Hnd i st Hkeys.
  - exists [], []. simpl. rewrite new_events_refl. split; [reflexivity |].
    split; [exists 0; reflexivity |].
    split; [intros j ref state H; apply elem_of_nil in H; contradiction |].
    split; [intros j; reflexivity |].
    split; auto.
  - apply NoDup_cons in Hnd as [Hj Hnd].
    destruct (Hkeys j (list_elem_of_here _ _)) as [ref Href].
    pose proof (body_spec j i st) as [Hsess Hspec]. rewrite Href in Hspec.
    pose proof (exec_trace w (body j i) st) as Htr1.
    rewrite exec_for_loop_cons.
    destruct (exec w (body j i) st) as [r1 st1] eqn:Hbody.
    cbn [fst snd] in Hsess, Hspec, Htr1.
    destruct (w (calls st) Job (Job_get (server_session (session st)) ref)) as [jb | e].
    + destruct Hspec as (Hr1 & Hjobs1 & tail & Htail & Hobs1).
      pose proof (observations_new_events st st1 _ Htr1 Hobs1) as Hnew1.
      assert (Hnew : observations (new_events st st1) = poll_obs (j, ref, job_state jb) ++ tail).
      { rewrite Hnew1. unfold poll_obs. rewrite <- app_assoc. reflexivity. }
      destruct Hr1 as [[i' ->] | ->].
      * apply (pass_over_cons j keys ref (job_state jb) tail st st1); auto.
        -- apply exec_trace.
        -- apply IH; [exact Hnd |]. intros k Hk. rewrite Hjobs1.
           destruct (is_terminal (job_state jb)).
           ++ rewrite lookup_delete_ne by (intros ->; contradiction).
              apply Hkeys. apply list_elem_of_further. exact Hk.
           ++ apply Hkeys. apply list_elem_of_further. exact Hk.
      * simpl. apply (pass_over_last j keys ref (job_state jb) tail st st1); auto.
    + destruct Hspec as (-> & Hjobs1 & Hobs1). simpl.
      pose proof (observations_new_events st st1 _ Htr1 Hobs1) as Hnew1.
      exists [], [Lookup j (Some ref); Fetch ref (Err e)].
      split; [rewrite Hnew1; reflexivity |].
      split; [exists 0; reflexivity |].
      split; [intros k ref' state H; apply elem_of_nil in H; contradiction |].
      split; [intros k; rewrite Hjobs1; reflexivity |].
      split; [intros [a [=]] |].
      right. exists j, ref, e. auto.
Qed.

End pass.

(** Operations of the pause show nothing but sleeps and leave the tracker
    as it is. *)
Lemma exec_pause {A} (w : oracle) (p : Py weff A) (st : tstate) :
  all_ops (@pause_op) p ->
  jobs (session (exec w p st).2) = jobs (session st) /\
  exists evs,
    trace (exec w p st).2 = trace st ++ evs /\ without_sleeps (observations evs) = [].
Proof.
  revert st. induction p as [a | e | | R o k IH]; intros st Hp; simpl;
    try (split; [reflexivity | exists []; rewrite app_nil_r; auto]).
  destruct Hp as [Ho Hk].
  destruct (perform w o st) as [r st1] eqn:Hperf.
  destruct (IH r st1 (Hk r)) as (Hj & evs & Hevs & Hwo). rewrite Hj, Hevs.
  destruct o; simpl in Ho; try contradiction; simpl in Hperf;
    injection Hperf as <- <-; simpl;
    (split; [reflexivity |]); eexists; (split; [rewrite <- app_assoc; reflexivity |]);
    exact Hwo.
Qed.

Lemma pass_over_frame (keys : list string) (st0 st st1 st' : tstate) {A B}
    (r : result A) (r' : result B) :
  (exists evs0, trace st = trace st0 ++ evs0 /\ without_sleeps (observations evs0) = []) ->
  jobs (session st) = jobs (session st0) ->
  (exists evs, trace st1 = trace st ++ evs) ->
  (exists evs1, trace st' = trace st1 ++ evs1 /\ without_sleeps (observations evs1) = []) ->
  jobs (session st') = jobs (session st1) ->
  pass_over keys st r st1 ->
  (forall e, r = Raised e -> r' = Raised e) ->
  ((exists a, r' = Returned a) -> exists a, r = Returned a) ->
  pass_over keys st0 r' st'.
Proof.
  intros (evs0 & Hevs0 & Hwo0) Hj0 [evs Hevs] (evs1 & Hevs1 & Hwo1) Hj1
    (ps & cut & Hwo & Hn & Hin & Hjobs & Hret & Hcut) Hraised Hreturned.
  exists ps, cut. split; [| split; [exact Hn | split; [| split; [| split]]]].
  - rewrite (new_events_app st st1 evs Hevs) in Hwo.
    rewrite (new_events_app st0 st' (evs0 ++ evs ++ evs1))
      by (rewrite Hevs1, Hevs, Hevs0, <- !app_assoc; reflexivity).
    rewrite !observations_app, !without_sleeps_app, Hwo0, Hwo1, Hwo, app_nil_r.
    reflexivity.
  - intros j ref state Hp. rewrite <- Hj0. eauto.
  - intros j. rewrite Hj1, Hjobs, Hj0. reflexivity.
  - intros Hr. apply Hret, Hreturned, Hr.
  - destruct Hcut as [-> | (j & ref & e & -> & -> & Hj)]; [left; reflexivity |].
    right. exists j, ref, e. rewrite <- Hj0. auto.
Qed.

Section cycle.
Variable w : oracle.
Variable body : string -> nat -> Py weff (ctl * nat).
Hypothesis body_spec :
  forall j i st, polls_one_job w j st (exec w (body j i) st).1 (exec w (body j i) st).2.

(** A polling cycle: [keys()], the [for] loop, and the pause. *)
Lemma poll_cycle_polls_the_tracker (rest : nat -> Py weff unit) (st : tstate) :
  (forall i, all_ops (@pause_op) (rest i)) ->
  let run := exec w (keys <- call Jobs_keys ;; i <- for_loop keys 0 body ;; rest i) st in
  polls_the_tracker st run.1 run.2.
Proof.
  intros Hrest run. subst run. unfold polls_the_tracker.
  rewrite (exec_bind_returned _ _ _ _ _ _ (exec_jobs_keys w st)).
  set (keys := (map_to_list (jobs (session st))).*1).
  set (st0 := {| session := session st; calls := calls st;
                 trace := trace st ++ [Ev Jobs_keys keys] |}).
  assert (Hpass : pass_over keys st0 (exec w (for_loop keys 0 body) st0).1
                    (exec w (for_loop keys 0 body) st0).2).
  { apply for_loop_pass_over; [exact body_spec | apply NoDup_fst_map_to_list |].
    intros k Hk. apply list_elem_of_fmap in Hk as [[k' v] [-> Hk]].
    apply elem_of_map_to_list in Hk. simpl. rewrite Hk. eauto. }
  pose proof (exec_trace w (for_loop keys 0 body) st0) as Htr1.
  rewrite exec_bind.
  destruct (exec w (for_loop keys 0 body) st0) as [[i | e |] st1]; cbn [fst snd] in *.
  - destruct (exec_pause w (rest i) st1 (Hrest i)) as (Hj & Hevs).
    apply (pass_over_frame keys st st0 st1 _ (Returned i)); auto.
    + exists [Ev Jobs_keys keys]. auto.
    + intros e [=].
    + eauto.
  - apply (pass_over_frame keys st st0 st1 _ (Raised e : result nat)); auto.
    + exists [Ev Jobs_keys keys]. auto.
    + exists []. rewrite app_nil_r. auto.
    + intros e' [= <-]. reflexivity.
    + intros [a [=]].
  - apply (pass_over_frame keys st st0 st1 _ (Exhausted : result nat)); auto.
    + exists [Ev Jobs_keys keys]. auto.
    + exists []. rewrite app_nil_r. auto.
    + intros e' [=].
    + intros [a [=]].
Qed.

End cycle.

Lemma js_container_poll_cycle_polls_the_tracker (w : oracle)
    (arguments : js_container.Arguments) (engine : Engine) (st : tstate) :
  let run := exec w (js_container.poll_cycle arguments engine) st in
  polls_the_tracker st run.1 run.2.
Proof.
  apply (poll_cycle_polls_the_tracker w (js_container.poll_job arguments engine)
           (fun j i st => js_container_poll_job_spec w arguments engine j i st)
           (fun _ => Ret tt)).
  intros i. exact I.
Qed.

Lemma dx_jobs_poll_cycle_polls_the_tracker (w : oracle)
    (arguments : dx_jobs.Arguments) (engine : Engine) (st : tstate) :
  let run := exec w (dx_jobs.poll_cycle arguments engine) st in
  polls_the_tracker st run.1 run.2.
Proof.
  apply (poll_cycle_polls_the_tracker w (dx_jobs.poll_job engine)
           (fun j i st => dx_jobs_poll_job_spec w engine j i st)).
  intros i. unfold float_of. simpl. split; [exact I |]. intros n.
  destruct (0 <? n)%nat; [| exact I]. destruct (float_literal _); simpl; auto.
Qed.

(** ** The pause of a polling cycle *)

Lemma pauses_once_sleep (poll : string) (st st1 : tstate) (s : GetSession) (n : nat) :
  (exists evs, trace st1 = trace st ++ evs) ->
  sleeps (trace st1) = sleeps (trace st) ->
  float_literal poll = true ->
  size (jobs s) <> 0 ->
  pauses_once poll st
    {| session := s; calls := n; trace := trace st1 ++ [Ev (Sleep poll) tt] |}.
Proof.
  intros [evs Hevs] Hsleeps Hfloat Hsize. unfold pauses_once. cbn [session trace].
  destruct (size (jobs s)) as [| m]; [contradiction |]. cbn [Nat.ltb Nat.leb].
  split; [exact Hfloat |]. exists evs. split.
  - apply new_events_app. cbn [trace]. rewrite Hevs, <- app_assoc. reflexivity.
  - rewrite Hevs, sleeps_app in Hsleeps.
    rewrite <- (app_nil_r (sleeps (trace st))) in Hsleeps at 2.
    apply app_inv_head in Hsleeps. exact Hsleeps.
Qed.

Lemma pauses_once_no_sleep (poll : string) (st st' : tstate) :
  (exists evs, trace st' = trace st ++ evs) ->
  sleeps (trace st') = sleeps (trace st) ->
  size (jobs (session st')) = 0 ->
  pauses_once poll st st'.
Proof.
  intros [evs Hevs] Hsleeps Hsize. unfold pauses_once. rewrite Hsize. cbn [Nat.ltb Nat.leb].
  rewrite (new_events_app _ _ _ Hevs).
  rewrite Hevs, sleeps_app in Hsleeps.
  rewrite <- (app_nil_r (sleeps (trace st))) in Hsleeps at 2.
  apply app_inv_head in Hsleeps. exact Hsleeps.
Qed.

Ltac trace_extends :=
  repeat match goal with
         | x := _ : tstate |- _ => subst x
         end;
  lazymatch goal with
  | H : exists evs, trace ?st1 = trace ?st0 ++ evs |- exists evs, _ = trace ?st ++ evs =>
      let evs := fresh "evs" in let Hevs := fresh "Hevs" in
      destruct H as [evs Hevs]; cbn [trace] in *; rewrite ?Hevs;
      eexists; rewrite <- ?app_assoc; reflexivity
  | |- exists evs, _ = trace ?st ++ evs =>
      cbn [trace]; eexists; rewrite <- ?app_assoc; reflexivity
  end.

(** dx_environment.py: the [sleep] follows the [for]. *)
Lemma dx_environment_poll_cycle_pauses_once (w : oracle)
    (arguments : dx_environment.Arguments) (engine : Engine) (st : tstate) :
  let run := exec w (dx_environment.poll_cycle arguments engine) st in
  run.1 = Returned tt ->
  pauses_once (dx_environment.opt_poll arguments) st run.2.
Proof.
  intros run. subst run. unfold dx_environment.poll_cycle.
  rewrite (exec_bind_returned _ _ _ _ _ _ (exec_jobs_keys w st)).
  set (keys := (map_to_list (jobs (session st))).*1).
  set (st0 := {| session := session st; calls := calls st;
                 trace := trace st ++ [Ev Jobs_keys keys] |}).
  rewrite exec_bind.
  assert (Hloop : sleeps (trace (exec w (for_loop keys 0 (dx_environment.poll_job engine))
                                   st0).2) = sleeps (trace st)).
  { rewrite exec_not_sleep.
    - subst st0. simpl. rewrite sleeps_app. apply app_nil_r.
    - apply all_ops_for_loop. intros j i. apply dx_environment_poll_job_not_sleep. }
  pose proof (exec_trace w (for_loop keys 0 (dx_environment.poll_job engine)) st0) as Htr.
  destruct (exec w (for_loop keys 0 (dx_environment.poll_job engine)) st0)
    as [[i | e |] st1]; [| discriminate | discriminate].
  cbn [fst snd] in Hloop, Htr. cbn -[size float_of].
  destruct (size (jobs (session st1))) eqn:Hsize; cbn -[size float_of].
  - intros _. apply pauses_once_no_sleep; [trace_extends | | exact Hsize].
    cbn [trace]. rewrite !sleeps_app, Hloop. simpl. rewrite !app_nil_r. reflexivity.
  - unfold float_of. destruct (float_literal _) eqn:Hfloat; cbn -[size]; [| discriminate].
    intros _.
    apply (pauses_once_sleep _ st
             {| session := session st1; calls := calls st1;
                trace := (trace st1 ++ [Ev (Print Info "{}: {:d} jobs running."
                                              [hostname engine; pretty i]) tt])
                         ++ [Ev Jobs_len (S n)] |});
      [trace_extends | | exact Hfloat | rewrite Hsize; discriminate].
    cbn [trace]. rewrite !sleeps_app, Hloop. simpl. rewrite !app_nil_r. reflexivity.
Qed.

(** dx_jobs.py: the same. *)
Lemma dx_jobs_poll_cycle_pauses_once (w : oracle) (arguments : dx_jobs.Arguments)
    (engine : Engine) (st : tstate) :
  let run := exec w (dx_jobs.poll_cycle arguments engine) st in
  run.1 = Returned tt ->
  pauses_once (dx_jobs.opt_poll arguments) st run.2.
Proof.
  intros run. subst run. unfold dx_jobs.poll_cycle.
  rewrite (exec_bind_returned _ _ _ _ _ _ (exec_jobs_keys w st)).
  set (keys := (map_to_list (jobs (session st))).*1).
  set (st0 := {| session := session st; calls := calls st;
                 trace := trace st ++ [Ev Jobs_keys keys] |}).
  rewrite exec_bind.
  assert (Hloop : sleeps (trace (exec w (for_loop keys 0 (dx_jobs.poll_job engine))
                                   st0).2) = sleeps (trace st)).
  { rewrite exec_not_sleep.
    - subst st0. simpl. rewrite sleeps_app. apply app_nil_r.
    - apply all_ops_for_loop. intros j i. apply dx_jobs_poll_job_not_sleep. }
  pose proof (exec_trace w (for_loop keys 0 (dx_jobs.poll_job engine)) st0) as Htr.
  destruct (exec w (for_loop keys 0 (dx_jobs.poll_job engine)) st0)
    as [[i | e |] st1]; [| discriminate | discriminate].
  cbn [fst snd] in Hloop, Htr. cbn -[size float_of].
  destruct (size (jobs (session st1))) eqn:Hsize; cbn -[size float_of].
  - intros _. apply pauses_once_no_sleep; [trace_extends | | exact Hsize].
    cbn [trace]. rewrite !sleeps_app, Hloop. simpl. rewrite !app_nil_r. reflexivity.
  - unfold float_of. destruct (float_literal _) eqn:Hfloat; cbn -[size]; [| discriminate].
    intros _.
    apply (pauses_once_sleep _ st
             {| session := session st1; calls := calls st1;
                trace := trace st1 ++ [Ev Jobs_len (S n)] |});
      [trace_extends | | exact Hfloat | rewrite Hsize; discriminate].
    cbn [trace]. rewrite !sleeps_app, Hloop. simpl. rewrite !app_nil_r. reflexivity.
Qed.

(** js_container.py: the [sleep] is inside the [for]; with at most one
    job in the tracker it still comes once, after the pass. *)
Lemma js_container_poll_cycle_pauses_once (w : oracle)
    (arguments : js_container.Arguments) (engine : Engine) (st : tstate) :
  size (jobs (session st)) <= 1 ->
  let run := exec w (js_container.poll_cycle arguments engine) st in
  run.1 = Returned tt ->
  pauses_once (js_container.opt_poll arguments) st run.2.
Proof.
  intros Hsize run. subst run. unfold js_container.poll_cycle.
  rewrite (exec_bind_returned _ _ _ _ _ _ (exec_jobs_keys w st)).
  pose proof (length_map_to_list (jobs (session st))) as Hlen.
  destruct (map_to_list (jobs (session st))) as [| [j ref] [| kv l]] eqn:Hl;
    simpl in Hlen; [| | lia].
  - intros _. apply pauses_once_no_sleep; [trace_extends | | simpl; lia].
    simpl. rewrite sleeps_app. apply app_nil_r.
  - assert (Hj : jobs (session st) !! j = Some ref).
    { apply elem_of_map_to_list. rewrite Hl. apply list_elem_of_here. }
    cbn [fmap list_fmap fst for_loop]. unfold js_container.poll_job. poll_job_step.
    rewrite Hj. poll_job_step.
    destruct (w (calls st) Job (Job_get (server_session (session st)) ref)) as [jb | e];
      poll_job_step; [| discriminate].
    destruct (str_in (job_state jb) terminal_states); poll_job_step.
    + rewrite Hj. poll_job_step.
      assert (Hempty : size (delete j (jobs (session st))) = 0).
      { rewrite map_size_delete_Some by eauto. lia. }
      rewrite Hempty. poll_job_step. intros _.
      apply pauses_once_no_sleep; [trace_extends | | exact Hempty].
      cbn [trace]. rewrite !sleeps_app. simpl. rewrite !app_nil_r. reflexivity.
    + destruct (str_in_str (job_state jb) "RUNNING"); poll_job_step;
        rewrite <- Hlen; poll_job_step; unfold float_of;
        (destruct (float_literal _) eqn:Hfloat; poll_job_step; [| discriminate]);
        intros _;
        (match goal with
         | |- pauses_once ?poll _ {| session := ?s; calls := ?n;
                                     trace := ?tr ++ [Ev (Sleep _) tt] |} =>
             apply (pauses_once_sleep poll st {| session := s; calls := n; trace := tr |});
             [trace_extends | | exact Hfloat | rewrite <- Hlen; discriminate]
         end);
        cbn [trace]; rewrite !sleeps_app; simpl; rewrite !app_nil_r; reflexivity.
Qed.

(** ** The tracker of js_container.py under any schedule *)

Section run_orderly.
Variable w : nat -> oracle.
Variable worker : option Engine -> Py weff unit.
Hypothesis worker_staged : forall engine, staged (worker engine).

Lemma run_orderly (schedule : list Interleaving.tid) (sys : Interleaving.system) :
  orderly sys -> orderly (Interleaving.run w worker schedule sys).
Proof.
  revert sys. induction schedule as [| who schedule IH]; intros sys Hsys; [exact Hsys |].
  simpl. apply IH. destruct who as [| t]; simpl.
  - apply step_coordinator_orderly; assumption.
  - apply step_worker_orderly; assumption.
Qed.

End run_orderly.

Lemma orderly_start (main : Py ceff unit) : orderly (Interleaving.start main).
Proof. split; [reflexivity | constructor]. Qed.

(** No job is ever tracked in a run of js_container.py, whatever the
    schedule of its threads and whatever the engines answer. *)
Lemma js_container_tracker_stays_empty (w : nat -> oracle)
    (arguments : js_container.Arguments) (get_config : res Config) (fuel : nat)
    (cfg : Config) (schedule : list Interleaving.tid) :
  jobs (Interleaving.shared
          (Interleaving.run w (js_container.main_workflow arguments fuel cfg) schedule
             (Interleaving.start (js_container.main arguments get_config)))) = ∅.
Proof.
  apply (run_orderly w _ (js_container_main_workflow_staged arguments fuel cfg)).
  apply orderly_start.
Qed.

(** ** v1_8_0/dx_replication.py: the handler of the worker's loop *)

(** The operations dx_replication.py can be asked for never fetch a job
    status. *)
Lemma dx_replication_thing_to_do_ops (arguments : dx_replication.Arguments) :
  all_ops (@not_job_get) (dx_replication.thing_to_do arguments).
Proof.
  assert (Hsub : forall R (o : weff R), submission_op o -> not_job_get o)
    by (intros R o; apply submission_op_not_job_get).
  assert (Htrack : all_ops (@not_job_get) dx_replication.track_last_job).
  { unfold dx_replication.track_last_job, dx_replication.address_of.
    submission Hsub. split; [exact I | intros; exact I]. }
  unfold dx_replication.thing_to_do, dx_replication.create_replication_job,
    dx_replication.delete_replication_job, dx_replication.list_replication_jobs,
    dx_replication.execute_replication_job, dx_replication.int_option.
  repeat first
    [ exact Htrack
    | submission_step Hsub
    | match goal with
      | H : (if ?b then _ else _) = Some _ |- _ => destruct b
      | H : Some _ = Some _ |- _ => injection H as <-
      | H : None = Some _ |- _ => discriminate H
      end ].
Qed.

Lemma dx_replication_while_loop_fetch_failure (w : oracle)
    (arguments : dx_replication.Arguments) (fuel : nat) (engine : Engine)
    (thingstodo : list string) :
  fetch_failure_is_fatal w (dx_replication.while_loop arguments fuel engine thingstodo).
Proof.
  revert thingstodo. induction fuel as [| fuel IH]; intros thingstodo;
    cbn [dx_replication.while_loop];
    (apply fetch_failure_is_fatal_bind;
     [apply fetch_failure_is_fatal_not_job_get; ops_brute |]); intros n;
    (destruct ((0 <? n)%nat || (0 <? length thingstodo)%nat);
     [| apply fetch_failure_is_fatal_not_job_get; exact I]).
  - apply fetch_failure_is_fatal_not_job_get. exact I.
  - apply fetch_failure_is_fatal_bind.
    + apply fetch_failure_is_fatal_not_job_get.
      destruct (0 <? length thingstodo)%nat; [| exact I].
      apply all_ops_bind; [| intros; exact I].
      apply dx_replication_thing_to_do_ops.
    + intros thingstodo'. apply fetch_failure_is_fatal_bind; [| intros; apply IH].
      apply fetch_failure_is_fatal_poll_cycle.
      * intros j i st. apply dx_replication_poll_job_spec.
      * intros i. exact I.
Qed.

(** dx_replication.py: the handler of the loop names four classes and only
    prints. *)
Lemma dx_replication_main_workflow_fetch_failure (w : oracle)
    (arguments : dx_replication.Arguments) (fuel : nat) (engine : option Engine)
    (st : tstate) :
  no_failed_fetch (observations (trace st)) ->
  let run := exec w (dx_replication.main_workflow arguments fuel engine) st in
  no_failed_fetch (observations (trace run.2)) \/
  exists j ref e,
    ended_by_failed_fetch run.2 j ref e /\
    run.1 = if existsb (isinstance e)
                 [K_HttpError_v1_8_0; K_RequestError_v1_8_0; K_JobError_v1_8_0;
                  K_DlpxException]
            then Returned tt else Raised e.
Proof.
  intros Hst run. subst run. unfold dx_replication.main_workflow. rewrite exec_bind.
  match goal with
  | |- context [exec w (try_except ?p ?h) st] =>
      assert (H1 : no_failed_fetch (observations (trace (exec w (try_except p h) st).2)));
      [ apply exec_not_job_get; [| exact Hst];
        unfold engine_item, serversess, except; ops_brute
      | destruct (exec w (try_except p h) st) as [[[] | e |] st1] ]
  end; simpl in H1; [| left; exact H1 | left; exact H1].
  rewrite exec_try_except. destruct engine as [eng |]; [| left; exact H1].
  cbn [engine_item bind].
  pose proof (dx_replication_while_loop_fetch_failure w arguments fuel eng ["thingtodo"]
                st1 H1) as Hloop.
  destruct (exec w (dx_replication.while_loop arguments fuel eng ["thingtodo"]) st1)
    as [[a | e |] st2]; simpl in Hloop.
  - destruct Hloop as [Hloop | (j & ref & e & [=] & _)]. left. exact Hloop.
  - unfold except.
    destruct Hloop as [Hloop | (j & ref & e' & [= <-] & Hend)].
    + left. handler_cases; simpl; [apply no_failed_fetch_print |]; exact Hloop.
    + right. exists j, ref, e. handler_cases; simpl; split; try reflexivity.
      * apply (ended_by_failed_fetch_print st2). exact Hend.
      * exact Hend.
  - destruct Hloop as [Hloop | (j & ref & e & [=] & _)]. left. exact Hloop.
Qed.

(** dx_replication.py: the handler of the worker's loop only reports.
    Once the worker is connected, it never ends in one of the four
    exceptions the handler names: [HttpError], [RequestError] and
    [JobError] of [delphixpy.v1_8_0.exceptions], and [DlpxException].
    When the fetch of a job's status fails with one of them, the worker
    returns as if the work were done, with the job still in the tracker
    and never fetched again. *)
Theorem dx_replication_worker_swallows_errors (w : oracle)
    (arguments : dx_replication.Arguments) (fuel : nat) (engine : Engine) (s : GetSession)
    (n : nat) :
  w n _ (Connect (ip_address engine) (username engine) (password engine)) = Ok tt ->
  let handled :=
    [K_HttpError_v1_8_0; K_RequestError_v1_8_0; K_JobError_v1_8_0; K_DlpxException] in
  let run :=
    exec w (dx_replication.main_workflow arguments fuel (Some engine))
      {| session := s; calls := n; trace := [] |} in
  (forall e, run.1 = Raised e -> existsb (isinstance e) handled = false) /\
  (forall ref e pre post,
      observations (trace run.2) = pre ++ Fetch ref (Err e) :: post ->
      existsb (isinstance e) handled = true ->
      run.1 = Returned tt /\ post = [] /\
      exists j pre',
        pre = pre' ++ [Lookup j (Some ref)] /\ jobs (session run.2) !! j = Some ref).
Proof.
  intros Hw handled run. split.
  - intros e. subst run. unfold dx_replication.main_workflow.
    cbn [engine_item bind serversess call try_except exec perform calls]. rewrite Hw.
    cbn [answer bind try_except]. rewrite exec_try_except.
    match goal with
    | |- context [exec w ?p ?s] => destruct (exec w p s) as [[[] | e' |] st2]
    end; try discriminate.
    unfold except. fold handled.
    destruct (existsb (isinstance e') handled) eqn:Hcaught; [discriminate |].
    intros [= <-]. exact Hcaught.
  - intros ref e pre post Hobs Hcaught.
    destruct (dx_replication_main_workflow_fetch_failure w arguments fuel (Some engine)
                {| session := s; calls := n; trace := [] |} no_failed_fetch_nil)
      as [Hno | (j & ref' & e' & Hend & Hr)]; fold run in Hno || fold run in Hend, Hr.
    + exfalso. apply (Hno ref e). rewrite Hobs.
      apply elem_of_app. right. apply list_elem_of_here.
    + destruct (ended_by_failed_fetch_last _ _ _ _ _ _ _ _ Hend Hobs)
        as (-> & -> & -> & pre' & ->).
      fold handled in Hr. rewrite Hcaught in Hr.
      split; [exact Hr |]. split; [reflexivity |]. exists j, pre'.
      split; [reflexivity |]. apply Hend.
Qed.

Lemma dx_replication_worker_swallows_errors_witness :
  let arguments := ScenarioArgs.rep_execute None false in
  let run e :=
    exec (Scenario.world_failing_poll e)
      (dx_replication.main_workflow arguments 100 (Some Scenario.engine1))
      Scenario.fresh in
  (run HttpError_v1_8_0).1 = Returned tt /\
  jobs (session (run HttpError_v1_8_0).2) !! "10.0.0.1" = Some (Some "JOB-1") /\
  observations (trace (run HttpError_v1_8_0).2) =
    [Track "10.0.0.1" (Some "JOB-1"); Lookup "10.0.0.1" (Some (Some "JOB-1"));
     Fetch (Some "JOB-1") (Err HttpError_v1_8_0)] /\
  (run HttpError).1 = Raised HttpError /\
  (exec (Scenario.world_failing_listing RequestError)
     (dx_replication.main_workflow arguments 100 (Some Scenario.engine1))
     Scenario.fresh).1 = Raised RequestError.
Proof.
  intros arguments run.
  assert (Hobs : observations (trace (run HttpError_v1_8_0).2) =
                 [Track "10.0.0.1" (Some "JOB-1"); Lookup "10.0.0.1" (Some (Some "JOB-1"))]
                   ++ Fetch (Some "JOB-1") (Err HttpError_v1_8_0) :: [])
    by (vm_compute; reflexivity).
  destruct (proj2 (dx_replication_worker_swallows_errors
                     (Scenario.world_failing_poll HttpError_v1_8_0) arguments 100
                     Scenario.engine1 GetSession_new 0 eq_refl)
              (Some "JOB-1") HttpError_v1_8_0 _ _ Hobs eq_refl) as (Hr & _).
  split; [exact Hr |]. vm_compute. auto.
Defined.

(** ** Workers that share the session *)

(** C7.  js_container.py against both engines ([--all]).  The workers
    share [dx_session_obj], and [serversess] stores the session it opens in
    [dx_session_obj.server_session], through which every worker submits.
    Take two worlds that differ only in whether the first engine rejects
    what is submitted to it, and the schedule [late_connection], in which
    the second worker connects before the first one does and submits after
    it: its submission goes through the session of the first engine.  Where
    that engine accepts, both workers return; where it rejects, both end in
    [sys.exit(1)].  The outcome of the second engine's worker follows the
    failure of the first engine.  Under the schedule [one_after_the_other]
    the second worker submits through its own session and returns in both
    worlds. *)
Theorem js_container_sibling_outcome_follows_the_shared_session :
  let arguments := ScenarioArgs.js_create None true in
  let run schedule rejecting :=
    Interleaving.run (fun _ => Scenario.world_of_engines rejecting)
      (js_container.main_workflow arguments 100 Scenario.two_engines) schedule
      (Interleaving.start (js_container.main arguments (Ok Scenario.two_engines))) in
  let submitted sys :=
    (fun th => submissions (Interleaving.wtrace th)) <$> Interleaving.workers sys in
  (forall n R (c : rcall R),
      submission_to "10.0.0.1" c = false ->
      Scenario.world_of_engines [] n R c = Scenario.world_of_engines ["10.0.0.1"] n R c) /\
  worker_outcomes (run late_connection []) = [Some (Returned tt); Some (Returned tt)] /\
  worker_outcomes (run late_connection ["10.0.0.1"]) =
    [Some (Raised (SystemExit 1)); Some (Raised (SystemExit 1))] /\
  submitted (run late_connection []) =
    [[(Some "10.0.0.1", Ok "REF-1")]; [(Some "10.0.0.1", Ok "REF-1")]] /\
  submitted (run late_connection ["10.0.0.1"]) =
    [[(Some "10.0.0.1", Err RequestError)]; [(Some "10.0.0.1", Err RequestError)]] /\
  worker_outcomes (run one_after_the_other []) = [Some (Returned tt); Some (Returned tt)] /\
  worker_outcomes (run one_after_the_other ["10.0.0.1"]) =
    [Some (Raised (SystemExit 1)); Some (Returned tt)] /\
  submitted (run one_after_the_other ["10.0.0.1"]) =
    [[(Some "10.0.0.1", Err RequestError)]; [(Some "10.0.0.2", Ok "REF-1")]].
Proof.
  intros arguments run submitted. split.
  - intros n R c Hc. destruct c; try reflexivity.
    destruct s as [address |]; [| reflexivity]. simpl in Hc. simpl. rewrite Hc. reflexivity.
  - vm_compute. repeat split.
Qed.

(** ** The tracker of dx_jobs.py under any schedule *)

Lemma dx_jobs_while_loop_quiet (arguments : dx_jobs.Arguments) (fuel : nat)
    (engine : Engine) (thingstodo : list string) :
  all_ops (@quiet_op) (dx_jobs.while_loop arguments fuel engine thingstodo).
Proof.
  revert thingstodo. induction fuel as [| fuel IH]; intros thingstodo;
    cbn [dx_jobs.while_loop];
    (apply all_ops_bind; [simpl; auto |]); intros n;
    (destruct ((0 <? n)%nat || (0 <? length thingstodo)%nat); [| exact I]);
    [exact I |].
  apply all_ops_bind.
  - destruct (0 <? length thingstodo)%nat; [| exact I].
    apply all_ops_bind; [| intros; exact I].
    apply dx_jobs_thing_to_do_ops. intros R o. apply submission_op_quiet.
  - intros thingstodo'. apply all_ops_bind; [| intros; apply IH].
    unfold dx_jobs.poll_cycle. apply all_ops_bind; [simpl; auto |].
    intros keys. apply all_ops_bind; [| intros; ops_poll].
    apply all_ops_for_loop. intros j i. unfold dx_jobs.poll_job. ops_poll.
Qed.

(** The worker of dx_jobs.py connects first, and tracks no job. *)
Lemma dx_jobs_main_workflow_staged (arguments : dx_jobs.Arguments) (fuel : nat)
    (engine : option Engine) :
  staged (dx_jobs.main_workflow arguments fuel engine).
Proof.
  unfold dx_jobs.main_workflow. destruct engine as [eng |]; [| exact I].
  cbn [engine_item bind serversess call try_except staged]. intros r.
  apply all_ops_bind.
  - destruct r as [[] | e]; [exact I |]. cbn [try_except bind].
    unfold except. destruct (existsb (isinstance e) [K_DlpxException]); exact I.
  - intros _. apply dx_jobs_while_loop_quiet.
Qed.

(** No job is ever tracked in a run of dx_jobs.py either. *)
Lemma dx_jobs_tracker_stays_empty (w : nat -> oracle) (arguments : dx_jobs.Arguments)
    (get_config : res Config) (fuel : nat) (schedule : list Interleaving.tid) :
  jobs (Interleaving.shared
          (Interleaving.run w (dx_jobs.main_workflow arguments fuel) schedule
             (Interleaving.start (dx_jobs.main arguments get_config)))) = ∅.
Proof.
  apply (run_orderly w _ (dx_jobs_main_workflow_staged arguments fuel)).
  apply orderly_start.
Qed.

(** ** A polling cycle comes to its end *)

Section returning_pass.
Variable w : oracle.
Variable body : string -> nat -> Py weff (ctl * nat).
Hypothesis body_spec :
  forall j i st, polls_one_job w j st (exec w (body j i) st).1 (exec w (body j i) st).2.
Hypothesis body_returns :
  forall j i st ref jb,
    jobs (session st) !! j = Some ref ->
    w (calls st) _ (Job_get (server_session (session st)) ref) = Ok jb ->
    exists i', (exec w (body j i) st).1 = Returned (Next, i').
Hypothesis world_answers : fetches_answered w.

Lemma for_loop_returns (keys : list string) :
  NoDup keys ->
  forall (i : nat) (st : tstate),
    (forall k, k ∈ keys -> is_Some (jobs (session st) !! k)) ->
    exists i', (exec w (for_loop keys i body) st).1 = Returned i'.
Proof.
  induction keys as [| j keys IH]; intros Hnd i st Hkeys; [exists i; reflexivity |].
  apply NoDup_cons in Hnd as [Hj Hnd].
  destruct (Hkeys j (list_elem_of_here _ _)) as [ref Href].
  destruct (world_answers (calls st) (server_session (session st)) ref) as [jb Hjb].
  destruct (body_returns j i st ref jb Href Hjb) as [i1 Hi1].
  pose proof (body_spec j i st) as [_ Hspec]. rewrite Href, Hjb in Hspec.
  destruct Hspec as (_ & Hjobs1 & _).
  rewrite exec_for_loop_cons.
  destruct (exec w (body j i) st) as [r1 st1]. cbn [fst snd] in Hi1, Hjobs1. subst r1.
  apply IH; [exact Hnd |]. intros k Hk. rewrite Hjobs1.
  destruct (is_terminal (job_state jb)).
  - rewrite lookup_delete_ne by (intros ->; contradiction).
    apply Hkeys. apply list_elem_of_further. exact Hk.
  - apply Hkeys. apply list_elem_of_further. exact Hk.
Qed.

Lemma for_loop_keys_returns (i : nat) (st : tstate) (seen : list event) :
  exists i',
    (exec w (for_loop (map_to_list (jobs (session st))).*1 i body)
       {| session := session st; calls := calls st; trace := seen |}).1 = Returned i'.
Proof.
  apply for_loop_returns; [apply NoDup_fst_map_to_list |].
  intros k Hk. apply list_elem_of_fmap in Hk as [[k' v] [-> Hk]].
  apply elem_of_map_to_list in Hk. simpl. rewrite Hk. eauto.
Qed.

End returning_pass.

Lemma js_container_poll_job_returns (w : oracle) (arguments : js_container.Arguments)
    (engine : Engine) (j : string) (i : nat) (st : tstate) (ref : job_ref) (jb : Job) :
  float_literal (js_container.opt_poll arguments) = true ->
  jobs (session st) !! j = Some ref ->
  w (calls st) _ (Job_get (server_session (session st)) ref) = Ok jb ->
  exists i', (exec w (js_container.poll_job arguments engine j i) st).1 = Returned (Next, i').
Proof.
  intros Hfloat Hj Hw. unfold js_container.poll_job, float_of. rewrite Hfloat.
  poll_job_step. rewrite Hj. poll_job_step. rewrite Hw. poll_job_step.
  destruct (str_in (job_state jb) terminal_states); poll_job_step.
  - rewrite Hj. poll_job_step.
    destruct (size (delete j (jobs (session st)))); poll_job_step; eauto.
  - destruct (str_in_str (job_state jb) "RUNNING"); poll_job_step;
      destruct (size (jobs (session st))); poll_job_step; eauto.
Qed.

Lemma dx_jobs_poll_job_returns (w : oracle) (engine : Engine) (j : string) (i : nat)
    (st : tstate) (ref : job_ref) (jb : Job) :
  jobs (session st) !! j = Some ref ->
  w (calls st) _ (Job_get (server_session (session st)) ref) = Ok jb ->
  exists i', (exec w (dx_jobs.poll_job engine j i) st).1 = Returned (Next, i').
Proof.
  intros Hj Hw. unfold dx_jobs.poll_job.
  poll_job_step. rewrite Hj. poll_job_step. rewrite Hw. poll_job_step.
  destruct (str_in (job_state jb) terminal_states); poll_job_step.
  - rewrite Hj. poll_job_step. eauto.
  - destruct (str_in_str (job_state jb) "RUNNING"); poll_job_step; eauto.
Qed.

Lemma dx_environment_poll_job_returns (w : oracle) (engine : Engine) (j : string)
    (i : nat) (st : tstate) (ref : job_ref) (jb : Job) :
  jobs (session st) !! j = Some ref ->
  w (calls st) _ (Job_get (server_session (session st)) ref) = Ok jb ->
  exists i', (exec w (dx_environment.poll_job engine j i) st).1 = Returned (Next, i').
Proof.
  intros Hj Hw. unfold dx_environment.poll_job.
  poll_job_step. rewrite Hj. poll_job_step. rewrite Hw. poll_job_step.
  destruct (str_in (job_state jb) terminal_states); poll_job_step; [| eauto].
  rewrite Hj. poll_job_step. eauto.
Qed.

(** On an engine that answers every status fetch, and with a number for
    [--poll], a polling cycle comes to its end. *)
Lemma js_container_poll_cycle_returns (w : oracle) (arguments : js_container.Arguments)
    (engine : Engine) (st : tstate) :
  fetches_answered w ->
  float_literal (js_container.opt_poll arguments) = true ->
  (exec w (js_container.poll_cycle arguments engine) st).1 = Returned tt.
Proof.
  intros Hw Hfloat. unfold js_container.poll_cycle.
  rewrite (exec_bind_returned _ _ _ _ _ _ (exec_jobs_keys w st)).
  destruct (for_loop_keys_returns w (js_container.poll_job arguments engine)
              (fun j i st => js_container_poll_job_spec w arguments engine j i st)
              (fun j i st ref jb =>
                 js_container_poll_job_returns w arguments engine j i st ref jb Hfloat)
              Hw 0 st (trace st ++ [Ev Jobs_keys (map_to_list (jobs (session st))).*1]))
    as [i' Hi'].
  rewrite exec_bind.
  match goal with
  | |- context [exec w (for_loop ?l ?i ?b) ?s] => destruct (exec w (for_loop l i b) s)
  end.
  cbn [fst] in Hi'. subst. reflexivity.
Qed.

Lemma dx_jobs_poll_cycle_returns (w : oracle) (arguments : dx_jobs.Arguments)
    (engine : Engine) (st : tstate) :
  fetches_answered w ->
  float_literal (dx_jobs.opt_poll arguments) = true ->
  (exec w (dx_jobs.poll_cycle arguments engine) st).1 = Returned tt.
Proof.
  intros Hw Hfloat. unfold dx_jobs.poll_cycle, float_of. rewrite Hfloat.
  rewrite (exec_bind_returned _ _ _ _ _ _ (exec_jobs_keys w st)).
  destruct (for_loop_keys_returns w (dx_jobs.poll_job engine)
              (fun j i st => dx_jobs_poll_job_spec w engine j i st)
              (fun j i st ref jb => dx_jobs_poll_job_returns w engine j i st ref jb)
              Hw 0 st (trace st ++ [Ev Jobs_keys (map_to_list (jobs (session st))).*1]))
    as [i' Hi'].
  rewrite exec_bind.
  match goal with
  | |- context [exec w (for_loop ?l ?i ?b) ?s] =>
      destruct (exec w (for_loop l i b) s) as [r1 st1]
  end.
  cbn [fst] in Hi'. subst. cbn -[size].
  destruct (size (jobs (session st1))); reflexivity.
Qed.

Lemma dx_environment_poll_cycle_returns (w : oracle)
    (arguments : dx_environment.Arguments) (engine : Engine) (st : tstate) :
  fetches_answered w ->
  float_literal (dx_environment.opt_poll arguments) = true ->
  (exec w (dx_environment.poll_cycle arguments engine) st).1 = Returned tt.
Proof.
  intros Hw Hfloat. unfold dx_environment.poll_cycle, float_of. rewrite Hfloat.
  rewrite (exec_bind_returned _ _ _ _ _ _ (exec_jobs_keys w st)).
  destruct (for_loop_keys_returns w (dx_environment.poll_job engine)
              (fun j i st => dx_environment_poll_job_spec w engine j i st)
              (fun j i st ref jb => dx_environment_poll_job_returns w engine j i st ref jb)
              Hw 0 st (trace st ++ [Ev Jobs_keys (map_to_list (jobs (session st))).*1]))
    as [i' Hi'].
  rewrite exec_bind.
  match goal with
  | |- context [exec w (for_loop ?l ?i ?b) ?s] =>
      destruct (exec w (for_loop l i b) s) as [r1 st1]
  end.
  cbn [fst] in Hi'. subst. cbn -[size].
  destruct (size (jobs (session st1))); reflexivity.
Qed.




